(** * Energy-Wise forecasting pipeline: a shallow embedding

    The development follows the Python sources:
    - [src/constants.py]            (module [Constants]),
    - [src/api/service.py]          (module [Service]),
    - [src/models/xgboost.py]       (module [XGBoost]),
    - [src/models/prophet.py]       (module [ProphetTrainer]),
    - [src/utils/data_loader.py]    (module [DataLoader]),
    - [src/utils/file_ops.py]       (module [FileOps]),
    - [src/utils/model_loader.py]   (module [ModelLoader]),
    - [src/api/dtos.py]             (modules [ForecastRequest] to
                                     [ExplainResponse]),
    - [src/llm/energy_agent.py]     (module [EnergyAgent]),
    - [src/api/app.py]              (module [App]),
    - [src/models/train.py]         (module [Train]),
    - [data/download_data.py]       (module [DownloadData]),
    over models of what they call: Python's [datetime] (module
    [Datetime]), dictionaries, pandas' frames and scikit-learn's scaler
    and metrics (module [Sklearn]).  The fitted regressor, the seasonal
    model, [np.sqrt], the date parser and numpy's sort are parameters;
    module [Numpy] gives the generic kernel of that sort, to run the
    preparation on a concrete file.

    Floating-point cells are modelled as rationals ([Q]); a missing value
    (NaN, NaT, None) is a constructor of its own.  Python exceptions are
    values of [exn]; a computation that may raise returns [result], and
    one that reads the clock runs in [IO]. *)

From Stdlib Require Import List ZArith QArith Qabs String Ascii Bool Lia.
From Stdlib Require Import DecimalString.
From Stdlib Require Import Sorting.Sorted Sorting.Permutation.
From Stdlib Require Import Eqdep_dec.
Import ListNotations.

#[local] Open Scope string_scope.
#[local] Open Scope list_scope.
#[local] Open Scope Z_scope.

(** ** Exceptions and results *)

Inductive exn : Type :=
| ValueError (msg : string)
| KeyError (msg : string)
| TypeError (msg : string)
| AttributeError (msg : string)
| FileNotFoundError (msg : string).

Definition result (A : Type) : Type := (exn + A)%type.

Definition ok {A} (a : A) : result A := inr a.
Definition raise {A} (e : exn) : result A := inl e.

Definition bind {A B} (m : result A) (k : A -> result B) : result B :=
  match m with
  | inl e => inl e
  | inr a => k a
  end.

Definition result_map {A B} (f : A -> B) (m : result A) : result B :=
  match m with
  | inl e => inl e
  | inr a => inr (f a)
  end.

Definition is_ok {A} (m : result A) : bool :=
  match m with
  | inl _ => false
  | inr _ => true
  end.

(** The value of a computation that succeeds ([d] otherwise). *)
Definition get {A} (d : A) (m : result A) : A :=
  match m with inr a => a | inl _ => d end.

Declare Scope result_scope.
Delimit Scope result_scope with result.
Notation "'let*' x ':=' m 'in' k" := (bind m (fun x => k))
  (at level 10, x pattern, m at level 100, k at level 200) : result_scope.
#[local] Open Scope result_scope.

(** Python's [range(a, b)] on integers. *)
Definition range (a b : Z) : list Z :=
  map (fun k => a + Z.of_nat k) (seq 0 (Z.to_nat (b - a))).

(** Python slices [l[:k]] and [l[k:]] (also pandas' [iloc]): a negative
    bound counts from the end, and bounds are clamped to the length. *)
Definition slice_bound {A} (l : list A) (k : Z) : nat :=
  let n := Z.of_nat (List.length l) in
  if k <? 0 then Z.to_nat (Z.max 0 (n + k)) else Z.to_nat (Z.min n k).

Definition slice_to {A} (l : list A) (k : Z) : list A :=
  firstn (slice_bound l k) l.

Definition slice_from {A} (l : list A) (k : Z) : list A :=
  skipn (slice_bound l k) l.

(** [l[a:b]] *)
Definition slice_range {A} (l : list A) (a b : Z) : list A :=
  skipn (slice_bound l a) (firstn (slice_bound l b) l).

(** ** [src/constants.py] *)

Module Constants.

Definition DATE_COLUMN : string := "date".
Definition TARGET_COLUMN : string := "Appliances".

Definition VALIDATION_DAYS : Z := 30.
Definition VALIDATION_HOURS : Z := VALIDATION_DAYS * 24.

Definition LAG_FEATURES : list Z := [1; 24; 168].
Definition TEMPORAL_FEATURES : list string := ["hour"; "day_of_week"; "month"].

Definition SENSOR_FEATURES : list string :=
  [ "lights"; "T1"; "RH_1"; "T2"; "RH_2"; "T3"; "RH_3"; "T4"; "RH_4";
    "T5"; "RH_5"; "T6"; "RH_6"; "T7"; "RH_7"; "T8"; "RH_8"; "T9"; "RH_9";
    "T_out"; "Press_mm_hg"; "RH_out"; "Windspeed"; "Visibility";
    "Tdewpoint" ].

Definition FREQUENCY : string := "h".
Definition DEFAULT_START_DATE : string := "2023-01-01".

Definition MODEL_XGBOOST : string := "XGBoost".
Definition MODEL_PROPHET : string := "Prophet".

End Constants.

(** ** Timezone-aware UTC datetimes

    A [datetime] is the number of microseconds since 1970-01-01T00:00:00
    UTC, which is the resolution of Python's [datetime].  The calendar
    fields are those of the proleptic Gregorian calendar. *)

Module Datetime.

Abbreviation datetime := Z (only parsing).

Definition us_per_second : Z := 1000000.
Definition us_per_hour : Z := 3600 * us_per_second.
Definition us_per_day : Z := 24 * us_per_hour.

(** [timedelta(hours=i)] *)
Definition timedelta_hours (i : Z) : Z := i * us_per_hour.

Definition days_of (t : datetime) : Z := t / us_per_day.

(** Year, month and day of the day numbered [z] from 1970-01-01. *)
Definition civil_from_days (z : Z) : Z * Z * Z :=
  let z := z + 719468 in
  let era := z / 146097 in
  let doe := z - era * 146097 in
  let yoe := (doe - doe / 1460 + doe / 36524 - doe / 146096) / 365 in
  let y := yoe + era * 400 in
  let doy := doe - (365 * yoe + yoe / 4 - yoe / 100) in
  let mp := (5 * doy + 2) / 153 in
  let d := doy - (153 * mp + 2) / 5 + 1 in
  let m := if mp <? 10 then mp + 3 else mp - 9 in
  (if m <=? 2 then y + 1 else y, m, d).

Definition year (t : datetime) : Z := fst (fst (civil_from_days (days_of t))).
Definition month (t : datetime) : Z := snd (fst (civil_from_days (days_of t))).
Definition day (t : datetime) : Z := snd (civil_from_days (days_of t)).
Definition hour (t : datetime) : Z := (t / us_per_hour) mod 24.
Definition minute (t : datetime) : Z := (t / (60 * us_per_second)) mod 60.
Definition second (t : datetime) : Z := (t / us_per_second) mod 60.
Definition microsecond (t : datetime) : Z := t mod us_per_second.

(** [weekday()]: Monday is 0; 1970-01-01 was a Thursday. *)
Definition weekday (t : datetime) : Z := (days_of t + 3) mod 7.

(** The datetime of a calendar date and time of day (used to write
    concrete instants readably); inverse of the field projections. *)
Definition days_from_civil (y m d : Z) : Z :=
  let y := if m <=? 2 then y - 1 else y in
  let era := y / 400 in
  let yoe := y - era * 400 in
  let mp := if m <=? 2 then m + 9 else m - 3 in
  let doy := (153 * mp + 2) / 5 + d - 1 in
  let doe := yoe * 365 + yoe / 4 - yoe / 100 + doy in
  era * 146097 + doe - 719468.

Definition make (y m d hh mm ss us : Z) : datetime :=
  days_from_civil y m d * us_per_day
  + hh * us_per_hour + mm * 60 * us_per_second + ss * us_per_second + us.

(** *** [isoformat()] of an aware UTC datetime *)

Definition digit (n : Z) : ascii :=
  ascii_of_nat (48 + Z.to_nat (n mod 10)).

Fixpoint digits (width : nat) (n : Z) (acc : string) : string :=
  match width with
  | O => acc
  | S w => digits w (n / 10) (String (digit n) acc)
  end.

Definition pad (width : nat) (n : Z) : string := digits width n "".

Definition isoformat (t : datetime) : string :=
  (pad 4 (year t) ++ "-" ++ pad 2 (month t) ++ "-" ++ pad 2 (day t)
   ++ "T" ++ pad 2 (hour t) ++ ":" ++ pad 2 (minute t) ++ ":"
   ++ pad 2 (second t)
   ++ (if (microsecond t =? 0)%Z then "" else "." ++ pad 6 (microsecond t))
   ++ "+00:00")%string.

End Datetime.

(** ** The wall clock

    [datetime.now(tz=UTC)] reads a clock that the program does not
    control.  A [Clock] holds every future reading; each call consumes
    one. *)

Record Clock : Type := mkClock {
  reading : nat -> Datetime.datetime;
  ticks : nat
}.

Definition IO (A : Type) : Type := Clock -> result A * Clock.

Definition ret {A} (a : A) : IO A := fun c => (ok a, c).
Definition throw {A} (e : exn) : IO A := fun c => (raise e, c).
Definition lift {A} (r : result A) : IO A := fun c => (r, c).

Definition io_bind {A B} (m : IO A) (k : A -> IO B) : IO B :=
  fun c =>
    match m c with
    | (inl e, c') => (inl e, c')
    | (inr a, c') => k a c'
    end.

Declare Scope io_scope.
Delimit Scope io_scope with io.
Notation "x <- m ;; k" := (io_bind m (fun x => k))
  (at level 100, m at next level, right associativity) : io_scope.

Definition datetime_now : IO Datetime.datetime :=
  fun c => (ok (reading c (ticks c)), mkClock (reading c) (S (ticks c))).

(** A clock whose readings are the given ones, in order (and [t] for
    ever once they are used up). *)
Definition clock_of (t : Datetime.datetime) (l : list Datetime.datetime) : Clock :=
  mkClock (fun k => nth k l t) 0.

(** ** Python dictionaries with string keys (insertion-ordered) *)

Definition dict (V : Type) : Type := list (string * V).

Fixpoint dict_get {V} (k : string) (d : dict V) : option V :=
  match d with
  | [] => None
  | (k', v) :: d' => if String.eqb k k' then Some v else dict_get k d'
  end.

(** [d[k] = v]: overwrite in place, or append a new key. *)
Fixpoint dict_set {V} (k : string) (v : V) (d : dict V) : dict V :=
  match d with
  | [] => [(k, v)]
  | (k', v') :: d' =>
      if String.eqb k k' then (k', v) :: d' else (k', v') :: dict_set k v d'
  end.

(** [dict.fromkeys(keys, v)] *)
Definition dict_fromkeys {V} (keys : list string) (v : V) : dict V :=
  fold_left (fun d k => dict_set k v d) keys [].

Fixpoint traverse {A B} (f : A -> result B) (l : list A) : result (list B) :=
  match l with
  | [] => ok []
  | a :: l' =>
      match f a with
      | inl e => inl e
      | inr b =>
          match traverse f l' with
          | inl e => inl e
          | inr bs => inr (b :: bs)
          end
      end
  end.

(** [np.maximum(xs, c)], elementwise. *)
Definition maximum (c x : Q) : Q := if Qle_bool x c then c else x.
Definition np_maximum (xs : list Q) (c : Q) : list Q := map (maximum c) xs.

(** pandas' [tail(n)]: [iloc[0:0]] when [n = 0], else [iloc[-n:]]. *)
Definition tail {A} (l : list A) (n : Z) : list A :=
  if n =? 0 then [] else slice_from l (- n).

(** ** Data frames

    A frame is pandas' column store: row labels ([index]) and named
    columns, in insertion order.  [Frame cell] is a general [DataFrame];
    [Frame Q] is a frame of floats after [astype(float)]. *)

Inductive cell : Type :=
| Float (q : Q)                       (* a number *)
| Timestamp (t : Datetime.datetime)   (* a [datetime64] value *)
| Text (s : string)                   (* a string *)
| NA.                                 (* NaN, NaT or None *)

Record Frame (C : Type) : Type := mkFrame {
  index : list Z;
  columns : dict (list C)
}.
Arguments mkFrame {C} _ _.
Arguments index {C} _.
Arguments columns {C} _.

Definition DataFrame : Type := Frame cell.

Section Frames.
Context {C : Type}.

(** [len(df)] *)
Definition len (df : Frame C) : nat := List.length (index df).

Definition column_names (df : Frame C) : list string := map fst (columns df).

(** [c in df.columns] *)
Definition has_column (df : Frame C) (c : string) : bool :=
  existsb (String.eqb c) (column_names df).

(** [df[c]] *)
Definition getitem (df : Frame C) (c : string) : result (list C) :=
  match dict_get c (columns df) with
  | Some v => ok v
  | None => raise (KeyError c)
  end.

(** [df[c] = v] *)
Definition setitem (df : Frame C) (c : string) (v : list C) : Frame C :=
  mkFrame (index df) (dict_set c v (columns df)).

(** [df[[c1; ...; ck]]] *)
Definition select (df : Frame C) (cs : list string) : result (Frame C) :=
  let* cols := traverse (fun c => let* v := getitem df c in ok (c, v)) cs in
  ok (mkFrame (index df) cols).

(** [df.iloc[:k]] and [df.iloc[k:]] *)
Definition iloc_to (df : Frame C) (k : Z) : Frame C :=
  let b := slice_bound (index df) k in
  mkFrame (firstn b (index df)) (map (fun cv => (fst cv, firstn b (snd cv))) (columns df)).

Definition iloc_from (df : Frame C) (k : Z) : Frame C :=
  let b := slice_bound (index df) k in
  mkFrame (skipn b (index df)) (map (fun cv => (fst cv, skipn b (snd cv))) (columns df)).

(** Rows at the given positions, in that order ([df.take]). *)
Definition take_rows (d : C) (df : Frame C) (positions : list nat) : Frame C :=
  mkFrame (map (fun i => nth i (index df) 0) positions)
          (map (fun cv => (fst cv, map (fun i => nth i (snd cv) d) positions))
               (columns df)).

(** [df.reset_index(drop=True)] *)
Definition reset_index (df : Frame C) : Frame C :=
  mkFrame (map Z.of_nat (seq 0 (len df))) (columns df).

(** Row [i] of [df.values]. *)
Definition row_at (d : C) (df : Frame C) (i : nat) : list C :=
  map (fun cv => nth i (snd cv) d) (columns df).

(** Every column has one cell per row label. *)
Definition well_formed (df : Frame C) : Prop :=
  Forall (fun cv => List.length (snd cv) = len df) (columns df).

End Frames.

(** [df.values] of a float frame: one list per row. *)
Definition values (X : Frame Q) : list (list Q) :=
  map (row_at (0 # 1)%Q X) (seq 0 (len X)).

Definition isna (c : cell) : bool :=
  match c with NA => true | _ => false end.

(** Row [i] has no missing value in any of the columns [cols]. *)
Definition notna_at (cols : list (list cell)) (i : nat) : bool :=
  forallb (fun col => negb (isna (nth i col NA))) cols.

(** The positions of the rows without a missing value in any column. *)
Definition kept_rows (df : DataFrame) : list nat :=
  filter (notna_at (map snd (columns df))) (seq 0 (len df)).

(** [df.dropna()]: keep the rows without a missing value in any column. *)
Definition dropna (df : DataFrame) : DataFrame :=
  take_rows NA df (kept_rows df).

(** [df.dropna(subset=[c])] *)
Definition dropna_subset (df : DataFrame) (c : string) : result DataFrame :=
  let* col := getitem df c in
  ok (take_rows NA df (filter (notna_at [col]) (seq 0 (len df)))).

(** [series.shift(lag)] for [lag >= 0]. *)
Definition shift (lag : Z) (col : list cell) : list cell :=
  firstn (List.length col) (repeat NA (Z.to_nat lag) ++ col).

(** The [.dt] accessor exists on datetime columns only. *)
Definition is_datetimelike (c : cell) : bool :=
  match c with Timestamp _ | NA => true | _ => false end.

Definition dt (field : Datetime.datetime -> Z) (col : list cell) : result (list cell) :=
  if forallb is_datetimelike col then
    ok (map (fun c => match c with
                      | Timestamp t => Float (inject_Z (field t))
                      | _ => NA
                      end) col)
  else raise (AttributeError "Can only use .dt accessor with datetimelike values").

(** [astype(float)] of one cell (a string is taken not to spell a
    number). *)
Definition to_float (c : cell) : result Q :=
  match c with
  | Float q => ok q
  | Text s => raise (ValueError ("could not convert string to float: " ++ s))
  | Timestamp _ => raise (TypeError "Cannot cast DatetimeArray to dtype float64")
  | NA => raise (ValueError "Input contains NaN.")  (* none is left by [dropna] *)
  end.

Definition astype_float (df : DataFrame) : result (Frame Q) :=
  let* cols := traverse (fun cv => let* v := traverse to_float (snd cv) in
                                   ok (fst cv, v)) (columns df) in
  ok (mkFrame (index df) cols).

(** ** [src/api/service.py] *)

Module Service.
Import Constants Datetime.

(** The loaded artifacts are opaque objects to the service; it only
    calls the methods below.  A trained model maps each feature row to
    one prediction. *)
Record Predictor : Type := { predict : list (list Q) -> list Q }.
Record Transformer : Type := { transform : list (list Q) -> list (list Q) }.
Record Prophet : Type := {
  make_future_dataframe : Z -> string -> list datetime;
  predict_yhat : list datetime -> list Q  (* [predict(future)["yhat"]] *)
}.

Record ForecastService : Type := {
  xgb_model : option Predictor;
  xgb_scaler : option Transformer;
  prophet_model : option Prophet;
  feature_names : option (list string)
}.

(** Truth values: [None] is false, and so is an empty list. *)
Definition truthy {A} (o : option A) : bool :=
  match o with Some _ => true | None => false end.

Definition truthy_list {A} (o : option (list A)) : bool :=
  match o with Some (_ :: _) => true | _ => false end.

(** [pd.DataFrame(records)[names]].  The frame's columns are the keys
    of the records; selecting a name that is no column raises.  All
    records built by [_xgboost_forecast] have the same keys, so a name
    is a column iff every record has it. *)
Definition select_columns (records : list (dict Q)) (names : list string)
  : result (list (list Q)) :=
  match records, names with
  | [], _ :: _ => raise (KeyError "None of the requested columns are in the frame")
  | _, _ =>
      traverse (fun d =>
        traverse (fun c =>
          match dict_get c d with
          | Some v => ok v
          | None => raise (KeyError c)
          end) names) records
  end.

(** The feature dictionary of one future hour (body of the loop). *)
Definition features_at (names : list string) (future_time : datetime) : dict Q :=
  let features := dict_fromkeys names (0 # 1)%Q in
  let features := dict_set "hour" (inject_Z (hour future_time)) features in
  let features := dict_set "day_of_week" (inject_Z (weekday future_time)) features in
  let features := dict_set "month" (inject_Z (month future_time)) features in
  features.

(** The frame [X] of [_xgboost_forecast], before scaling. *)
Definition serving_frame (names : list string) (now : datetime) (horizon : Z)
  : result (list (list Q)) :=
  let all_features :=
    map (fun i => features_at names (now + timedelta_hours i)) (range 0 horizon) in
  select_columns all_features names.

Definition _xgboost_forecast (self : ForecastService) (horizon : Z) : IO (list Q) :=
  match feature_names self, xgb_model self with
  | Some (n :: ns), Some model =>
      (now <- datetime_now ;;
       X <- lift (serving_frame (n :: ns) now horizon) ;;
       let X_scaled :=
         match xgb_scaler self with
         | Some scaler => transform scaler X
         | None => X
         end in
       let predictions := predict model X_scaled in
       ret (np_maximum predictions 0))%io
  | _, _ => throw (ValueError "XGBoost model or feature names not initialized")
  end.

Definition _prophet_forecast (self : ForecastService) (horizon : Z) : IO (list Q) :=
  match prophet_model self with
  | Some model =>
      let future := make_future_dataframe model horizon FREQUENCY in
      let forecast_df := predict_yhat model future in
      let forecast_values := tail forecast_df horizon in
      ret (np_maximum forecast_values 0)
  | None => throw (ValueError "Prophet model not initialized")
  end.

Definition xgboost_unavailable : string :=
  "XGBoost model or feature names not available. Run 'python -m src.train' first to train models.".

Definition prophet_unavailable : string :=
  "Prophet model not available. Run 'python -m src.train' first to train models.".

Definition forecast (self : ForecastService) (horizon : Z) (use_xgboost : bool)
  : IO (list Q * list string * string) :=
  (r <- (if use_xgboost then
           if negb (truthy (xgb_model self)) || negb (truthy_list (feature_names self))
           then throw (ValueError xgboost_unavailable)
           else (forecast_values <- _xgboost_forecast self horizon ;;
                 ret (forecast_values, MODEL_XGBOOST))
         else
           if negb (truthy (prophet_model self))
           then throw (ValueError prophet_unavailable)
           else (forecast_values <- _prophet_forecast self horizon ;;
                 ret (forecast_values, MODEL_PROPHET))) ;;
   now <- datetime_now ;;
   let timestamps :=
     map (fun i => isoformat (now + timedelta_hours i)) (range 1 (horizon + 1)) in
   ret (fst r, timestamps, snd r))%io.

End Service.

(** ** The numeric libraries

    [np.sqrt] has no exact value on the rationals; the development is
    parametric in it.  Everything else of [StandardScaler] and of the
    two error metrics is computed exactly. *)

Definition Qsum (l : list Q) : Q := fold_right Qplus (0 # 1)%Q l.

Definition Qmean (l : list Q) : Q :=
  (Qsum l / inject_Z (Z.of_nat (List.length l)))%Q.

Module Sklearn.

Record StandardScaler : Type := mkScaler {
  mean_ : list Q;
  var_ : list Q;
  scale_ : list Q
}.

Definition n_features (X : list (list Q)) : nat :=
  match X with
  | [] => O
  | row :: _ => List.length row
  end.

Definition feature (X : list (list Q)) (j : nat) : list Q :=
  map (fun row => nth j row (0 # 1)%Q) X.

Definition variance (l : list Q) : Q :=
  let m := Qmean l in Qmean (map (fun x => ((x - m) * (x - m))%Q) l).

(** A constant feature is left unscaled. *)
Definition handle_zeros_in_scale (s : Q) : Q :=
  if Qeq_bool s 0 then (1 # 1)%Q else s.

Definition no_samples : string :=
  "Found array with 0 sample(s) while a minimum of 1 is required by StandardScaler.".

Section WithSqrt.
Variable sqrt : Q -> Q.

(** [StandardScaler().fit(X)]; input validation rejects an array
    without rows. *)
Definition fit (X : list (list Q)) : result StandardScaler :=
  match X with
  | [] => raise (ValueError no_samples)
  | _ :: _ =>
      let js := seq 0 (n_features X) in
      let vars := map (fun j => variance (feature X j)) js in
      ok (mkScaler (map (fun j => Qmean (feature X j)) js)
                   vars
                   (map (fun v => handle_zeros_in_scale (sqrt v)) vars))
  end.

Fixpoint standardize (row means scales : list Q) : list Q :=
  match row, means, scales with
  | x :: row', m :: means', s :: scales' =>
      ((x - m) / s)%Q :: standardize row' means' scales'
  | _, _, _ => []
  end.

Definition transform (scaler : StandardScaler) (X : list (list Q)) : list (list Q) :=
  map (fun row => standardize row (mean_ scaler) (scale_ scaler)) X.

Definition fit_transform (X : list (list Q))
  : result (StandardScaler * list (list Q)) :=
  let* scaler := fit X in
  ok (scaler, transform scaler X).

Definition inconsistent : string :=
  "Found input variables with inconsistent numbers of samples".

Definition check_targets (y_true y_pred : list Q) : result unit :=
  if negb (Nat.eqb (List.length y_true) (List.length y_pred))
  then raise (ValueError inconsistent)
  else match y_true with
       | [] => raise (ValueError no_samples)
       | _ => ok tt
       end.

Definition mean_absolute_error (y_true y_pred : list Q) : result Q :=
  let* _ := check_targets y_true y_pred in
  ok (Qmean (map (fun ab => Qabs (fst ab - snd ab)) (combine y_true y_pred))).

Definition mean_squared_error (y_true y_pred : list Q) : result Q :=
  let* _ := check_targets y_true y_pred in
  ok (Qmean (map (fun ab => ((fst ab - snd ab) * (fst ab - snd ab))%Q)
                 (combine y_true y_pred))).

End WithSqrt.

End Sklearn.

(** ** [src/models/metrics.py] *)

Record ModelMetrics : Type := mkMetrics { mae : Q; rmse : Q }.

(** ** Positional train/validation split, as both trainers write it:
    [split_idx = len(X) - VALIDATION_HOURS], then [iloc[:split_idx]] and
    [iloc[split_idx:]]. *)

Definition split_idx {C} (X : Frame C) : Z :=
  Z.of_nat (len X) - Constants.VALIDATION_HOURS.

(** ** [src/models/xgboost.py] *)

Module XGBoost.
Import Constants.

Record XGBoostResult : Type := mkResult {
  model : Service.Predictor;
  feature_names : list string;
  metrics : ModelMetrics;
  scaler : Sklearn.StandardScaler
}.

(** [f"lag_{lag}"] *)
Definition lag_name (lag : Z) : string :=
  ("lag_" ++ DecimalString.NilZero.string_of_int (Z.to_int lag))%string.

(** The three temporal columns. *)
Definition add_temporal_features (df_features : DataFrame) (date_col : string)
  : result DataFrame :=
  let* dates := getitem df_features date_col in
  let* v := dt Datetime.hour dates in
  let df_features := setitem df_features "hour" v in
  let* dates := getitem df_features date_col in
  let* v := dt Datetime.weekday dates in
  let df_features := setitem df_features "day_of_week" v in
  let* dates := getitem df_features date_col in
  let* v := dt Datetime.month dates in
  ok (setitem df_features "month" v).

(** [for lag in LAG_FEATURES: df_features[f"lag_{lag}"] = ...shift(lag)] *)
Fixpoint add_lag_features (lags : list Z) (df_features : DataFrame)
  (target_col : string) : result DataFrame :=
  match lags with
  | [] => ok df_features
  | lag :: lags' =>
      let* target := getitem df_features target_col in
      add_lag_features lags'
        (setitem df_features (lag_name lag) (shift lag target)) target_col
  end.

(** The engineered frame before rows are dropped. *)
Definition with_features (df : DataFrame) (date_col target_col : string)
  : result DataFrame :=
  let* df_features := add_temporal_features df date_col in
  add_lag_features LAG_FEATURES df_features target_col.

(** [df_features] after [dropna()]. *)
Definition engineer_features (df : DataFrame) (date_col target_col : string)
  : result DataFrame :=
  let* df_features := with_features df date_col target_col in
  ok (dropna df_features).

Definition feature_columns (df_features : DataFrame) : list string :=
  let sensor_features_available := filter (has_column df_features) SENSOR_FEATURES in
  let lag_feature_cols := map lag_name LAG_FEATURES in
  let feature_cols := sensor_features_available ++ TEMPORAL_FEATURES ++ lag_feature_cols in
  filter (has_column df_features) feature_cols.

Record Partitions : Type := mkPartitions {
  feature_cols : list string;
  X_train : Frame Q;
  X_val : Frame Q;
  y_train : list Q;
  y_val : list Q
}.

(** Feature engineering, feature selection and the split. *)
Definition partitions (df : DataFrame) (date_col target_col : string)
  : result Partitions :=
  let* df_features := engineer_features df date_col target_col in
  let feature_cols := feature_columns df_features in
  let* Xc := select df_features feature_cols in
  let* X := astype_float Xc in
  let* yc := getitem df_features target_col in
  let* y := traverse to_float yc in
  let split_idx := split_idx X in
  ok (mkPartitions feature_cols
        (iloc_to X split_idx) (iloc_from X split_idx)
        (slice_to y split_idx) (slice_from y split_idx)).

Section Train.
Variable sqrt : Q -> Q.
(** [XGBRegressor(...).fit(X, y, eval_set=[(X_val, y_val)])] *)
Variable XGBRegressor_fit :
  list (list Q) -> list Q -> list (list Q) * list Q -> Service.Predictor.

Definition train_xgboost (df : DataFrame) (date_col target_col : string)
  : result XGBoostResult :=
  let* p := partitions df date_col target_col in
  let* fitted := Sklearn.fit_transform sqrt (values (X_train p)) in
  let scaler := fst fitted in
  let X_train_scaled := snd fitted in
  let X_val_scaled := Sklearn.transform scaler (values (X_val p)) in
  let model := XGBRegressor_fit X_train_scaled (y_train p) (X_val_scaled, y_val p) in
  let y_pred := Service.predict model X_val_scaled in
  let* mae := Sklearn.mean_absolute_error (y_val p) y_pred in
  let* mse := Sklearn.mean_squared_error (y_val p) y_pred in
  let rmse := sqrt mse in
  ok (mkResult model (feature_cols p) (mkMetrics mae rmse) scaler).

End Train.

End XGBoost.

(** ** [src/models/prophet.py] *)

Module ProphetTrainer.
Import Constants.

Record ProphetModel : Type := mkProphetModel {
  model : Service.Prophet;
  metrics : ModelMetrics
}.

(** [astype(float)] on the target keeps a missing value missing. *)
Definition float_cell (c : cell) : result cell :=
  match c with
  | NA => ok NA
  | _ => let* q := to_float c in ok (Float q)
  end.

(** [df[[date_col, target_col]].rename(columns={date_col: "ds",
    target_col: "y"})] with [y] cast to float. *)
Definition prophet_frame (df : DataFrame) (date_col target_col : string)
  : result DataFrame :=
  let* ds := getitem df date_col in
  let* y := getitem df target_col in
  let* y := traverse float_cell y in
  ok (mkFrame (index df) [("ds", ds); ("y", y)]).

Section Train.
Variable sqrt : Q -> Q.
(** [Prophet(...).fit(train_df)] *)
Variable Prophet_fit : DataFrame -> result Service.Prophet.

Definition train_prophet (df : DataFrame) (date_col target_col : string)
  : result ProphetModel :=
  let* prophet_df := prophet_frame df date_col target_col in
  let split_idx := split_idx prophet_df in
  let train_df := iloc_to prophet_df split_idx in
  let* model := Prophet_fit train_df in
  let future := Service.make_future_dataframe model VALIDATION_HOURS FREQUENCY in
  let forecast := Service.predict_yhat model future in
  let* val_cells := getitem (iloc_from prophet_df split_idx) "y" in
  let* val_actual := traverse to_float val_cells in
  let val_pred :=
    slice_range forecast split_idx (split_idx + Z.of_nat (List.length val_actual)) in
  let* mae := Sklearn.mean_absolute_error val_actual val_pred in
  let* mse := Sklearn.mean_squared_error val_actual val_pred in
  let rmse := sqrt mse in
  ok (mkProphetModel model (mkMetrics mae rmse)).

End Train.

End ProphetTrainer.

(** ** numpy's [argsort] with the default [kind]

    [PyArray_ArgSort] fills [tosort] with the positions [0 .. num-1] and
    sorts it by key with [aquicksort_] ([npysort/quicksort.cpp]): a
    quicksort on the median of three that pushes the larger part on a
    stack, finishes parts of at most 17 positions by insertion, and
    falls back on [aheapsort_] ([npysort/heapsort.cpp]) once
    [2 * npy_get_msb(num)] partitions are nested.  This is the generic
    kernel, the one that runs where no vectorised kernel is dispatched.
    Pointers into [tosort] are kept as offsets; a loop that runs out of
    fuel gives [None]. *)

Module Numpy.

Definition SMALL_QUICKSORT : Z := 16.

(** [npy_get_msb]: how often the number can be halved before it is
    zero, less one. *)
Definition npy_get_msb (unum : Z) : Z := Z.log2 unum.

Fixpoint assign (tosort : list nat) (p : nat) (x : nat) : list nat :=
  match tosort, p with
  | [], _ => []
  | _ :: rest, O => x :: rest
  | y :: rest, S p' => y :: assign rest p' x
  end.

Section Kernel.
Variable v : list Z.

(** [*p], [v[*p]] and [*p = x] *)
Definition deref (tosort : list nat) (p : Z) : nat := nth (Z.to_nat p) tosort O.
Definition key (tosort : list nat) (p : Z) : Z := nth (deref tosort p) v 0.
Definition store (tosort : list nat) (p : Z) (x : nat) : list nat :=
  assign tosort (Z.to_nat p) x.

Definition INTP_SWAP (tosort : list nat) (p q : Z) : list nat :=
  store (store tosort p (deref tosort q)) q (deref tosort p).

(** [do { ++pi; } while (v[*pi] < vp);] *)
Fixpoint scan_up (fuel : nat) (tosort : list nat) (pi vp : Z) : option Z :=
  match fuel with
  | O => None
  | S fuel' =>
      let pi := pi + 1 in
      if key tosort pi <? vp then scan_up fuel' tosort pi vp else Some pi
  end.

(** [do { --pj; } while (vp < v[*pj]);] *)
Fixpoint scan_down (fuel : nat) (tosort : list nat) (pj vp : Z) : option Z :=
  match fuel with
  | O => None
  | S fuel' =>
      let pj := pj - 1 in
      if vp <? key tosort pj then scan_down fuel' tosort pj vp else Some pj
  end.

(** The [for (;;)] loop of the partition: it returns [tosort] and
    [pi]. *)
Fixpoint exchange (fuel : nat) (tosort : list nat) (pi pj vp : Z)
  : option (list nat * Z) :=
  match fuel with
  | O => None
  | S fuel' =>
      match scan_up (List.length tosort) tosort pi vp with
      | None => None
      | Some pi =>
          match scan_down (List.length tosort) tosort pj vp with
          | None => None
          | Some pj =>
              if pj <=? pi then Some (tosort, pi)
              else exchange fuel' (INTP_SWAP tosort pi pj) pi pj vp
          end
      end
  end.

(** One quicksort partition of [pl .. pr]: it returns [tosort] and
    the place [pi] of the pivot. *)
Definition partition (tosort : list nat) (pl pr : Z) : option (list nat * Z) :=
  let pm := pl + Z.shiftr (pr - pl) 1 in
  let tosort := if key tosort pm <? key tosort pl then INTP_SWAP tosort pm pl else tosort in
  let tosort := if key tosort pr <? key tosort pm then INTP_SWAP tosort pr pm else tosort in
  let tosort := if key tosort pm <? key tosort pl then INTP_SWAP tosort pm pl else tosort in
  let vp := key tosort pm in
  let pi := pl in
  let pj := pr - 1 in
  let tosort := INTP_SWAP tosort pm pj in
  match exchange (List.length tosort) tosort pi pj vp with
  | None => None
  | Some (tosort, pi) =>
      let pk := pr - 1 in
      Some (INTP_SWAP tosort pi pk, pi)
  end.

(** [while (pj > pl && vp < v[*pk]) { *pj-- = *pk--; }], with
    [pk = pj - 1]; it runs at most [pj - pl] times. *)
Fixpoint shift (steps : nat) (tosort : list nat) (pl pj vp : Z) : list nat * Z :=
  match steps with
  | O => (tosort, pj)
  | S steps' =>
      let pk := pj - 1 in
      if (pl <? pj) && (vp <? key tosort pk)
      then shift steps' (store tosort pj (deref tosort pk)) pl (pj - 1) vp
      else (tosort, pj)
  end.

(** The insertion sort of [pl .. pr]. *)
Definition insertion_sort (tosort : list nat) (pl pr : Z) : list nat :=
  fold_left
    (fun tosort pi =>
       let vi := deref tosort pi in
       let vp := nth vi v 0 in
       let '(tosort, pj) := shift (Z.to_nat (pi - pl)) tosort pl pi vp in
       store tosort pj vi)
    (map (fun k => pl + 1 + Z.of_nat k) (seq 0 (Z.to_nat (pr - pl))))
    tosort.

(** [aheapsort_(v, pl, n)]: [a = pl - 1], so that [a[1 .. n]] are
    the positions to sort. *)
Section Heap.
Variable a : Z.

(** [for (i = .., j = ..; j <= n;) { .. } a[i] = tmp;] *)
Fixpoint sift (fuel : nat) (tosort : list nat) (n : Z) (tmp : nat) (i j : Z)
  : option (list nat) :=
  match fuel with
  | O => None
  | S fuel' =>
      if j <=? n then
        let j :=
          if (j <? n) && (key tosort (a + j) <? key tosort (a + (j + 1)))
          then j + 1 else j in
        if nth tmp v 0 <? key tosort (a + j)
        then sift fuel' (store tosort (a + i) (deref tosort (a + j))) n tmp j (j + j)
        else Some (store tosort (a + i) tmp)
      else Some (store tosort (a + i) tmp)
  end.

(** [for (l = n >> 1; l > 0; --l)] *)
Fixpoint heapify (tosort : list nat) (n : Z) (l : nat) : option (list nat) :=
  match l with
  | O => Some tosort
  | S l' =>
      let tmp := deref tosort (a + Z.of_nat l) in
      match sift (S (Z.to_nat n)) tosort n tmp (Z.of_nat l) (Z.shiftl (Z.of_nat l) 1) with
      | None => None
      | Some tosort => heapify tosort n l'
      end
  end.

(** [for (; n > 1;)] *)
Fixpoint extract (tosort : list nat) (n : nat) : option (list nat) :=
  match n with
  | O => Some tosort
  | S n' =>
      if (1 <? n)%nat then
        let tmp := deref tosort (a + Z.of_nat n) in
        let tosort := store tosort (a + Z.of_nat n) (deref tosort (a + 1)) in
        match sift (S n) tosort (Z.of_nat n') tmp 1 2 with
        | None => None
        | Some tosort => extract tosort n'
        end
      else Some tosort
  end.

End Heap.

Definition aheapsort (tosort : list nat) (pl n : Z) : option (list nat) :=
  match heapify (pl - 1) tosort n (Z.to_nat (Z.shiftr n 1)) with
  | None => None
  | Some tosort => extract (pl - 1) tosort (Z.to_nat n)
  end.

(** The variables of [aquicksort_]; both stacks have their top
    first. *)
Record registers : Type := mkRegisters {
  tosort : list nat;
  pl : Z;
  pr : Z;
  sptr : list Z;
  psdepth : list Z;
  cdepth : Z
}.

(** [while ((pr - pl) > SMALL_QUICKSORT)]: partition, push the
    larger part and go on with the smaller one. *)
Fixpoint partitions (fuel : nat) (r : registers) : option registers :=
  if pr r - pl r >? SMALL_QUICKSORT then
    match fuel with
    | O => None
    | S fuel' =>
        match partition (tosort r) (pl r) (pr r) with
        | None => None
        | Some (tosort, pi) =>
            let cdepth := cdepth r - 1 in
            if pi - pl r <? pr r - pi
            then partitions fuel'
                   (mkRegisters tosort (pl r) (pi - 1)
                      (pr r :: pi + 1 :: sptr r) (cdepth :: psdepth r) cdepth)
            else partitions fuel'
                   (mkRegisters tosort (pi + 1) (pr r)
                      (pi - 1 :: pl r :: sptr r) (cdepth :: psdepth r) cdepth)
        end
    end
  else Some r.

(** The [while (1)] loop: sort the part [pl .. pr], then pop the
    next one; the sort is over when the stack is empty. *)
Fixpoint parts (fuel : nat) (r : registers) : option (list nat) :=
  match fuel with
  | O => None
  | S fuel' =>
      let done :=
        if cdepth r <? 0
        then match aheapsort (tosort r) (pl r) (pr r - pl r + 1) with
             | None => None
             | Some tosort =>
                 Some (mkRegisters tosort (pl r) (pr r) (sptr r) (psdepth r) (cdepth r))
             end
        else match partitions (List.length (tosort r)) r with
             | None => None
             | Some r =>
                 Some (mkRegisters (insertion_sort (tosort r) (pl r) (pr r))
                         (pl r) (pr r) (sptr r) (psdepth r) (cdepth r))
             end in
      match done with
      | None => None
      | Some r =>
          match sptr r, psdepth r with
          | [], _ => Some (tosort r)
          | pr' :: pl' :: sptr', cdepth' :: psdepth' =>
              parts fuel' (mkRegisters (tosort r) pl' pr' sptr' psdepth' cdepth')
          | _, _ => None
          end
      end
  end.

Definition aquicksort (tosort : list nat) (num : Z) : option (list nat) :=
  parts (S (Z.to_nat num))
    (mkRegisters tosort 0 (num - 1) [] [] (npy_get_msb num * 2)).

End Kernel.

(** [keys.argsort()]: [tosort] as the kernel leaves it. *)
Definition argsort (keys : list Z) : list nat :=
  let tosort := seq 0 (List.length keys) in
  match aquicksort keys tosort (Z.of_nat (List.length keys)) with
  | Some tosort => tosort
  | None => tosort
  end.

End Numpy.

(** ** [src/utils/data_loader.py] *)

Module DataLoader.
Import Constants.

Record DataLoadResult : Type := mkLoad {
  dataframe : DataFrame;
  date_column : string;
  target_column : string
}.

(** [pd.date_range(start=DEFAULT_START_DATE, periods=n, freq="h")] *)
Definition default_start : Datetime.datetime := Datetime.make 2023 1 1 0 0 0 0.

Definition date_range (start : Datetime.datetime) (periods : nat) : list cell :=
  map (fun i => Timestamp (start + Datetime.timedelta_hours (Z.of_nat i)))
      (seq 0 periods).

Definition timestamp_key (c : cell) : Z :=
  match c with Timestamp t => t | _ => 0 end.

Section Prepare.
(** [pd.to_datetime] on one string or number: [None] when it does
    not parse. *)
Variable parse_text : string -> option Datetime.datetime.
Variable parse_number : Q -> option Datetime.datetime.
(** numpy's [argsort] with the default [kind]: the positions of the
    keys in ascending key order; ties in no documented order. *)
Variable argsort : list Z -> list nat.

(** [pd.to_datetime(col, errors="coerce")] *)
Definition to_datetime (col : list cell) : list cell :=
  map (fun c =>
         match c with
         | Timestamp t => Timestamp t
         | Text s => match parse_text s with Some t => Timestamp t | None => NA end
         | Float q => match parse_number q with Some t => Timestamp t | None => NA end
         | NA => NA
         end) col.

(** [df.sort_values(c)]: the rows with a key in [argsort] order, then
    the rows without one. *)
Definition sort_values (df : DataFrame) (c : string) : result DataFrame :=
  let* col := getitem df c in
  let idx := seq 0 (len df) in
  let non_nan_idx := filter (notna_at [col]) idx in
  let nan_idx := filter (fun i => negb (notna_at [col] i)) idx in
  let keys := map (fun i => timestamp_key (nth i col NA)) non_nan_idx in
  let indexer := map (fun k => nth k non_nan_idx O) (argsort keys) ++ nan_idx in
  ok (take_rows NA df indexer).

(** The body of [load_and_prepare_data] after the file is read. *)
Definition prepare (df : DataFrame) : result DataFrame :=
  let df :=
    if has_column df DATE_COLUMN then df
    else setitem df DATE_COLUMN (date_range default_start (len df)) in
  let* dates := getitem df DATE_COLUMN in
  let df := setitem df DATE_COLUMN (to_datetime dates) in
  let* df := dropna_subset df DATE_COLUMN in
  let* df := sort_values df DATE_COLUMN in
  ok (reset_index df).

(** [csv] is the content of the data file, [None] when it does not
    exist. *)
Definition load_and_prepare_data (csv : option DataFrame) : result DataLoadResult :=
  match csv with
  | None => raise (FileNotFoundError "Dataset not found. Run 'python data/download_data.py' first to download real UCI data.")
  | Some df =>
      let* df := prepare df in
      ok (mkLoad df DATE_COLUMN TARGET_COLUMN)
  end.

End Prepare.

End DataLoader.

(** ** Vocabulary of the statements about the service *)

Module ServiceSpec.
Import Constants Datetime Service.

(** The value the serving path gives a schema column at an instant. *)
Definition serving_value (c : string) (t : datetime) : Q :=
  if String.eqb c "month" then inject_Z (month t)
  else if String.eqb c "day_of_week" then inject_Z (weekday t)
  else if String.eqb c "hour" then inject_Z (hour t)
  else (0 # 1)%Q.

(** The instant the timestamps are anchored to: the reading
    [forecast] takes after the model has predicted (the tree-model
    path has read the clock once before). *)
Definition request_time (c : Clock) (use_xgboost : bool) : datetime :=
  reading c (ticks c + (if use_xgboost then 1 else 0))%nat.

Definition available (self : ForecastService) (use_xgboost : bool) : Prop :=
  if use_xgboost
  then (exists m n ns, xgb_model self = Some m /\ feature_names self = Some (n :: ns))
  else (exists m, prophet_model self = Some m).

End ServiceSpec.

(** ** Vocabulary of the statements about the tree-model trainer *)

Module XGBoostSpec.
Import Constants XGBoost.

(** No cell of the record is missing. *)
Definition complete (df : DataFrame) : Prop :=
  Forall (fun cv => Forall (fun c => isna c = false) (snd cv)) (columns df).

(** The columns of the engineered frame of a record whose dates are
    the timestamps [ts] and whose target column is [target]. *)
Definition engineered_columns (df : DataFrame) (ts : list Datetime.datetime)
  (target : list cell) : dict (list cell) :=
  dict_set (lag_name 168) (shift 168 target)
    (dict_set (lag_name 24) (shift 24 target)
      (dict_set (lag_name 1) (shift 1 target)
        (dict_set "month" (map (fun x => Float (inject_Z (Datetime.month x))) ts)
          (dict_set "day_of_week" (map (fun x => Float (inject_Z (Datetime.weekday x))) ts)
            (dict_set "hour" (map (fun x => Float (inject_Z (Datetime.hour x))) ts)
              (columns df)))))).

End XGBoostSpec.

(** ** Vocabulary of the statements about data preparation *)

Module DataLoaderSpec.

(** What numpy documents of [argsort]: the result lists every position
    once, and reading the keys in that order gives them in ascending
    order.  The order of equal keys is left open (the default kind is
    not stable). *)
Definition argsort_spec (argsort : list Z -> list nat) : Prop :=
  forall ks,
    Permutation (argsort ks) (seq 0 (List.length ks))
    /\ Sorted Z.le (map (fun i => nth i ks 0) (argsort ks)).

(** The sort leaves keys that are already in ascending order in place
    (a stable sort does). *)
Definition fixes_sorted (argsort : list Z -> list nat) : Prop :=
  forall ks, Sorted Z.le ks -> argsort ks = seq 0 (List.length ks).

End DataLoaderSpec.

(** ** More vocabulary of the statements about the service *)

Module ServiceShape.
Import Constants Datetime Service ServiceSpec.

(** The rows the tree model is given: the serving frame, scaled when a
    scaler is loaded. *)
Definition scaled_rows (self : ForecastService) (names : list string)
  (now : datetime) (horizon : Z) : list (list Q) :=
  let X := map (fun i => map (fun c => serving_value c (now + timedelta_hours i)) names)
               (range 0 horizon) in
  match xgb_scaler self with
  | Some scaler => transform scaler X
  | None => X
  end.

(** The timestamps of [horizon] hours after [now]. *)
Definition stamps (now : datetime) (horizon : Z) : list string :=
  map (fun i => isoformat (now + timedelta_hours i)) (range 1 (horizon + 1)).

(** The clock after [k] more readings. *)
Definition advance (k : nat) (c : Clock) : Clock :=
  mkClock (reading c) (k + ticks c).

(** [n] instants one hour apart, from [start]. *)
Definition hourly_from (start : datetime) (n : nat) : list Z :=
  map (fun i => start + timedelta_hours (Z.of_nat i)) (seq 0 n).

End ServiceShape.

(** ** Exceptions of the application layer

    The pipeline raises the builtin exceptions of [exn]; files, the
    network and the language model raise others. *)

Inductive exception : Type :=
| Builtin (e : exn)
| OSError (msg : string)            (* [IOError] is an alias *)
| UnpicklingError (msg : string)
| ConnectionError (msg : string)
| RuntimeError (msg : string)
| HTTPError (msg : string).

Definition outcome (A : Type) : Type := (exception + A)%type.

(** [str(e)]: the message; a [KeyError] shows the [repr] of its key. *)
Definition str_exn (e : exn) : string :=
  match e with
  | KeyError msg => "'" ++ msg ++ "'"
  | ValueError msg | TypeError msg | AttributeError msg | FileNotFoundError msg => msg
  end.

Definition str (e : exception) : string :=
  match e with
  | Builtin e => str_exn e
  | OSError msg | UnpicklingError msg | ConnectionError msg
  | RuntimeError msg | HTTPError msg => msg
  end.

(** Code that changes a state [S] (files, a tracking store, the clock)
    and may raise. *)
Definition Run (S A : Type) : Type := S -> outcome A * S.

Definition run_ret {S A} (a : A) : Run S A := fun s => (inr a, s).

Definition run_bind {S A B} (m : Run S A) (k : A -> Run S B) : Run S B :=
  fun s =>
    match m s with
    | (inl e, s') => (inl e, s')
    | (inr a, s') => k a s'
    end.

(** A computation of the pipeline: it leaves the state alone. *)
Definition run_result {S A} (r : result A) : Run S A :=
  fun s => (match r with inl e => inl (Builtin e) | inr a => inr a end, s).

Declare Scope run_scope.
Delimit Scope run_scope with run.
Notation "x <- m ;; k" := (run_bind m (fun x => k))
  (at level 100, m at next level, right associativity) : run_scope.

(** ** [src/utils/file_ops.py] and [src/utils/model_loader.py]

    A file is seen by what [pickle.load] gives on it.  The class of the
    object a file of the models directory holds goes with its name: the
    development does not cover a file that unpickles to an object of
    another class than the one the trainer writes under that name.
    Logging is not modelled. *)

Module FileOps.

Inductive file (A : Type) : Type :=
| Missing                      (* no such file *)
| Unreadable (e : exception)   (* [open] or [pickle.load] raises [e] *)
| Pickled (obj : A).
Arguments Missing {A}.
Arguments Unreadable {A} _.
Arguments Pickled {A} _.

Definition class_of (name : string) : Type :=
  if String.eqb name "xgb_model.pkl" then Service.Predictor
  else if String.eqb name "xgb_scaler.pkl" then Service.Transformer
  else if String.eqb name "feature_names.pkl" then list string
  else if String.eqb name "prophet_model.pkl" then Service.Prophet
  else unit.

(** A [pickle.dump] that raises: the exception, and the one that
    reading the file raises afterwards (the file was emptied when it
    was opened, and the pickle in it is not complete). *)
Record Interrupted : Type := mkInterrupted {
  raised : exception;
  on_load : exception
}.

(** A directory: its path, its files by name, what opening a file for
    writing raises, if it does, and how the dump of an object into
    the opened file is interrupted, if it is. *)
Record Directory : Type := mkDirectory {
  path : string;
  files : forall name : string, file (class_of name);
  open_wb : string -> option exception;
  pickle_dump : forall name : string, class_of name -> option Interrupted
}.

(** [directory / name] *)
Definition join (directory : Directory) (name : string) : string :=
  path directory ++ "/" ++ name.

(** [filepath.exists()] *)
Definition exists_ {A} (f : file A) : bool :=
  match f with Missing => false | _ => true end.

(** [with open(filepath, "rb") as f: pickle.load(f)] *)
Definition pickle_load {A} (filepath : string) (f : file A) : outcome A :=
  match f with
  | Missing =>
      inl (Builtin (FileNotFoundError
                      ("[Errno 2] No such file or directory: '" ++ filepath ++ "'")))
  | Unreadable e => inl e
  | Pickled obj => inr obj
  end.

(** The files after [name] is replaced. *)
Definition put (name : string) (f : file (class_of name))
  (old : forall n : string, file (class_of n)) : forall n : string, file (class_of n) :=
  fun n =>
    match string_dec name n with
    | left e => eq_rect name (fun n => file (class_of n)) f n e
    | right _ => old n
    end.

(** The directory once the file [name] is [f]. *)
Definition replaced (name : string) (f : file (class_of name)) (directory : Directory)
  : Directory :=
  mkDirectory (path directory) (put name f (files directory))
    (open_wb directory) (pickle_dump directory).

(** [save_pickle(obj, directory / name, description)]:
    [open(filepath, "wb")] creates or empties the file before
    [pickle.dump] runs; an exception is raised again (an [IOError]
    after it is logged). *)
Definition save_pickle (name : string) (obj : class_of name)
  (description : string) : Run Directory unit :=
  fun directory =>
    match open_wb directory name with
    | Some e => (inl e, directory)
    | None =>
        match pickle_dump directory name obj with
        | Some interrupted =>
            (inl (raised interrupted),
             replaced name (Unreadable (on_load interrupted)) directory)
        | None => (inr tt, replaced name (Pickled obj) directory)
        end
    end.

(** [load_pickle(directory / name, description)] *)
Definition load_pickle (directory : Directory) (name : string) (description : string)
  : outcome (class_of name) :=
  if negb (exists_ (files directory name))
  then inl (Builtin (FileNotFoundError
                       ("Pickle file not found: " ++ join directory name)))
  else pickle_load (join directory name) (files directory name).

End FileOps.

Module ModelLoader.
Import FileOps.

(** [load_model_from_pickle(directory / name, model_name, log_level)]:
    [None] when the file is missing, and when anything is raised while
    it is read. *)
Definition load_model_from_pickle (directory : Directory) (name : string)
  (model_name : string) (log_level : string) : option (class_of name) :=
  if negb (exists_ (files directory name)) then None
  else match pickle_load (join directory name) (files directory name) with
       | inr model => Some model
       | inl _ => None
       end.

Definition load_xgboost_model (models_dir : Directory)
  : option Service.Predictor * option Service.Transformer * option (list string) :=
  let xgb_model :=
    load_model_from_pickle models_dir "xgb_model.pkl" "XGBoost model" "error" in
  let xgb_scaler :=
    load_model_from_pickle models_dir "xgb_scaler.pkl" "XGBoost feature scaler" "warning" in
  let feature_names :=
    load_model_from_pickle models_dir "feature_names.pkl" "Feature names" "error" in
  (xgb_model, xgb_scaler, feature_names).

Definition load_prophet_model (models_dir : Directory) : option Service.Prophet :=
  load_model_from_pickle models_dir "prophet_model.pkl" "Prophet model" "warning".

End ModelLoader.

(** ** [src/api/dtos.py]

    A request body is a JSON document as [json.loads] gives it: an
    object is a Python dictionary, with one entry per key.  pydantic's
    conversions of a JSON value to [int], [bool], [str] and [float] are
    parameters: [None] when pydantic refuses the value.  A model is
    validated from an object; keys that are not fields are ignored; the
    error names the first field refused. *)

#[warnings="-register-all"] Inductive json : Type :=
| JNull
| JBool (b : bool)
| JInt (z : Z)
| JFloat (q : Q)
| JString (s : string)
| JArray (items : list json)
| JObject (members : dict json).

Module ForecastRequest.

Record t : Type := mk { horizon : Z; use_xgboost : bool }.

Section Validate.
Variable to_int : json -> option Z.
Variable to_bool : json -> option bool.

(** [horizon: int = Field(default=24, ge=1, le=168)] *)
Definition horizon_of (members : dict json) : option Z :=
  match dict_get "horizon" members with
  | None => Some 24
  | Some value =>
      match to_int value with
      | Some horizon =>
          if (1 <=? horizon) && (horizon <=? 168) then Some horizon else None
      | None => None
      end
  end.

(** [use_xgboost: bool = Field(default=True)] *)
Definition use_xgboost_of (members : dict json) : option bool :=
  match dict_get "use_xgboost" members with
  | None => Some true
  | Some value => to_bool value
  end.

Definition validate (body : json) : string + t :=
  match body with
  | JObject members =>
      match horizon_of members, use_xgboost_of members with
      | Some horizon, Some use_xgboost => inr (mk horizon use_xgboost)
      | None, _ => inl "horizon"
      | Some _, None => inl "use_xgboost"
      end
  | _ => inl "body"
  end.

End Validate.

End ForecastRequest.

Module ForecastResponse.

Record t : Type := mk {
  forecast : list Q;
  timestamps : list string;
  model_used : string;
  horizon : Z
}.

End ForecastResponse.

Module ExplainRequest.

Record t : Type := mk { question : string; forecast_value : Q }.

Section Validate.
Variable to_str : json -> option string.
Variable to_float : json -> option Q.

(** [question: str = Field(...)]: required. *)
Definition question_of (members : dict json) : option string :=
  match dict_get "question" members with
  | None => None
  | Some value => to_str value
  end.

(** [forecast_value: float = Field(default=62.5)] *)
Definition forecast_value_of (members : dict json) : option Q :=
  match dict_get "forecast_value" members with
  | None => Some (125 # 2)%Q
  | Some value => to_float value
  end.

Definition validate (body : json) : string + t :=
  match body with
  | JObject members =>
      match question_of members, forecast_value_of members with
      | Some question, Some forecast_value => inr (mk question forecast_value)
      | None, _ => inl "question"
      | Some _, None => inl "forecast_value"
      end
  | _ => inl "body"
  end.

End Validate.

End ExplainRequest.

Module ExplainResponse.

Record t : Type := mk {
  question : string;
  explanation : string;
  timestamp : string
}.

End ExplainResponse.

(** ** [src/llm/energy_agent.py]: [generate_explanation]

    The agent is an object with an [invoke] method.  The rendering of a
    float with two decimals and the offset of local time are
    parameters. *)

Module EnergyAgent.
Import Datetime.

Record AgentExecutor : Type := { invoke : string -> outcome (dict string) }.

Definition newline : string := String (ascii_of_nat 10) "".

Section Explain.
(** [f"{x:.2f}"] *)
Variable format_2f : Q -> string.
(** The offset of local time from UTC at an instant, in
    microseconds. *)
Variable utcoffset : datetime -> Z.

(** [datetime.now().strftime("%H:%M")] at the instant [now]. *)
Definition local_hour_minute (now : datetime) : string :=
  let local := now + utcoffset now in
  pad 2 (hour local) ++ ":" ++ pad 2 (minute local).

Definition context_of (forecast_value : Q) (now : datetime) (question : string)
  : string :=
  "Current energy forecast: " ++ format_2f forecast_value ++ " Wh" ++ newline
  ++ "Time: " ++ local_hour_minute now ++ newline
  ++ "Question: " ++ question.

Definition generate_explanation (agent : AgentExecutor) (forecast_value : Q)
  (question : string) : Run Clock string :=
  fun c =>
    let now := reading c (ticks c) in
    let c := mkClock (reading c) (S (ticks c)) in
    let context := context_of forecast_value now question in
    match invoke agent context with
    | inr result =>
        (inr (match dict_get "output" result with
              | Some response => response
              | None => ""
              end), c)
    | inl e =>
        (inl (RuntimeError ("Failed to generate explanation: " ++ str e)), c)
    end.

End Explain.

End EnergyAgent.

(** ** [src/api/app.py]

    The module's globals are a record; an endpoint either answers with a
    body or raises an [HTTPException]; a request without a JSON document
    as its body ([None]), or with one that fails validation, is answered
    by the framework with status 422. *)

Module App.
Import Datetime FileOps ModelLoader EnergyAgent.

Record Globals : Type := mkGlobals {
  xgb_model : option Service.Predictor;
  xgb_scaler : option Service.Transformer;
  prophet_model : option Service.Prophet;
  feature_names : option (list string);
  llm_agent : option AgentExecutor;
  forecast_service : option Service.ForecastService
}.

(** The globals when the module is imported. *)
Definition not_started : Globals := mkGlobals None None None None None None.

Inductive reply (A : Type) : Type :=
| Reply (body : A)
| HTTPException (status_code : Z) (detail : string)
| RequestValidationError (field : string).
Arguments Reply {A} _.
Arguments HTTPException {A} _ _.
Arguments RequestValidationError {A} _.

Definition status_of {A} (r : reply A) : Z :=
  match r with
  | Reply _ => 200
  | HTTPException status_code _ => status_code
  | RequestValidationError _ => 422
  end.

(** The startup part of [lifespan]: [setup_llm_agent] is what the call
    of that name gives.  A [ConnectionError] leaves the agent unset;
    any other exception ends the startup. *)
Definition lifespan (MODELS_DIR : Directory) (setup_llm_agent : outcome AgentExecutor)
  (g : Globals) : outcome Globals :=
  let '(xgb_model, xgb_scaler, feature_names) := load_xgboost_model MODELS_DIR in
  let prophet_model := load_prophet_model MODELS_DIR in
  let forecast_service :=
    {| Service.xgb_model := xgb_model;
       Service.xgb_scaler := xgb_scaler;
       Service.prophet_model := prophet_model;
       Service.feature_names := feature_names |} in
  match setup_llm_agent with
  | inr agent =>
      inr (mkGlobals xgb_model xgb_scaler prophet_model feature_names
             (Some agent) (Some forecast_service))
  | inl (ConnectionError _) =>
      inr (mkGlobals xgb_model xgb_scaler prophet_model feature_names
             (llm_agent g) (Some forecast_service))
  | inl e => inl e
  end.

Record Health : Type := mkHealth {
  status : string;
  models_loaded : bool;
  timestamp : string
}.

Definition health_check (g : Globals) (c : Clock) : Health * Clock :=
  (mkHealth "ok"
     (Service.truthy (xgb_model g) || Service.truthy (prophet_model g))
     (isoformat (reading c (ticks c))),
   mkClock (reading c) (S (ticks c))).

Definition not_initialized : string :=
  "Forecast service not initialized. Run 'python -m src.train' first.".

(** The handler of [POST /forecast]. *)
Definition forecast (g : Globals) (request : ForecastRequest.t) (c : Clock)
  : reply ForecastResponse.t * Clock :=
  match forecast_service g with
  | None => (HTTPException 503 not_initialized, c)
  | Some service =>
      match Service.forecast service (ForecastRequest.horizon request)
              (ForecastRequest.use_xgboost request) c with
      | (inr (forecast_values, timestamps, model_name), c') =>
          (Reply (ForecastResponse.mk forecast_values timestamps model_name
                    (ForecastRequest.horizon request)), c')
      | (inl (ValueError msg), c') => (HTTPException 503 msg, c')
      | (inl e, c') => (HTTPException 500 ("Forecast error: " ++ str_exn e), c')
      end
  end.

Section Forecast.
Variable to_int : json -> option Z.
Variable to_bool : json -> option bool.

(** [POST /forecast] *)
Definition post_forecast (g : Globals) (body : option json) (c : Clock)
  : reply ForecastResponse.t * Clock :=
  match body with
  | None => (RequestValidationError "body", c)
  | Some body =>
      match ForecastRequest.validate to_int to_bool body with
      | inl field => (RequestValidationError field, c)
      | inr request => forecast g request c
      end
  end.

End Forecast.

Section Explain.
Variable format_2f : Q -> string.
Variable utcoffset : datetime -> Z.
Variable to_str : json -> option string.
Variable to_float : json -> option Q.

(** The handler of [POST /explain]. *)
Definition explain (g : Globals) (request : ExplainRequest.t) (c : Clock)
  : reply ExplainResponse.t * Clock :=
  match llm_agent g with
  | None => (HTTPException 503 "LLM agent not initialized.", c)
  | Some agent =>
      match generate_explanation format_2f utcoffset agent
              (ExplainRequest.forecast_value request)
              (ExplainRequest.question request) c with
      | (inr explanation, c') =>
          (Reply (ExplainResponse.mk (ExplainRequest.question request) explanation
                    (isoformat (reading c' (ticks c')))),
           mkClock (reading c') (S (ticks c')))
      | (inl e, c') => (HTTPException 500 ("Explanation error: " ++ str e), c')
      end
  end.

(** [POST /explain] *)
Definition post_explain (g : Globals) (body : option json) (c : Clock)
  : reply ExplainResponse.t * Clock :=
  match body with
  | None => (RequestValidationError "body", c)
  | Some body =>
      match ExplainRequest.validate to_str to_float body with
      | inl field => (RequestValidationError field, c)
      | inr request => explain g request c
      end
  end.

End Explain.

End App.

(** ** [src/models/train.py]

    The tracking store of MLflow is the list of the calls made to it, in
    order. *)

Module Train.
Import Constants FileOps.

Definition MLFLOW_EXPERIMENT_NAME : string := "energy-wise-forecasting".
Definition XGBOOST_N_ESTIMATORS : Q := 100 # 1.
Definition XGBOOST_MAX_DEPTH : Q := 6 # 1.
Definition XGBOOST_LEARNING_RATE : Q := 1 # 10.

Inductive mlflow_call : Type :=
| set_experiment (name : string)
| start_run
| log_metrics (metrics : dict Q)
| log_params (params : dict Q)
| log_artifact (local_path artifact_path : string)
| end_run (status : string).

Record World : Type := mkWorld {
  MODELS_DIR : Directory;
  tracking : list mlflow_call
}.

Definition mlflow (call : mlflow_call) : Run World unit :=
  fun w => (inr tt, mkWorld (MODELS_DIR w) (tracking w ++ [call])).

(** [mlflow.log_artifact(str(MODELS_DIR / name), artifact_path)] *)
Definition mlflow_log_artifact (name artifact_path : string) : Run World unit :=
  fun w => mlflow (log_artifact (join (MODELS_DIR w) name) artifact_path) w.

Definition in_models_dir {A} (m : Run Directory A) : Run World A :=
  fun w => let (r, d) := m (MODELS_DIR w) in (r, mkWorld d (tracking w)).

(** [with mlflow.start_run(): body]: the run ends as finished, or as
    failed when the body raises. *)
Definition with_run {A} (body : Run World A) : Run World A :=
  fun w =>
    match body (snd (mlflow start_run w)) with
    | (inr a, w') => (inr a, snd (mlflow (end_run "FINISHED") w'))
    | (inl e, w') => (inl e, snd (mlflow (end_run "FAILED") w'))
    end.

(** The fitted scaler as the object the service calls [transform]
    on. *)
Definition scaler_object (scaler : Sklearn.StandardScaler) : Service.Transformer :=
  {| Service.transform := Sklearn.transform scaler |}.

Section Main.
Variable sqrt : Q -> Q.
Variable XGBRegressor_fit :
  list (list Q) -> list Q -> list (list Q) * list Q -> Service.Predictor.
Variable Prophet_fit : DataFrame -> result Service.Prophet.
Variable parse_text : string -> option Datetime.datetime.
Variable parse_number : Q -> option Datetime.datetime.
Variable argsort : list Z -> list nat.

(** [csv] is the content of the data file, [None] when it does not
    exist. *)
Definition main (csv : option DataFrame) : Run World unit :=
  (_ <- mlflow (set_experiment MLFLOW_EXPERIMENT_NAME) ;;
   data <- run_result
             (DataLoader.load_and_prepare_data parse_text parse_number argsort csv) ;;
   with_run
     (prophet_result <-
        run_result (ProphetTrainer.train_prophet sqrt Prophet_fit
                      (DataLoader.dataframe data) (DataLoader.date_column data)
                      (DataLoader.target_column data)) ;;
      _ <- mlflow (log_metrics
                     [("prophet_mae", mae (ProphetTrainer.metrics prophet_result));
                      ("prophet_rmse", rmse (ProphetTrainer.metrics prophet_result))]) ;;
      _ <- in_models_dir
             (save_pickle "prophet_model.pkl" (ProphetTrainer.model prophet_result)
                "Prophet model") ;;
      _ <- mlflow_log_artifact "prophet_model.pkl" "models/prophet" ;;
      xgb_result <-
        run_result (XGBoost.train_xgboost sqrt XGBRegressor_fit
                      (DataLoader.dataframe data) (DataLoader.date_column data)
                      (DataLoader.target_column data)) ;;
      _ <- mlflow (log_metrics
                     [("xgboost_mae", mae (XGBoost.metrics xgb_result));
                      ("xgboost_rmse", rmse (XGBoost.metrics xgb_result))]) ;;
      _ <- mlflow (log_params
                     [("n_estimators", XGBOOST_N_ESTIMATORS);
                      ("max_depth", XGBOOST_MAX_DEPTH);
                      ("learning_rate", XGBOOST_LEARNING_RATE)]) ;;
      _ <- in_models_dir
             (save_pickle "xgb_model.pkl" (XGBoost.model xgb_result) "XGBoost model") ;;
      _ <- mlflow_log_artifact "xgb_model.pkl" "models/xgboost" ;;
      _ <- in_models_dir
             (save_pickle "xgb_scaler.pkl" (scaler_object (XGBoost.scaler xgb_result))
                "XGBoost feature scaler") ;;
      _ <- mlflow_log_artifact "xgb_scaler.pkl" "models/xgboost" ;;
      _ <- in_models_dir
             (save_pickle "feature_names.pkl" (XGBoost.feature_names xgb_result)
                "Feature names") ;;
      mlflow_log_artifact "feature_names.pkl" "models/xgboost"))%run.

End Main.

End Train.

(** ** [data/download_data.py]

    The state is the data file (its bytes, when it exists), what the
    file system does to a write, and the list of the URLs requested so
    far. *)

Module DownloadData.

Definition ENERGY_DATA_URL : string :=
  "https://archive.ics.uci.edu/ml/machine-learning-databases/00374/energydata_complete.csv".
Definition url : string := ENERGY_DATA_URL.

Record Response : Type := mkResponse {
  status_code : Z;
  content : string
}.

(** [response.raise_for_status()] *)
Definition raise_for_status (response : Response) : outcome unit :=
  if (400 <=? status_code response) && (status_code response <? 600)
  then inl (HTTPError "Client or server error") else inr tt.

Record World : Type := mkWorld {
  appliances_energy_csv : option string;
  (* what opening the file for writing raises, if it does *)
  open_wb : option exception;
  (* what writing these bytes raises, if it does, with the bytes that
     have reached the file *)
  write : string -> option (exception * string);
  requested : list string
}.

Section Download.
(** [requests.get]: a response, or the exception of a failed
    connection. *)
Variable requests_get : string -> outcome Response.

(** [open(filepath, "wb")] creates the file before [f.write]
    runs. *)
Definition download_data : Run World unit :=
  fun w =>
    match appliances_energy_csv w with
    | Some _ => (inr tt, w)
    | None =>
        let w := mkWorld None (open_wb w) (write w) (requested w ++ [url]) in
        match requests_get url with
        | inl e => (inl e, w)
        | inr response =>
            match raise_for_status response with
            | inl e => (inl e, w)
            | inr _ =>
                match open_wb w with
                | Some e => (inl e, w)
                | None =>
                    match write w (content response) with
                    | Some (e, written) =>
                        (inl e,
                         mkWorld (Some written) (open_wb w) (write w) (requested w))
                    | None =>
                        (inr tt,
                         mkWorld (Some (content response)) (open_wb w) (write w)
                           (requested w))
                    end
                end
            end
        end
    end.

End Download.

End DownloadData.

(** ** Vocabulary of the statements about the application *)

Module AppSpec.
Import FileOps ModelLoader.

(** The service built from what the loader finds in a directory. *)
Definition service_of (models_dir : Directory) : Service.ForecastService :=
  {| Service.xgb_model := fst (fst (load_xgboost_model models_dir));
     Service.xgb_scaler := snd (fst (load_xgboost_model models_dir));
     Service.prophet_model := load_prophet_model models_dir;
     Service.feature_names := snd (load_xgboost_model models_dir) |}.

(** The artifacts of the requested family are there: the tree model
    and a non-empty list of feature names (the scaler is optional), or
    the seasonal model. *)
Definition family_available (self : Service.ForecastService) (use_xgboost : bool)
  : bool :=
  if use_xgboost
  then Service.truthy (Service.xgb_model self)
       && Service.truthy_list (Service.feature_names self)
  else Service.truthy (Service.prophet_model self).

Definition family_loaded (models_dir : Directory) (use_xgboost : bool) : bool :=
  family_available (service_of models_dir) use_xgboost.

(** The directory once [obj] is pickled under [name]. *)
Definition saved (name : string) (obj : class_of name) (d : Directory) : Directory :=
  replaced name (Pickled obj) d.

(** The file [name] of the directory can be written: opening it and
    dumping an object of its class into it do not raise. *)
Definition writable (d : Directory) (name : string) : Prop :=
  open_wb d name = None /\ forall obj, pickle_dump d name obj = None.

(** The objects the trainer pickles. *)
Definition trained_models (pm : ProphetTrainer.ProphetModel) (r : XGBoost.XGBoostResult)
  (d : Directory) : Directory :=
  saved "feature_names.pkl" (XGBoost.feature_names r)
    (saved "xgb_scaler.pkl" (Train.scaler_object (XGBoost.scaler r))
      (saved "xgb_model.pkl" (XGBoost.model r)
        (saved "prophet_model.pkl" (ProphetTrainer.model pm) d))).

(** The files named [names] are the same in both directories. *)
Definition same_files (names : list string) (d1 d2 : Directory) : Prop :=
  forall name, In name names -> files d1 name = files d2 name.

Definition family_name (use_xgboost : bool) : string :=
  if use_xgboost then Constants.MODEL_XGBOOST else Constants.MODEL_PROPHET.

Definition family_unavailable (use_xgboost : bool) : string :=
  if use_xgboost then Service.xgboost_unavailable else Service.prophet_unavailable.

End AppSpec.

(** ** Concrete artifacts, clocks and records used to run the code *)

Module Examples.
Import Datetime Service.

Definition schema : list string := ["T1"; "hour"; "day_of_week"; "month"; "lag_1"].

(** A model that predicts the [hour] feature of each row, less [shift]. *)
Definition hour_model (shift : Q) : Predictor :=
  {| predict := map (fun row => (nth 1 row (0 # 1) - shift)%Q) |}.

Definition seasonal_model : Prophet :=
  {| make_future_dataframe := fun periods _ =>
       map (fun i => timedelta_hours i) (range 0 (100 + periods));
     predict_yhat := map (fun t => (inject_Z (hour t) - 12)%Q) |}.

Definition tree_only (shift : Q) : ForecastService :=
  {| xgb_model := Some (hour_model shift); xgb_scaler := None;
     prophet_model := None; feature_names := Some schema |}.

Definition seasonal_only : ForecastService :=
  {| xgb_model := None; xgb_scaler := None;
     prophet_model := Some seasonal_model; feature_names := None |}.

(** 2024-01-31T23:30:00 UTC, a Wednesday. *)
Definition late_january : datetime := make 2024 1 31 23 30 0 0.

(** Two readings of the clock, 1.5 ms apart. *)
Definition clock0 : Clock := clock_of late_january [late_january; late_january + 1500].

(** A record of [n] rows with a target and one sensor. *)
Definition record_with (time_of : nat -> datetime) (sensor : nat -> cell) (n : nat)
  : DataFrame :=
  mkFrame (map Z.of_nat (seq 0 n))
    [("date", map (fun i => Timestamp (time_of i)) (seq 0 n));
     ("Appliances", map (fun i => Float (inject_Z (Z.of_nat (10 * i)))) (seq 0 n));
     ("T1", map sensor (seq 0 n))].

(** Hourly instants from 2024-01-01T00:00 UTC. *)
Definition hourly (i : nat) : datetime :=
  make 2024 1 1 0 0 0 0 + timedelta_hours (Z.of_nat i).

Definition reading_of (i : nat) : cell := Float (inject_Z (Z.of_nat i)).

Definition hourly_record (n : nat) : DataFrame := record_with hourly reading_of n.

Definition target_of (n : nat) : list cell :=
  map (fun i => Float (inject_Z (Z.of_nat (10 * i)))) (seq 0 n).

(** The same record with different sensor readings from row [k] on. *)
Definition perturbed_record (k n : nat) : DataFrame :=
  record_with hourly
    (fun i => if (i <? k)%nat then reading_of i else reading_of (7 * i + 3)) n.

(** The same record with the sensor reading of row [k] missing. *)
Definition gapped_record (k n : nat) : DataFrame :=
  record_with hourly (fun i => if Nat.eqb i k then NA else reading_of i) n.

(** Every timestamp occurs on two consecutive rows. *)
Definition doubled_record (n : nat) : DataFrame :=
  record_with (fun i => hourly (i / 2)) reading_of n.

(** The libraries, instantiated: the integer square root of the
    integer part, and a regressor that always predicts zero. *)
Definition sqrt0 (q : Q) : Q := inject_Z (Z.sqrt (Qnum q / Z.pos (Qden q))).

Definition fit0 (X : list (list Q)) (y : list Q) (eval_set : list (list Q) * list Q)
  : Predictor :=
  {| predict := map (fun _ => (0 # 1)%Q) |}.

(** A sort by insertion that meets numpy's contract: [before] says
    whether a new position goes in front of one already placed. *)
Fixpoint insert_position (before : Z -> Z -> bool) (ks : list Z) (i : nat)
  (l : list nat) : list nat :=
  match l with
  | [] => [i]
  | j :: l' =>
      if before (nth i ks 0) (nth j ks 0) then i :: j :: l'
      else j :: insert_position before ks i l'
  end.

Definition argsort_by (before : Z -> Z -> bool) (ks : list Z) : list nat :=
  fold_left (fun l i => insert_position before ks i l) (seq 0 (List.length ks)) [].

(** Equal keys keep their order. *)
Definition argsort_stable : list Z -> list nat := argsort_by Z.ltb.

(** A parser of dates written [YYYY-MM-DD HH:MM:SS]. *)
Definition digit_value (c : ascii) : option Z :=
  let n := nat_of_ascii c in
  if ((48 <=? n) && (n <=? 57))%nat then Some (Z.of_nat (n - 48)) else None.

Fixpoint number_of (s : string) (acc : Z) : option Z :=
  match s with
  | EmptyString => Some acc
  | String c s' =>
      match digit_value c with
      | Some d => number_of s' (10 * acc + d)
      | None => None
      end
  end.

Definition field (s : string) (start width : nat) : option Z :=
  number_of (substring start width s) 0.

Definition parse_date (s : string) : option datetime :=
  match field s 0 4, field s 5 2, field s 8 2, field s 11 2, field s 14 2, field s 17 2 with
  | Some y, Some m, Some d, Some hh, Some mm, Some ss =>
      if (String.length s =? 19)%nat
         && String.eqb (substring 4 1 s) "-" && String.eqb (substring 7 1 s) "-"
         && String.eqb (substring 10 1 s) " "
         && String.eqb (substring 13 1 s) ":" && String.eqb (substring 16 1 s) ":"
         && (1 <=? m) && (m <=? 12) && (1 <=? d) && (d <=? 31)
         && (hh <? 24) && (mm <? 60) && (ss <? 60)
      then Some (make y m d hh mm ss 0)
      else None
  | _, _, _, _, _, _ => None
  end.

Definition parse_none (q : Q) : option datetime := None.

(** A raw file with an unparseable date, out of order. *)
Definition raw_file : DataFrame :=
  mkFrame [0; 1; 2; 3]
    [("date", [Text "2016-01-11 19:00:00"; Text "n/a";
               Text "2016-01-11 17:00:00"; Text "2016-01-11 18:00:00"]);
     ("Appliances", [Float (60 # 1); Float (50 # 1); Float (40 # 1); NA]);
     ("T1", [Float (199 # 10); Float (198 # 10); NA; Float (197 # 10)])].

(** A raw file of [n] readings that all carry the same date. *)
Definition tied_file (n : nat) : DataFrame :=
  mkFrame (map Z.of_nat (seq 0 n))
    [("date", map (fun _ => Text "2016-01-11 17:00:00") (seq 0 n));
     ("Appliances", map (fun i => Float (inject_Z (Z.of_nat (10 * i)))) (seq 0 n))].

Definition no_frame {C} : Frame C := mkFrame [] [].

Definition prepared (argsort : list Z -> list nat) (df : DataFrame) : DataFrame :=
  get no_frame (DataLoader.prepare parse_date parse_none argsort df).

Definition no_partitions : XGBoost.Partitions :=
  XGBoost.mkPartitions [] no_frame no_frame [] [].

Definition no_result : XGBoost.XGBoostResult :=
  XGBoost.mkResult (fit0 [] [] ([], [])) [] (mkMetrics (0 # 1) (0 # 1))
    (Sklearn.mkScaler [] [] []).

(** The stages of the tree-model trainer and the frame of the
    seasonal trainer, run on a record with the configured columns. *)
Definition with_features_of (df : DataFrame) : DataFrame :=
  get no_frame (XGBoost.with_features df Constants.DATE_COLUMN Constants.TARGET_COLUMN).

Definition feats_of (df : DataFrame) : DataFrame :=
  get no_frame (XGBoost.engineer_features df Constants.DATE_COLUMN Constants.TARGET_COLUMN).

Definition partitions_of (df : DataFrame) : XGBoost.Partitions :=
  get no_partitions (XGBoost.partitions df Constants.DATE_COLUMN Constants.TARGET_COLUMN).

Definition trained_on (df : DataFrame) : XGBoost.XGBoostResult :=
  get no_result
    (XGBoost.train_xgboost sqrt0 fit0 df Constants.DATE_COLUMN Constants.TARGET_COLUMN).

Definition prophet_frame_of (df : DataFrame) : DataFrame :=
  get no_frame
    (ProphetTrainer.prophet_frame df Constants.DATE_COLUMN Constants.TARGET_COLUMN).

End Examples.

(** ** More records and artifacts used to run the code *)

Module Scenarios.
Import Datetime Service FileOps.

(** A raw file without a date column, with labels of its own. *)
Definition undated_file : DataFrame :=
  mkFrame [10; 11; 12]
    [("Appliances", [Float (60 # 1); Float (50 # 1); NA]);
     ("T1", [Float (199 # 10); Text "n/a"; Float (197 # 10)])].

(** A raw file without the target column. *)
Definition untargeted_file : DataFrame :=
  mkFrame [0; 1]
    [("date", [Text "2016-01-11 18:00:00"; Text "2016-01-11 17:00:00"]);
     ("T1", [Float (199 # 10); Float (198 # 10)])].

(** A record whose sensor column was read as text. *)
Definition text_sensor_record (n : nat) : DataFrame :=
  Examples.record_with Examples.hourly (fun _ => Text "n/a") n.

(** A seasonal model whose future frame continues the rows it was
    fitted on, hour by hour, and which predicts the hour of the day. *)
Definition fit_seasonal (train_df : DataFrame) : result Prophet :=
  ok {| make_future_dataframe := fun periods _ =>
          ServiceShape.hourly_from (make 2024 1 1 0 0 0 0)
            (len train_df + Z.to_nat periods);
        predict_yhat := map (fun t => inject_Z (hour t)) |}.

(** A sort that moves nothing (the records above are in order). *)
Definition argsort_sorted (ks : list Z) : list nat := seq 0 (List.length ks).

(** A models directory without files, and one with the seasonal model
    only. *)
Definition empty_models : Directory :=
  mkDirectory "models" (fun name => @Missing (class_of name)) (fun _ => None)
    (fun _ _ => None).

Definition seasonal_models : Directory :=
  snd (save_pickle "prophet_model.pkl" Examples.seasonal_model "Prophet model"
         empty_models).

(** A models directory with the tree model but no feature names. *)
Definition tree_model_alone : Directory :=
  snd (save_pickle "xgb_model.pkl" (Examples.hour_model 0) "XGBoost model"
         empty_models).

(** A models directory that holds a tree model, on a disk without
    room for another one. *)
Definition full_disk : Directory :=
  mkDirectory "models" (files tree_model_alone) (fun _ => None)
    (fun name _ =>
       if String.eqb name "xgb_model.pkl"
       then Some (mkInterrupted (OSError "[Errno 28] No space left on device")
                    (UnpicklingError "pickle data was truncated"))
       else None).

(** Conversions of JSON values that accept the values of the declared
    class only. *)
Definition to_int (value : json) : option Z :=
  match value with JInt z => Some z | _ => None end.

Definition to_bool (value : json) : option bool :=
  match value with JBool b => Some b | _ => None end.

(** The globals after startup without a language model. *)
Definition started (models_dir : Directory) : App.Globals :=
  match App.lifespan models_dir (inl (ConnectionError "Could not connect to Ollama"))
          App.not_started with
  | inr g => g
  | inl _ => App.not_started
  end.

Definition fresh_world : Train.World := Train.mkWorld empty_models [].

(** The training pipeline on a data file. *)
Definition main_on (csv : option DataFrame) : Run Train.World unit :=
  Train.main Examples.sqrt0 Examples.fit0 fit_seasonal
    Examples.parse_date Examples.parse_none argsort_sorted csv.

Definition loaded (csv : option DataFrame) : DataLoader.DataLoadResult :=
  get (DataLoader.mkLoad Examples.no_frame "" "")
    (DataLoader.load_and_prepare_data Examples.parse_date Examples.parse_none
       argsort_sorted csv).

Definition seasonal_trained_on (df : DataFrame) : ProphetTrainer.ProphetModel :=
  get (ProphetTrainer.mkProphetModel Examples.seasonal_model (mkMetrics (0 # 1) (0 # 1)))
    (ProphetTrainer.train_prophet Examples.sqrt0 fit_seasonal df
       Constants.DATE_COLUMN Constants.TARGET_COLUMN).

End Scenarios.

(** * Properties *)

(** ** Results *)

Lemma bind_ok_inv {A B} (m : result A) (k : A -> result B) (b : B) :
  bind m k = ok b -> exists a, m = ok a /\ k a = ok b.
Proof. destruct m as [e|a]; simpl; [discriminate|eauto]. Qed.

Lemma get_is_ok {A} (d : A) (m : result A) : is_ok m = true -> m = ok (get d m).
Proof. destruct m; [discriminate|reflexivity]. Qed.

(** Inverts a successful [bind]: [H : bind m k = ok b] becomes
    [E : m = ok a] and [H : k a = ok b]. *)
Ltac inv_bind H :=
  let a := fresh "a" in
  let E := fresh "E" in
  apply bind_ok_inv in H; destruct H as (a & E & H).

(** ** Dictionaries and traversals *)

Lemma dict_get_set_same {V} (k : string) (v : V) (d : dict V) :
  dict_get k (dict_set k v d) = Some v.
Proof.
  induction d as [|[k' v'] d IH]; simpl.
  - now rewrite String.eqb_refl.
  - destruct (String.eqb k k') eqn:E; simpl; rewrite E; auto.
Qed.

Lemma dict_get_set_other {V} (k k' : string) (v : V) (d : dict V) :
  k <> k' -> dict_get k (dict_set k' v d) = dict_get k d.
Proof.
  intros Hne.
  induction d as [|[k0 v0] d IH]; simpl.
  - destruct (String.eqb k k') eqn:E; auto.
    apply String.eqb_eq in E. contradiction.
  - destruct (String.eqb k' k0) eqn:E; simpl.
    + apply String.eqb_eq in E. subst k0.
      destruct (String.eqb k k') eqn:E'; auto.
      apply String.eqb_eq in E'. contradiction.
    + destruct (String.eqb k k0); auto.
Qed.

Lemma dict_get_set {V} (k k' : string) (v : V) (d : dict V) :
  dict_get k (dict_set k' v d) = if String.eqb k k' then Some v else dict_get k d.
Proof.
  destruct (String.eqb k k') eqn:E.
  - apply String.eqb_eq in E. subst. apply dict_get_set_same.
  - apply dict_get_set_other. intros ->. now rewrite String.eqb_refl in E.
Qed.

Lemma dict_get_fold_set {V} (k : string) (v : V) (keys : list string) (d : dict V) :
  dict_get k (fold_left (fun d k => dict_set k v d) keys d)
  = if existsb (String.eqb k) keys then Some v else dict_get k d.
Proof.
  revert d. induction keys as [|k0 keys IH]; intros d; simpl; auto.
  rewrite IH, dict_get_set.
  destruct (String.eqb k k0); simpl; auto.
  now destruct (existsb (String.eqb k) keys).
Qed.

Lemma dict_get_fromkeys {V} (k : string) (v : V) (keys : list string) :
  dict_get k (dict_fromkeys keys v)
  = if existsb (String.eqb k) keys then Some v else None.
Proof. unfold dict_fromkeys. now rewrite dict_get_fold_set. Qed.

Lemma dict_set_keys_in {V} (k : string) (v c : V) (d : dict V) :
  In c (map snd (dict_set k v d)) -> c = v \/ In c (map snd d).
Proof.
  induction d as [|[k' v'] d IH]; simpl.
  - intros [H|[]]; auto.
  - destruct (String.eqb k k'); simpl; intros [H|H]; auto.
    destruct (IH H); auto.
Qed.

Lemma dict_get_in {V} (k : string) (v : V) (d : dict V) :
  dict_get k d = Some v -> In v (map snd d).
Proof.
  induction d as [|[k' v'] d IH]; simpl; [discriminate|].
  destruct (String.eqb k k'); [intros [= ->]|]; auto.
Qed.

Lemma existsb_eqb_in (k : string) (keys : list string) :
  In k keys -> existsb (String.eqb k) keys = true.
Proof.
  intros H. apply existsb_exists. exists k. split; auto. apply String.eqb_refl.
Qed.

Lemma traverse_map {A B} (f : A -> result B) (g : A -> B) (l : list A) :
  (forall a, In a l -> f a = ok (g a)) -> traverse f l = ok (map g l).
Proof.
  induction l as [|a l IH]; intros H; simpl; auto.
  rewrite (H a (or_introl eq_refl)). unfold ok.
  rewrite IH; auto. intros; apply H; now right.
Qed.

Lemma traverse_length {A B} (f : A -> result B) (l : list A) (bs : list B) :
  traverse f l = inr bs -> List.length bs = List.length l.
Proof.
  revert bs. induction l as [|a l IH]; intros bs; simpl.
  - now intros [= <-].
  - destruct (f a); [discriminate|].
    destruct (traverse f l); [discriminate|].
    intros [= <-]. simpl. f_equal. now apply IH.
Qed.

(** ** Ranges and slices *)

Lemma range_length (a b : Z) : List.length (range a b) = Z.to_nat (b - a).
Proof. unfold range. now rewrite length_map, length_seq. Qed.

Lemma range_nth (a b : Z) (k : nat) (d : Z) :
  (k < Z.to_nat (b - a))%nat -> nth k (range a b) d = a + Z.of_nat k.
Proof.
  intros H. unfold range.
  rewrite (nth_indep _ d (a + Z.of_nat 0)) by now rewrite length_map, length_seq.
  rewrite (map_nth (fun k => a + Z.of_nat k)), seq_nth; auto.
Qed.


(** ** The forecast service *)

Module ServiceFacts.
Import Constants Datetime Service ServiceSpec.

Lemma features_at_get (names : list string) (t : datetime) (c : string) :
  In c names -> dict_get c (features_at names t) = Some (serving_value c t).
Proof.
  intros Hin. unfold features_at, serving_value.
  rewrite !dict_get_set, dict_get_fromkeys, (existsb_eqb_in _ _ Hin).
  destruct (String.eqb c "month"); auto.
  destruct (String.eqb c "day_of_week"); auto.
  destruct (String.eqb c "hour"); auto.
Qed.

(** Row [k] of the serving frame is computed at [now + k] hours, for
    [k] from [0] to [horizon - 1]; a column other than the three
    temporal ones is zero. *)
Lemma serving_frame_rows (names : list string) (now : datetime) (horizon : Z) :
  1 <= horizon ->
  serving_frame names now horizon
  = ok (map (fun i => map (fun c => serving_value c (now + timedelta_hours i)) names)
            (range 0 horizon)).
Proof.
  intros Hh. unfold serving_frame, select_columns.
  assert (Hne : range 0 horizon <> []).
  { intros E. apply (f_equal (@List.length Z)) in E.
    rewrite range_length in E. simpl in E. lia. }
  destruct (range 0 horizon) as [|i0 is0] eqn:Er; [contradiction|].
  rewrite <- Er. clear Hne.
  match goal with
  | |- match ?l with _ => _ end = _ =>
      assert (Hl : l <> []) by (rewrite Er; discriminate);
      destruct l as [|d0 l0] eqn:El; [contradiction|rewrite <- El]
  end.
  rewrite traverse_map
    with (g := fun d => map (fun c => match dict_get c d with
                                      | Some v => v | None => (0 # 1)%Q end) names).
  - unfold ok. f_equal. rewrite map_map. apply map_ext. intros i.
    apply map_ext_in. intros c Hc. now rewrite features_at_get.
  - intros d Hd. rewrite El in Hd. rewrite <- El in Hd.
    apply in_map_iff in Hd. destruct Hd as [i [<- _]].
    apply traverse_map. intros c Hc. now rewrite features_at_get.
Qed.

Lemma maximum_nonneg (x : Q) : (0 <= maximum 0 x)%Q.
Proof.
  unfold maximum. destruct (Qle_bool x 0) eqn:E.
  - apply Qle_refl.
  - destruct (Qlt_le_dec 0 x) as [H|H].
    + now apply Qlt_le_weak.
    + apply Qle_bool_iff in H. congruence.
Qed.

Lemma np_maximum_nonneg (xs : list Q) :
  Forall (fun v => (0 <= v)%Q) (np_maximum xs 0).
Proof.
  unfold np_maximum. apply Forall_forall. intros v Hv.
  apply in_map_iff in Hv. destruct Hv as [x [<- _]]. apply maximum_nonneg.
Qed.

Lemma xgboost_forecast_values self horizon c values c' :
  _xgboost_forecast self horizon c = (inr values, c') ->
  exists predictions, values = np_maximum predictions 0.
Proof.
  unfold _xgboost_forecast.
  destruct (feature_names self) as [[|n ns]|]; try discriminate;
    destruct (xgb_model self) as [m|]; try discriminate.
  unfold io_bind, datetime_now, lift, ret, ok.
  destruct (serving_frame _ _ _); [discriminate|].
  intros [= <- _]. eauto.
Qed.

Lemma prophet_forecast_values self horizon c values c' :
  _prophet_forecast self horizon c = (inr values, c') ->
  exists predictions, values = np_maximum predictions 0.
Proof.
  unfold _prophet_forecast.
  destruct (prophet_model self) as [m|]; try discriminate.
  unfold ret, ok. intros [= <- _]. eauto.
Qed.

Lemma forecast_values self horizon use_xgboost c values ts name c' :
  forecast self horizon use_xgboost c = (inr (values, ts, name), c') ->
  exists predictions, values = np_maximum predictions 0.
Proof.
  unfold forecast, io_bind.
  destruct use_xgboost.
  - destruct (negb _ || negb _); [discriminate|].
    destruct (_xgboost_forecast self horizon c) as [[e|v] c1] eqn:E; [discriminate|].
    unfold ret, datetime_now, ok. simpl. intros [= <- _ _ _].
    eapply xgboost_forecast_values; eauto.
  - destruct (negb _); [discriminate|].
    destruct (_prophet_forecast self horizon c) as [[e|v] c1] eqn:E; [discriminate|].
    unfold ret, datetime_now, ok. simpl. intros [= <- _ _ _].
    eapply prophet_forecast_values; eauto.
Qed.

Lemma hourly_points_increasing (now : datetime) (a : Z) (n : nat) :
  StronglySorted Z.lt
    (map (fun k => now + timedelta_hours (a + Z.of_nat k)) (seq 0 n)).
Proof.
  revert a. induction n as [|n IH]; intros a; simpl; [constructor|].
  constructor.
  - rewrite <- seq_shift, map_map.
    erewrite map_ext; [apply (IH (a + 1))|].
    intros k. simpl. f_equal. f_equal. lia.
  - apply Forall_forall. intros t Ht.
    apply in_map_iff in Ht.
    destruct Ht as [k [<- Hk]]. apply in_seq in Hk.
    unfold timedelta_hours, us_per_hour, us_per_second. lia.
Qed.

(** C1 (failing input).  One hour is requested from the tree model at
    2024-01-31T23:30 UTC, a Wednesday.  The only forecast point is
    stamped 2024-02-01T00:30 (hour 0, Thursday, February), but its
    feature row carries hour 23, day of week 2 and month 1: the
    features are computed for [now + 0h], one hour before the
    timestamp returned with the value.  The non-temporal schema
    columns ([T1], [lag_1]) are zero. *)
Theorem serving_features_one_hour_behind :
  let now := Examples.late_january in
  let target := now + timedelta_hours 1 in
  serving_frame Examples.schema now 1
    = ok [[0 # 1; 23 # 1; 2 # 1; 1 # 1; 0 # 1]]%Q
  /\ (hour target, weekday target, month target) = (0, 3, 2)
  /\ fst (forecast (Examples.tree_only 0) 1 true (clock_of now [now; now]))
     = ok ([23 # 1]%Q, ["2024-02-01T00:30:00+00:00"], "XGBoost")
  /\ isoformat target = "2024-02-01T00:30:00+00:00".
Proof. vm_compute. repeat split; reflexivity. Qed.

(** C4.  For a horizon [h] between 1 and 168 and either model family
    (its artifacts being loaded), [forecast] returns, and its
    timestamps are the ISO renderings of exactly [h] instants
    [now + 1h, now + 2h, ..., now + h h], where [now] is the clock
    reading taken by [forecast]; the instants are strictly increasing. *)
Theorem forecast_timestamps_hourly
  (self : ForecastService) (h : Z) (use_xgboost : bool) (c : Clock) :
  1 <= h <= 168 ->
  available self use_xgboost ->
  let now := request_time c use_xgboost in
  let instants := map (fun i => now + timedelta_hours i) (range 1 (h + 1)) in
  (exists values name,
      fst (forecast self h use_xgboost c) = ok (values, map isoformat instants, name))
  /\ List.length instants = Z.to_nat h
  /\ (forall k, (k < Z.to_nat h)%nat ->
        nth k instants 0 = now + (Z.of_nat k + 1) * us_per_hour)
  /\ StronglySorted Z.lt instants.
Proof.
  intros Hh Hav now instants. split; [|split; [|split]].
  - unfold forecast, io_bind, available in *. destruct use_xgboost.
    + destruct Hav as (m & n & ns & Hm & Hn). rewrite Hm, Hn. simpl.
      unfold _xgboost_forecast. rewrite Hm, Hn.
      unfold io_bind, datetime_now, lift, ret. simpl.
      rewrite serving_frame_rows by lia. unfold ok.
      eexists _, _. subst instants now. unfold request_time.
      rewrite map_map. simpl. rewrite Nat.add_1_r. reflexivity.
    + destruct Hav as (m & Hm). rewrite Hm. simpl.
      unfold _prophet_forecast. rewrite Hm.
      unfold io_bind, datetime_now, lift, ret, ok. simpl.
      eexists _, _. subst instants now. unfold request_time.
      rewrite map_map, Nat.add_0_r. reflexivity.
  - subst instants. rewrite length_map, range_length. f_equal. lia.
  - intros k Hk. subst instants.
    rewrite (nth_indep _ 0 (now + timedelta_hours 0))
      by (rewrite length_map, range_length; lia).
    rewrite (map_nth (fun i => now + timedelta_hours i)), range_nth by lia.
    unfold timedelta_hours. lia.
  - subst instants. unfold range. rewrite map_map.
    apply hourly_points_increasing.
Qed.

Lemma forecast_timestamps_hourly_witness :
  let now := request_time Examples.clock0 false in
  let instants := map (fun i => now + timedelta_hours i) (range 1 (3 + 1)) in
  (exists values name,
      fst (forecast Examples.seasonal_only 3 false Examples.clock0)
      = ok (values, map isoformat instants, name))
  /\ List.length instants = Z.to_nat 3
  /\ (forall k, (k < Z.to_nat 3)%nat ->
        nth k instants 0 = now + (Z.of_nat k + 1) * us_per_hour)
  /\ StronglySorted Z.lt instants.
Proof.
  apply (forecast_timestamps_hourly Examples.seasonal_only 3 false Examples.clock0).
  - lia.
  - simpl. exists Examples.seasonal_model. reflexivity.
Defined.

(** C5.  Whatever the model predicts, every value that [forecast]
    returns is non-negative, on the tree path and on the seasonal
    path. *)
Theorem forecast_values_nonnegative
  (self : ForecastService) (horizon : Z) (use_xgboost : bool) (c : Clock)
  (values : list Q) (timestamps : list string) (name : string) :
  fst (forecast self horizon use_xgboost c) = ok (values, timestamps, name) ->
  Forall (fun v => (0 <= v)%Q) values.
Proof.
  intros H.
  destruct (forecast self horizon use_xgboost c) as [r c'] eqn:E.
  simpl in H. subst r.
  destruct (forecast_values _ _ _ _ _ _ _ _ E) as [p ->].
  apply np_maximum_nonneg.
Qed.

Lemma forecast_values_nonnegative_witness :
  Forall (fun v => (0 <= v)%Q) [11 # 1; 0 # 1; 0 # 1]%Q.
Proof.
  apply (forecast_values_nonnegative (Examples.tree_only 12) 3 true Examples.clock0
           [11 # 1; 0 # 1; 0 # 1]%Q
           ["2024-02-01T00:30:00.001500+00:00"; "2024-02-01T01:30:00.001500+00:00";
            "2024-02-01T02:30:00.001500+00:00"]
           "XGBoost").
  vm_compute. reflexivity.
Defined.

(** C6.  When the artifacts of the requested family are absent (the
    tree model or its feature names for the tree family, also when
    the list of names is empty; the seasonal model for the seasonal
    family), [forecast] raises the error that names that model, with
    the clock unread, whatever is loaded for the other family. *)
Theorem forecast_model_unavailable
  (self : ForecastService) (horizon : Z) (use_xgboost : bool) (c : Clock) :
  (if use_xgboost
   then xgb_model self = None \/ feature_names self = None \/ feature_names self = Some []
   else prophet_model self = None) ->
  forecast self horizon use_xgboost c
  = (raise (ValueError (if use_xgboost then xgboost_unavailable
                        else prophet_unavailable)), c)
  /\ String.prefix MODEL_XGBOOST xgboost_unavailable = true
  /\ String.prefix MODEL_PROPHET prophet_unavailable = true.
Proof.
  intros H. split; [|split; reflexivity].
  unfold forecast, io_bind. destruct use_xgboost.
  - destruct H as [H|[H|H]]; rewrite H; simpl.
    + reflexivity.
    + now rewrite orb_true_r.
    + now rewrite orb_true_r.
  - rewrite H. reflexivity.
Qed.

Lemma forecast_model_unavailable_witness :
  forecast Examples.seasonal_only 24 true Examples.clock0
  = (raise (ValueError xgboost_unavailable), Examples.clock0)
  /\ String.prefix MODEL_XGBOOST xgboost_unavailable = true
  /\ String.prefix MODEL_PROPHET prophet_unavailable = true.
Proof.
  apply (forecast_model_unavailable Examples.seasonal_only 24 true Examples.clock0).
  left. reflexivity.
Defined.

End ServiceFacts.

(** ** Lists by position *)

Lemma filter_leb_seq (a n s : nat) :
  filter (fun i => a <=? i)%nat (seq s n) = seq (Nat.max a s) (s + n - Nat.max a s).
Proof.
  revert s. induction n as [|n IH]; intros s; simpl.
  - replace (s + 0 - Nat.max a s)%nat with O by lia. reflexivity.
  - rewrite IH. destruct (Nat.leb_spec a s).
    + replace (Nat.max a (S s)) with (S s) by lia.
      replace (Nat.max a s) with s by lia.
      replace (s + S n - s)%nat with (S n) by lia.
      replace (S s + n - S s)%nat with n by lia. reflexivity.
    + replace (Nat.max a (S s)) with a by lia.
      replace (Nat.max a s) with a by lia.
      f_equal. lia.
Qed.

Lemma skipn_cons_nth {A} (d : A) (l : list A) (a : nat) :
  (a < List.length l)%nat -> skipn a l = nth a l d :: skipn (S a) l.
Proof.
  revert a. induction l as [|x l IH]; intros a H; simpl in H; [lia|].
  destruct a as [|a]; [reflexivity|].
  change (skipn a l = nth a l d :: skipn (S a) l). apply IH. lia.
Qed.

Lemma take_seq {A} (d : A) (l : list A) (a m : nat) :
  (a + m <= List.length l)%nat ->
  map (fun i => nth i l d) (seq a m) = firstn m (skipn a l).
Proof.
  revert a. induction m as [|m IH]; intros a H; [reflexivity|].
  simpl seq. simpl map. rewrite (skipn_cons_nth d) by lia.
  simpl. f_equal. apply IH. lia.
Qed.

Lemma take_all {A} (d : A) (l : list A) :
  map (fun i => nth i l d) (seq 0 (List.length l)) = l.
Proof.
  rewrite take_seq by lia. simpl. apply firstn_all.
Qed.

Lemma shift_nth (lag : Z) (col : list cell) (i : nat) :
  (i < List.length col)%nat ->
  nth i (shift lag col) NA
  = if (i <? Z.to_nat lag)%nat then NA else nth (i - Z.to_nat lag) col NA.
Proof.
  intros H. unfold shift. rewrite nth_firstn.
  destruct (Nat.ltb_spec i (List.length col)); [|lia].
  destruct (Nat.ltb_spec i (Z.to_nat lag)).
  - rewrite app_nth1 by (rewrite repeat_length; lia). apply nth_repeat.
  - rewrite app_nth2 by (rewrite repeat_length; lia).
    now rewrite repeat_length.
Qed.

(** ** Frames *)

Lemma dict_get_map_values {A B} (f : A -> B) (k : string) (d : dict A) :
  dict_get k (map (fun cv => (fst cv, f (snd cv))) d) = option_map f (dict_get k d).
Proof.
  induction d as [|[k' v] d IH]; simpl; auto.
  destruct (String.eqb k k'); auto.
Qed.

Lemma getitem_ok {C} (df : Frame C) (c : string) (v : list C) :
  getitem df c = ok v <-> dict_get c (columns df) = Some v.
Proof.
  unfold getitem, ok, raise. destruct (dict_get c (columns df)); split; congruence.
Qed.

Lemma has_column_get {C} (df : Frame C) (c : string) :
  has_column df c = true -> exists v, dict_get c (columns df) = Some v.
Proof.
  unfold has_column, column_names.
  induction (columns df) as [|[k v] d IH]; simpl; [discriminate|].
  destruct (String.eqb c k); eauto.
Qed.

Lemma select_ok {C} (df : Frame C) (cs : list string) :
  (forall c, In c cs -> has_column df c = true) ->
  exists cols, select df cs = ok (mkFrame (index df) cols)
    /\ map fst cols = cs
    /\ (forall c v, In (c, v) cols -> dict_get c (columns df) = Some v).
Proof.
  unfold select. induction cs as [|c cs IH]; intros H; simpl.
  - exists []. repeat split; auto. intros ? ? [].
  - destruct (has_column_get df c) as [v Hv]; [apply H; now left|].
    destruct IH as (cols & E & Hn & Hc); [intros; apply H; now right|].
    unfold getitem at 1. rewrite Hv. simpl.
    destruct (traverse _ cs) as [e|cols'] eqn:Et; simpl in E; [discriminate|].
    injection E as ->.
    exists ((c, v) :: cols). simpl. repeat split; [now rewrite Hn|].
    intros c' v' [[= <- <-]|Hin]; auto.
Qed.

Lemma astype_float_ok (df : DataFrame) (X : Frame Q) :
  astype_float df = ok X ->
  index X = index df
  /\ Forall2 (fun cv qv => fst qv = fst cv /\ traverse to_float (snd cv) = ok (snd qv))
             (columns df) (columns X).
Proof.
  unfold astype_float.
  destruct (traverse _ (columns df)) as [e|cols] eqn:E; simpl; [discriminate|].
  intros [= <-]. simpl. split; auto.
  revert cols E. induction (columns df) as [|[c v] d IH]; intros cols; simpl.
  - intros [= <-]. constructor.
  - destruct (traverse to_float v) as [e|qv] eqn:Ev; simpl; [discriminate|].
    destruct (traverse _ d) as [e|cols'] eqn:Ed; [discriminate|].
    intros [= <-]. constructor; auto.
Qed.

Lemma iloc_to_len {C} (X : Frame C) (k : Z) :
  len (iloc_to X k) = slice_bound (index X) k.
Proof.
  unfold len, iloc_to. simpl. rewrite length_firstn.
  unfold slice_bound. destruct (Z.ltb_spec k 0); lia.
Qed.

Lemma iloc_from_len {C} (X : Frame C) (k : Z) :
  len (iloc_from X k) = (len X - slice_bound (index X) k)%nat.
Proof. unfold len, iloc_from. simpl. now rewrite length_skipn. Qed.

Lemma iloc_index_split {C} (X : Frame C) (k : Z) :
  index X = index (iloc_to X k) ++ index (iloc_from X k).
Proof. unfold iloc_to, iloc_from. simpl. now rewrite firstn_skipn. Qed.

Lemma values_nil (X : Frame Q) : len X = O -> values X = [].
Proof. unfold values. now intros ->. Qed.

(** ** Feature engineering of the tree-model trainer *)

Module XGBoostFacts.
Import Constants XGBoost XGBoostSpec.

Lemma add_temporal_features_index df d df' :
  add_temporal_features df d = ok df' -> index df' = index df.
Proof.
  unfold add_temporal_features. intros H.
  repeat inv_bind H. now injection H as <-.
Qed.

Lemma add_lag_features_index lags df t df' :
  add_lag_features lags df t = ok df' -> index df' = index df.
Proof.
  revert df. induction lags as [|lag lags IH]; intros df; simpl.
  - now intros [= <-].
  - intros H. inv_bind H. now rewrite (IH _ H).
Qed.

Lemma with_features_index df d t pre :
  with_features df d t = ok pre -> index pre = index df.
Proof.
  unfold with_features. intros H. inv_bind H.
  rewrite (add_lag_features_index _ _ _ _ H).
  eapply add_temporal_features_index; eauto.
Qed.

Lemma add_lag_features_keeps_target lags df t df' :
  add_lag_features lags df t = ok df' ->
  dict_get t (columns df) <> None -> dict_get t (columns df') <> None.
Proof.
  revert df. induction lags as [|lag lags IH]; intros df; simpl.
  - now intros [= <-].
  - intros H Ht. inv_bind H. apply (IH _ H). simpl.
    rewrite dict_get_set. now destruct (String.eqb t (lag_name lag)).
Qed.

Lemma with_features_has_target df d t pre :
  with_features df d t = ok pre -> dict_get t (columns pre) <> None.
Proof.
  unfold with_features. intros H. inv_bind H.
  assert (Hd : dict_get t (columns a) <> None).
  { pose proof H as El. simpl in El. inv_bind El.
    apply getitem_ok in E0. congruence. }
  eapply add_lag_features_keeps_target; eauto.
Qed.

Lemma dt_timestamps field ts :
  dt field (map Timestamp ts) = ok (map (fun x => Float (inject_Z (field x))) ts).
Proof.
  unfold dt.
  replace (forallb is_datetimelike (map Timestamp ts)) with true.
  - now rewrite map_map.
  - symmetry. apply forallb_forall. intros c Hc.
    apply in_map_iff in Hc. now destruct Hc as [x [<- _]].
Qed.

Lemma eqb_false_of_neq (a b : string) : a <> b -> String.eqb a b = false.
Proof. apply String.eqb_neq. Qed.

(** The engineered frame of a record whose date column holds
    timestamps only. *)
Lemma with_features_prepared df d t ts target :
  getitem df d = ok (map Timestamp ts) ->
  getitem df t = ok target ->
  ~ In d TEMPORAL_FEATURES ->
  ~ In t (TEMPORAL_FEATURES ++ map lag_name LAG_FEATURES) ->
  with_features df d t = ok (mkFrame (index df) (engineered_columns df ts target)).
Proof.
  intros Hd Ht Hnd Hnt. apply getitem_ok in Hd, Ht.
  assert (Ed1 : String.eqb d "hour" = false)
    by (apply eqb_false_of_neq; intros Hq; apply Hnd; rewrite Hq; simpl; auto 10).
  assert (Ed2 : String.eqb d "day_of_week" = false)
    by (apply eqb_false_of_neq; intros Hq; apply Hnd; rewrite Hq; simpl; auto 10).
  assert (Et1 : String.eqb t "hour" = false)
    by (apply eqb_false_of_neq; intros Hq; apply Hnt; rewrite Hq; simpl; auto 10).
  assert (Et2 : String.eqb t "day_of_week" = false)
    by (apply eqb_false_of_neq; intros Hq; apply Hnt; rewrite Hq; simpl; auto 10).
  assert (Et3 : String.eqb t "month" = false)
    by (apply eqb_false_of_neq; intros Hq; apply Hnt; rewrite Hq; simpl; auto 10).
  assert (Et4 : String.eqb t (lag_name 1) = false)
    by (apply eqb_false_of_neq; intros Hq; apply Hnt; rewrite Hq; simpl; auto 10).
  assert (Et5 : String.eqb t (lag_name 24) = false)
    by (apply eqb_false_of_neq; intros Hq; apply Hnt; rewrite Hq; simpl; auto 10).
  unfold with_features, add_temporal_features, getitem, setitem. simpl.
  rewrite Hd. simpl. rewrite dt_timestamps. simpl.
  rewrite dict_get_set, Ed1, Hd. simpl. rewrite dt_timestamps. simpl.
  rewrite !dict_get_set, Ed1, Ed2, Hd. simpl. rewrite dt_timestamps. simpl.
  unfold getitem. simpl.
  rewrite !dict_get_set, Et1, Et2, Et3, Ht. simpl.
  rewrite !dict_get_set, Et1, Et2, Et3, Et4, Ht. simpl.
  rewrite !dict_get_set, Et1, Et2, Et3, Et4, Et5, Ht. simpl.
  reflexivity.
Qed.

Lemma forallb_false_in {A} (f : A -> bool) (l : list A) (x : A) :
  In x l -> f x = false -> forallb f l = false.
Proof.
  intros Hin Hf. destruct (forallb f l) eqn:E; auto.
  rewrite forallb_forall in E. rewrite (E x Hin) in Hf. discriminate.
Qed.

Lemma complete_column_nth (col : list cell) (i : nat) :
  Forall (fun c => isna c = false) col -> (i < List.length col)%nat ->
  isna (nth i col NA) = false.
Proof.
  intros Hc Hi. rewrite Forall_forall in Hc. apply Hc. now apply nth_In.
Qed.

Lemma column_of_frame (df : DataFrame) (c : string) (v : list cell) :
  well_formed df -> complete df -> dict_get c (columns df) = Some v ->
  List.length v = len df /\ Forall (fun c => isna c = false) v.
Proof.
  intros Hw Hc Hg. apply dict_get_in, in_map_iff in Hg.
  destruct Hg as [cv [<- Hin]].
  unfold well_formed, complete in *. rewrite Forall_forall in Hw, Hc. auto.
Qed.

Lemma floats_complete {A} (f : A -> Q) (l : list A) :
  Forall (fun c => isna c = false) (map (fun x => Float (f x)) l).
Proof. apply Forall_forall. intros c Hc. apply in_map_iff in Hc. now destruct Hc as [x [<- _]]. Qed.

(** In the engineered frame of a complete record, the rows with a
    missing value are exactly the first 168. *)
Lemma engineered_mask df d t ts target i :
  well_formed df -> complete df ->
  dict_get d (columns df) = Some (map Timestamp ts) ->
  dict_get t (columns df) = Some target ->
  (i < len df)%nat ->
  notna_at (map snd (engineered_columns df ts target)) i = (168 <=? i)%nat.
Proof.
  intros Hw Hc Hd Ht Hi.
  destruct (column_of_frame _ _ _ Hw Hc Hd) as [Ld _].
  destruct (column_of_frame _ _ _ Hw Hc Ht) as [Lt Ct].
  rewrite length_map in Ld.
  unfold notna_at. destruct (Nat.leb_spec 168 i) as [Hge|Hlt].
  - apply forallb_forall. intros col Hcol. apply negb_true_iff.
    unfold engineered_columns in Hcol.
    repeat (apply dict_set_keys_in in Hcol; destruct Hcol as [->|Hcol]).
    1-3: rewrite shift_nth by lia;
      match goal with |- context [Nat.ltb ?a ?k] => destruct (Nat.ltb_spec a k) end;
      [lia|apply complete_column_nth; auto; lia].
    1-3: apply complete_column_nth; [apply floats_complete|rewrite length_map; lia].
    apply in_map_iff in Hcol. destruct Hcol as [cv [<- Hin]].
    unfold well_formed, complete in *. rewrite Forall_forall in Hw, Hc.
    apply complete_column_nth; auto. rewrite Hw; auto.
  - apply forallb_false_in with (x := shift 168 target).
    + eapply dict_get_in. unfold engineered_columns. apply dict_get_set_same.
    + rewrite shift_nth by lia.
      destruct (Nat.ltb_spec i (Z.to_nat 168)); [reflexivity|lia].
Qed.

Lemma engineered_kept df d t ts target :
  well_formed df -> complete df ->
  dict_get d (columns df) = Some (map Timestamp ts) ->
  dict_get t (columns df) = Some target ->
  kept_rows (mkFrame (index df) (engineered_columns df ts target))
  = seq 168 (len df - 168).
Proof.
  intros Hw Hc Hd Ht. unfold kept_rows. simpl columns.
  change (len (mkFrame (index df) (engineered_columns df ts target))) with (len df).
  rewrite (filter_ext_in _ (fun i => 168 <=? i)%nat).
  - rewrite filter_leb_seq. f_equal; lia.
  - intros i Hi. apply in_seq in Hi. eapply engineered_mask; eauto. lia.
Qed.

Lemma take_from {A} (d : A) (l : list A) (a : nat) :
  map (fun i => nth i l d) (seq a (List.length l - a)) = skipn a l.
Proof.
  destruct (Nat.le_gt_cases a (List.length l)) as [H|H].
  - rewrite take_seq by lia. apply firstn_all2. rewrite length_skipn. lia.
  - replace (List.length l - a)%nat with O by lia. simpl.
    symmetry. apply skipn_all2. lia.
Qed.

Lemma dict_set_names {V} (c k : string) (v : V) (d : dict V) :
  existsb (String.eqb c) (map fst (dict_set k v d))
  = String.eqb c k || existsb (String.eqb c) (map fst d).
Proof.
  induction d as [|[k' v'] d IH]; simpl.
  - reflexivity.
  - destruct (String.eqb k k') eqn:E; simpl.
    + apply String.eqb_eq in E. subst k'.
      now destruct (String.eqb c k), (existsb (String.eqb c) (map fst d)).
    + rewrite IH.
      now destruct (String.eqb c k), (String.eqb c k'), (existsb (String.eqb c) (map fst d)).
Qed.

(** The engineered rows of a complete record, in closed form. *)
Lemma engineer_features_complete df d t ts target :
  well_formed df -> complete df ->
  getitem df d = ok (map Timestamp ts) ->
  getitem df t = ok target ->
  ~ In d TEMPORAL_FEATURES ->
  ~ In t (TEMPORAL_FEATURES ++ map lag_name LAG_FEATURES) ->
  engineer_features df d t
  = ok (take_rows NA (mkFrame (index df) (engineered_columns df ts target))
          (seq 168 (len df - 168))).
Proof.
  intros Hw Hc Hd Ht Hnd Hnt. unfold engineer_features.
  rewrite (with_features_prepared _ _ _ _ _ Hd Ht Hnd Hnt). cbn [bind ok].
  apply getitem_ok in Hd, Ht. unfold dropna.
  now rewrite (engineered_kept _ _ _ _ _ Hw Hc Hd Ht).
Qed.

(** C7.  For a record of [n] rows without a missing value, whose date
    column holds timestamps, feature engineering returns [n - 168]
    rows (none when [n <= 168]): the rows at positions 168, ...,
    [n - 1], in order.  The [lag_k] feature of the row at position
    [168 + j] is the target at position [168 + j - k], and
    [k <= 168 + j]: no lag of an emitted row looks before the start
    of the record. *)
Theorem engineered_rows_have_full_history
  (df : DataFrame) (date_col target_col : string)
  (ts : list Datetime.datetime) (target : list cell) :
  well_formed df -> complete df ->
  getitem df date_col = ok (map Timestamp ts) ->
  getitem df target_col = ok target ->
  ~ In date_col TEMPORAL_FEATURES ->
  ~ In target_col (TEMPORAL_FEATURES ++ map lag_name LAG_FEATURES) ->
  exists feats,
    engineer_features df date_col target_col = ok feats
    /\ len feats = (len df - 168)%nat
    /\ index feats = skipn 168 (index df)
    /\ forall lag, In lag LAG_FEATURES ->
         exists col,
           getitem feats (lag_name lag) = ok col
           /\ List.length col = (len df - 168)%nat
           /\ forall j, (j < len df - 168)%nat ->
                (Z.to_nat lag <= 168 + j)%nat
                /\ nth j col NA = nth (168 + j - Z.to_nat lag) target NA.
Proof.
  intros Hw Hc Hd Ht Hnd Hnt.
  unfold engineer_features.
  rewrite (with_features_prepared _ _ _ _ _ Hd Ht Hnd Hnt). simpl.
  apply getitem_ok in Hd, Ht.
  destruct (column_of_frame _ _ _ Hw Hc Ht) as [Lt Ct].
  eexists. split; [reflexivity|].
  unfold dropna.
  rewrite (engineered_kept _ _ _ _ _ Hw Hc Hd Ht).
  split; [|split].
  - unfold len, take_rows; cbn [index]. now rewrite length_map, length_seq.
  - unfold take_rows; cbn [index]. apply (take_from 0 (index df) 168).
  - intros lag Hlag.
    assert (Hcol : dict_get (lag_name lag) (engineered_columns df ts target)
                   = Some (shift lag target) /\ (Z.to_nat lag <= 168)%nat).
    { unfold engineered_columns.
      destruct Hlag as [<-|[<-|[<-|[]]]]; (split; [|lia]);
        rewrite !dict_get_set; reflexivity. }
    destruct Hcol as [Hcol Hle].
    eexists. split; [|split].
    + apply getitem_ok. unfold take_rows; cbn [columns].
      rewrite (dict_get_map_values
                 (fun v => map (fun i => nth i v NA) (seq 168 (len df - 168)))), Hcol.
      reflexivity.
    + now rewrite length_map, length_seq.
    + intros j Hj. split; [lia|].
      rewrite (nth_indep _ NA (nth 0 (shift lag target) NA))
        by now rewrite length_map, length_seq.
      rewrite (map_nth (fun i => nth i (shift lag target) NA)).
      rewrite seq_nth by lia.
      rewrite shift_nth by lia.
      destruct (Nat.ltb_spec (168 + j) (Z.to_nat lag)); [lia|reflexivity].
Qed.

(** *** What [partitions] computes *)

Lemma engineer_features_inv df d t feats :
  engineer_features df d t = ok feats ->
  exists pre, with_features df d t = ok pre /\ feats = dropna pre.
Proof.
  unfold engineer_features. intros H. inv_bind H.
  injection H as <-. eauto.
Qed.

Lemma partitions_inv df d t p :
  partitions df d t = ok p ->
  exists feats Xc X yc y,
    engineer_features df d t = ok feats
    /\ select feats (feature_columns feats) = ok Xc
    /\ astype_float Xc = ok X
    /\ getitem feats t = ok yc
    /\ traverse to_float yc = ok y
    /\ p = mkPartitions (feature_columns feats)
             (iloc_to X (split_idx X)) (iloc_from X (split_idx X))
             (slice_to y (split_idx X)) (slice_from y (split_idx X)).
Proof.
  unfold partitions. intros H. repeat inv_bind H.
  injection H as <-. eexists _, _, _, _, _. repeat split; eauto.
Qed.

Lemma select_index {C} (df Xc : Frame C) cs :
  select df cs = ok Xc -> index Xc = index df.
Proof. unfold select. intros H. inv_bind H. now injection H as <-. Qed.

Lemma partitions_index df d t p feats :
  engineer_features df d t = ok feats ->
  partitions df d t = ok p ->
  index (X_train p) = index (iloc_to feats (split_idx feats))
  /\ index (X_val p) = index (iloc_from feats (split_idx feats)).
Proof.
  intros Hf Hp.
  destruct (partitions_inv _ _ _ _ Hp) as (feats' & Xc & X & yc & y & Hf' & Hs & Ha & _ & _ & ->).
  rewrite Hf in Hf'. injection Hf' as <-.
  apply select_index in Hs. apply astype_float_ok in Ha. destruct Ha as [Hi _].
  assert (E : index X = index feats) by congruence.
  unfold iloc_to, iloc_from, split_idx, len. simpl. now rewrite E.
Qed.

(** *** The positional split *)

Lemma split_bound {C} (F : Frame C) :
  (720 <= len F)%nat -> slice_bound (index F) (split_idx F) = (len F - 720)%nat.
Proof.
  intros H. unfold slice_bound, split_idx. change VALIDATION_HOURS with 720.
  fold (len F). destruct (Z.ltb_spec (Z.of_nat (len F) - 720) 0); lia.
Qed.

Lemma iloc_to_getitem {C} (F : Frame C) (k : Z) (c : string) (col : list C) :
  getitem F c = ok col ->
  getitem (iloc_to F k) c = ok (firstn (slice_bound (index F) k) col).
Proof.
  intros H. apply getitem_ok in H. apply getitem_ok. unfold iloc_to. simpl.
  now rewrite (dict_get_map_values (firstn (slice_bound (index F) k))), H.
Qed.

Lemma iloc_from_getitem {C} (F : Frame C) (k : Z) (c : string) (col : list C) :
  getitem F c = ok col ->
  getitem (iloc_from F k) c = ok (skipn (slice_bound (index F) k) col).
Proof.
  intros H. apply getitem_ok in H. apply getitem_ok. unfold iloc_from. simpl.
  now rewrite (dict_get_map_values (skipn (slice_bound (index F) k))), H.
Qed.

Lemma StronglySorted_app_le (l1 l2 : list Z) :
  StronglySorted Z.le (l1 ++ l2) ->
  forall x y, In x l1 -> In y l2 -> x <= y.
Proof.
  induction l1 as [|a l1 IH]; simpl; intros Hs x y Hx Hy; [contradiction|].
  inversion Hs as [|? ? Hs' Hall]; subst.
  destruct Hx as [<-|Hx].
  - rewrite Forall_forall in Hall. apply Hall, in_or_app. now right.
  - eapply IH; eauto.
Qed.

Lemma sorted_split_le (ts : list Z) (b : nat) :
  Sorted Z.le ts ->
  forall t1 t2, In t1 (firstn b ts) -> In t2 (skipn b ts) -> t1 <= t2.
Proof.
  intros Hs. apply StronglySorted_app_le. rewrite firstn_skipn.
  apply Sorted_StronglySorted; auto. intros x y z; apply Z.le_trans.
Qed.

(** The trailing-720 split of a frame with a sorted timestamp column. *)
Lemma split_chronological (F : DataFrame) (c : string) (ts : list Z) :
  getitem F c = ok (map Timestamp ts) ->
  List.length ts = len F ->
  Sorted Z.le ts ->
  (720 <= len F)%nat ->
  let train := iloc_to F (split_idx F) in
  let val := iloc_from F (split_idx F) in
  len val = 720%nat
  /\ len train = (len F - 720)%nat
  /\ index F = index train ++ index val
  /\ exists ts1 ts2,
       ts = ts1 ++ ts2
       /\ getitem train c = ok (map Timestamp ts1)
       /\ getitem val c = ok (map Timestamp ts2)
       /\ List.length ts1 = (len F - 720)%nat
       /\ List.length ts2 = 720%nat
       /\ forall t1 t2, In t1 ts1 -> In t2 ts2 -> t1 <= t2.
Proof.
  intros Hg Hl Hs Hn train val.
  pose proof (split_bound F Hn) as Hb.
  split; [|split; [|split]].
  - subst val. rewrite iloc_from_len, Hb. lia.
  - subst train. now rewrite iloc_to_len.
  - apply iloc_index_split.
  - exists (firstn (len F - 720) ts), (skipn (len F - 720) ts).
    split; [now rewrite firstn_skipn|].
    split; [|split; [|split; [|split]]].
    + subst train. rewrite (iloc_to_getitem _ _ _ _ Hg), Hb. now rewrite firstn_map.
    + subst val. rewrite (iloc_from_getitem _ _ _ _ Hg), Hb. now rewrite skipn_map.
    + rewrite length_firstn. lia.
    + rewrite length_skipn. lia.
    + now apply sorted_split_le.
Qed.

(** *** Order of the engineered rows *)

Lemma with_features_shape df d t pre :
  with_features df d t = ok pre ->
  exists v1 v2 v3 v4 v5 v6,
    columns pre
    = dict_set (lag_name 168) v6
        (dict_set (lag_name 24) v5
          (dict_set (lag_name 1) v4
            (dict_set "month" v3
              (dict_set "day_of_week" v2
                (dict_set "hour" v1 (columns df)))))).
Proof.
  unfold with_features, add_temporal_features. intros H.
  inv_bind H. repeat inv_bind E. injection E as <-.
  simpl in H. repeat inv_bind H. injection H as <-.
  simpl. eexists _, _, _, _, _, _. reflexivity.
Qed.

Lemma with_features_keeps df d t pre c :
  with_features df d t = ok pre ->
  ~ In c (TEMPORAL_FEATURES ++ map lag_name LAG_FEATURES) ->
  dict_get c (columns pre) = dict_get c (columns df).
Proof.
  intros H Hn.
  destruct (with_features_shape _ _ _ _ H) as (v1 & v2 & v3 & v4 & v5 & v6 & ->).
  rewrite !dict_get_set.
  repeat match goal with
  | |- context [String.eqb c ?k] =>
      rewrite (eqb_false_of_neq c k)
        by (intros Hq; apply Hn; rewrite Hq; simpl; auto 10)
  end.
  reflexivity.
Qed.

Lemma dropna_getitem (pre : DataFrame) (c : string) (col : list cell) :
  dict_get c (columns pre) = Some col ->
  getitem (dropna pre) c = ok (map (fun i => nth i col NA) (kept_rows pre)).
Proof.
  intros H. apply getitem_ok. unfold dropna, take_rows. cbn [columns].
  now rewrite (dict_get_map_values (fun v => map (fun i => nth i v NA) (kept_rows pre))), H.
Qed.

Lemma dropna_len (pre : DataFrame) : len (dropna pre) = List.length (kept_rows pre).
Proof. unfold len, dropna, take_rows. cbn [index]. apply length_map. Qed.

Lemma seq_increasing (a n : nat) : StronglySorted lt (seq a n).
Proof.
  revert a. induction n as [|n IH]; intros a; simpl; constructor; auto.
  apply Forall_forall. intros x Hx. apply in_seq in Hx. lia.
Qed.

Lemma filter_increasing (f : nat -> bool) (l : list nat) :
  StronglySorted lt l -> StronglySorted lt (filter f l).
Proof.
  induction 1 as [|a l Hs IH Hall]; simpl; [constructor|].
  destruct (f a); auto. constructor; auto.
  rewrite Forall_forall in *. intros x Hx. apply filter_In in Hx. apply Hall, Hx.
Qed.

Lemma kept_rows_increasing (pre : DataFrame) : StronglySorted lt (kept_rows pre).
Proof. apply filter_increasing, seq_increasing. Qed.

Lemma kept_rows_bound (pre : DataFrame) (i : nat) :
  In i (kept_rows pre) -> (i < len pre)%nat.
Proof. unfold kept_rows. intros H. apply filter_In in H. destruct H as [H _]. apply in_seq in H. lia. Qed.

Lemma nth_monotone (ts : list Z) :
  StronglySorted Z.le ts ->
  forall i j, (i <= j)%nat -> (j < List.length ts)%nat -> nth i ts 0 <= nth j ts 0.
Proof.
  induction 1 as [|a l Hs IH Hall]; intros i j Hij Hj; simpl in Hj; [lia|].
  destruct i as [|i], j as [|j]; simpl; try lia.
  - rewrite Forall_forall in Hall. apply Hall, nth_In. lia.
  - apply IH; lia.
Qed.

Lemma take_sorted (ts : list Z) (positions : list nat) :
  StronglySorted Z.le ts ->
  StronglySorted lt positions ->
  (forall i, In i positions -> (i < List.length ts)%nat) ->
  StronglySorted Z.le (map (fun i => nth i ts 0) positions).
Proof.
  intros Hts. induction 1 as [|a l Hs IH Hall]; intros Hb; simpl; constructor.
  - apply IH. intros; apply Hb; now right.
  - apply Forall_forall. intros x Hx. apply in_map_iff in Hx.
    destruct Hx as [j [<- Hj]]. rewrite Forall_forall in Hall.
    apply nth_monotone; auto.
    + specialize (Hall j Hj). lia.
    + apply Hb. now right.
Qed.

Lemma take_timestamps (ts : list Z) (positions : list nat) :
  (forall i, In i positions -> (i < List.length ts)%nat) ->
  map (fun i => nth i (map Timestamp ts) NA) positions
  = map Timestamp (map (fun i => nth i ts 0) positions).
Proof.
  intros Hb. rewrite map_map. apply map_ext_in. intros i Hi.
  rewrite (nth_indep _ NA (Timestamp 0)) by (rewrite length_map; auto).
  apply map_nth.
Qed.

(** Dropping rows keeps the dates of a sorted record sorted. *)
Lemma engineer_features_sorted df d t ts feats :
  well_formed df ->
  getitem df d = ok (map Timestamp ts) ->
  Sorted Z.le ts ->
  ~ In d (TEMPORAL_FEATURES ++ map lag_name LAG_FEATURES) ->
  engineer_features df d t = ok feats ->
  exists ts',
    getitem feats d = ok (map Timestamp ts')
    /\ List.length ts' = len feats
    /\ Sorted Z.le ts'.
Proof.
  intros Hw Hd Hs Hn Hf.
  destruct (engineer_features_inv _ _ _ _ Hf) as (pre & Hpre & ->).
  apply getitem_ok in Hd.
  assert (Hl : List.length ts = len pre).
  { unfold len. rewrite (with_features_index _ _ _ _ Hpre).
    apply dict_get_in, in_map_iff in Hd. destruct Hd as [cv [E Hin]].
    unfold well_formed in Hw. rewrite Forall_forall in Hw.
    specialize (Hw cv Hin). rewrite E, length_map in Hw. exact Hw. }
  assert (Hb : forall i, In i (kept_rows pre) -> (i < List.length ts)%nat).
  { intros i Hi. rewrite Hl. now apply kept_rows_bound. }
  exists (map (fun i => nth i ts 0) (kept_rows pre)). split; [|split].
  - rewrite (dropna_getitem pre d (map Timestamp ts)).
    + now rewrite take_timestamps.
    + now rewrite (with_features_keeps _ _ _ _ _ Hpre Hn).
  - now rewrite length_map, dropna_len.
  - apply StronglySorted_Sorted, take_sorted; auto.
    + apply Sorted_StronglySorted; auto. intros x y z; apply Z.le_trans.
    + apply kept_rows_increasing.
Qed.

End XGBoostFacts.

(** ** The two trainers *)

Module TrainerFacts.
Import Constants XGBoost XGBoostSpec XGBoostFacts.

Lemma prophet_frame_inv df d t pf :
  ProphetTrainer.prophet_frame df d t = ok pf ->
  exists ds y, getitem df d = ok ds /\ pf = mkFrame (index df) [("ds", ds); ("y", y)].
Proof.
  unfold ProphetTrainer.prophet_frame. intros H. repeat inv_bind H.
  injection H as <-. eauto.
Qed.

(** The seasonal trainer fits on the rows before [split_idx] of its
    (timestamp, value) frame. *)
Lemma train_prophet_fits_training_rows sqrt Prophet_fit df d t r :
  ProphetTrainer.train_prophet sqrt Prophet_fit df d t = ok r ->
  exists prophet_df,
    ProphetTrainer.prophet_frame df d t = ok prophet_df
    /\ Prophet_fit (iloc_to prophet_df (split_idx prophet_df))
       = ok (ProphetTrainer.model r).
Proof.
  unfold ProphetTrainer.train_prophet. intros H. repeat inv_bind H.
  injection H as <-. eauto.
Qed.

Lemma kept_rows_length (pre : DataFrame) : (List.length (kept_rows pre) <= len pre)%nat.
Proof.
  unfold kept_rows. etransitivity; [apply filter_length_le|].
  now rewrite length_seq.
Qed.

(** C2 (amended).  For a record sorted by date whose engineered rows
    number at least 720, the tree-model trainer validates on the
    trailing 720 rows and trains on all earlier rows, no validation
    timestamp is earlier than a training timestamp, and the seasonal
    trainer splits the (timestamp, value) series in the same way. *)
Theorem trailing_validation_split
  (df : DataFrame) (date_col target_col : string) (ts : list Z)
  (feats : DataFrame) (p : Partitions) (prophet_df : DataFrame) :
  well_formed df ->
  getitem df date_col = ok (map Timestamp ts) ->
  Sorted Z.le ts ->
  ~ In date_col (TEMPORAL_FEATURES ++ map lag_name LAG_FEATURES) ->
  engineer_features df date_col target_col = ok feats ->
  partitions df date_col target_col = ok p ->
  ProphetTrainer.prophet_frame df date_col target_col = ok prophet_df ->
  (720 <= len feats)%nat ->
  (len (X_val p) = 720%nat
   /\ len (X_train p) = (len feats - 720)%nat
   /\ index feats = index (X_train p) ++ index (X_val p)
   /\ exists ts1 ts2,
        getitem (iloc_to feats (split_idx feats)) date_col = ok (map Timestamp ts1)
        /\ getitem (iloc_from feats (split_idx feats)) date_col = ok (map Timestamp ts2)
        /\ index (iloc_to feats (split_idx feats)) = index (X_train p)
        /\ index (iloc_from feats (split_idx feats)) = index (X_val p)
        /\ List.length ts1 = len (X_train p)
        /\ List.length ts2 = len (X_val p)
        /\ forall t1 t2, In t1 ts1 -> In t2 ts2 -> t1 <= t2)
  /\ (let train_df := iloc_to prophet_df (split_idx prophet_df) in
      let val_df := iloc_from prophet_df (split_idx prophet_df) in
      len val_df = 720%nat
      /\ len train_df = (len df - 720)%nat
      /\ index df = index train_df ++ index val_df
      /\ exists ts1 ts2,
           ts = ts1 ++ ts2
           /\ getitem train_df "ds" = ok (map Timestamp ts1)
           /\ getitem val_df "ds" = ok (map Timestamp ts2)
           /\ List.length ts1 = len train_df
           /\ List.length ts2 = len val_df
           /\ forall t1 t2, In t1 ts1 -> In t2 ts2 -> t1 <= t2).
Proof.
  intros Hw Hd Hs Hn Hf Hp Hpf Hlen.
  destruct (engineer_features_sorted _ _ _ _ _ Hw Hd Hs Hn Hf) as (ts' & Hg' & Hl' & Hs').
  destruct (partitions_index _ _ _ _ _ Hf Hp) as [Htr Hva].
  destruct (split_chronological feats date_col ts' Hg' Hl' Hs' Hlen)
    as (L1 & L2 & L3 & ts1 & ts2 & _ & G1 & G2 & N1 & N2 & Hle).
  assert (Ltr : len (X_train p) = (len feats - 720)%nat)
    by (unfold len in *; now rewrite Htr).
  assert (Lva : len (X_val p) = 720%nat)
    by (unfold len in *; now rewrite Hva).
  split.
  - split; [exact Lva|]. split; [exact Ltr|]. split; [now rewrite Htr, Hva|].
    exists ts1, ts2.
    split; [exact G1|]. split; [exact G2|]. split; [now symmetry|].
    split; [now symmetry|]. split; [lia|]. split; [lia|exact Hle].
  - destruct (prophet_frame_inv _ _ _ _ Hpf) as (ds & y & Hds & ->).
    rewrite Hd in Hds. injection Hds as <-.
    assert (Hl : List.length ts = len df).
    { apply getitem_ok, dict_get_in, in_map_iff in Hd. destruct Hd as [cv [E Hin]].
      unfold well_formed in Hw. rewrite Forall_forall in Hw.
      specialize (Hw cv Hin). now rewrite E, length_map in Hw. }
    assert (Hbig : (720 <= len df)%nat).
    { destruct (engineer_features_inv _ _ _ _ Hf) as (pre & Hpre & ->).
      rewrite dropna_len in Hlen. pose proof (kept_rows_length pre) as Hk.
      unfold len in Hk at 1. rewrite (with_features_index _ _ _ _ Hpre) in Hk.
      fold (len df) in Hk. lia. }
    set (pf := mkFrame (index df) [("ds", map Timestamp ts); ("y", y)]).
    assert (Hg : getitem pf "ds" = ok (map Timestamp ts)) by reflexivity.
    destruct (split_chronological pf "ds" ts Hg Hl Hs Hbig)
      as (M1 & M2 & M3 & us1 & us2 & Eu & U1 & U2 & K1 & K2 & Hu).
    cbv zeta. split; [exact M1|]. split; [exact M2|]. split; [exact M3|].
    exists us1, us2.
    split; [exact Eu|]. split; [exact U1|]. split; [exact U2|].
    split; [now rewrite K1|]. split; [now rewrite K2|exact Hu].
Qed.

(** *** Records too short for one engineered row *)

Lemma dropna_no_rows (pre : DataFrame) :
  len (dropna pre) = O ->
  dropna pre = mkFrame [] (map (fun cv => (fst cv, [])) (columns pre)).
Proof.
  rewrite dropna_len. intros H. apply length_zero_iff_nil in H.
  unfold dropna, take_rows. now rewrite H.
Qed.

Lemma astype_float_no_rows (Xc : DataFrame) :
  (forall cv, In cv (columns Xc) -> snd cv = []) ->
  astype_float Xc = ok (mkFrame (index Xc) (map (fun cv => (fst cv, [])) (columns Xc))).
Proof.
  intros H. unfold astype_float.
  rewrite traverse_map with (g := fun cv : string * list cell => (fst cv, @nil Q)); auto.
  intros cv Hcv. now rewrite (H cv Hcv).
Qed.

Lemma feature_columns_present (feats : DataFrame) (c : string) :
  In c (feature_columns feats) -> has_column feats c = true.
Proof. unfold feature_columns. intros H. now apply filter_In in H. Qed.

(** C3.  When feature engineering leaves no row, [train_xgboost]
    raises the error of the scaler's input validation (an array
    without samples), whatever the regressor: no model is fitted. *)
Theorem train_xgboost_insufficient_data
  (sqrt : Q -> Q)
  (XGBRegressor_fit : list (list Q) -> list Q -> list (list Q) * list Q -> Service.Predictor)
  (df : DataFrame) (date_col target_col : string) (feats : DataFrame) :
  engineer_features df date_col target_col = ok feats ->
  len feats = O ->
  train_xgboost sqrt XGBRegressor_fit df date_col target_col
  = raise (ValueError Sklearn.no_samples).
Proof.
  intros Hf Hlen.
  destruct (engineer_features_inv _ _ _ _ Hf) as (pre & Hpre & ->).
  pose proof (dropna_no_rows pre Hlen) as Hfe.
  remember (dropna pre) as feats eqn:Ef.
  assert (Hcols : forall c v, dict_get c (columns feats) = Some v -> v = []).
  { intros c v Hg. apply dict_get_in in Hg. rewrite Hfe in Hg. simpl in Hg.
    rewrite map_map in Hg. apply in_map_iff in Hg. now destruct Hg as [cv [<- _]]. }
  destruct (select_ok feats (feature_columns feats) (feature_columns_present feats))
    as (cols & Hsel & _ & Hin).
  assert (Hidx : index feats = []) by now rewrite Hfe.
  assert (Hy : getitem feats target_col = ok []).
  { apply getitem_ok.
    destruct (dict_get target_col (columns feats)) as [v|] eqn:Eg.
    - now rewrite (Hcols _ _ Eg).
    - exfalso. apply (with_features_has_target _ _ _ _ Hpre).
      rewrite Hfe in Eg. simpl in Eg.
      rewrite (dict_get_map_values (fun _ => @nil cell)) in Eg.
      now destruct (dict_get target_col (columns pre)). }
  unfold train_xgboost, partitions.
  rewrite Hf. cbn [bind ok]. rewrite Hsel. cbn [bind ok].
  rewrite astype_float_no_rows.
  2:{ intros [c v] Hcv. simpl. eapply Hcols, Hin, Hcv. }
  cbn [bind ok index columns]. rewrite Hy. cbn [bind traverse ok].
  cbn [X_train]. rewrite values_nil; [reflexivity|].
  rewrite iloc_to_len. cbn [index]. rewrite Hidx. unfold slice_bound.
  simpl List.length. destruct (_ <? 0); reflexivity.
Qed.

(** *** The scaler *)

Lemma train_xgboost_inv sqrt XGBRegressor_fit df d t r p :
  train_xgboost sqrt XGBRegressor_fit df d t = ok r ->
  partitions df d t = ok p ->
  let X_val_scaled := Sklearn.transform (scaler r) (values (X_val p)) in
  Sklearn.fit sqrt (values (X_train p)) = ok (scaler r)
  /\ model r = XGBRegressor_fit (Sklearn.transform (scaler r) (values (X_train p)))
                 (y_train p) (X_val_scaled, y_val p)
  /\ Sklearn.mean_absolute_error (y_val p) (Service.predict (model r) X_val_scaled)
     = ok (mae (metrics r))
  /\ feature_names r = feature_cols p.
Proof.
  unfold train_xgboost. intros H Hp. rewrite Hp in H. cbn [bind ok] in H.
  inv_bind H. unfold Sklearn.fit_transform in E. inv_bind E. injection E as <-.
  cbn [fst snd] in H. repeat inv_bind H. injection H as <-.
  cbn [scaler model metrics mae feature_names]. auto.
Qed.

(** C8.  Two runs of [train_xgboost] whose training partitions are
    equal fit scalers with the same parameters, however the records
    differ on the validation rows: the scaler is the result of
    fitting on the training partition alone.  In each run that one
    scaler transforms the validation partition, for the evaluation set
    of the regressor and for the predictions that are scored. *)
Theorem scaler_fit_on_training_partition_only
  (sqrt : Q -> Q)
  (XGBRegressor_fit : list (list Q) -> list Q -> list (list Q) * list Q -> Service.Predictor)
  (df1 df2 : DataFrame) (date_col target_col : string)
  (p1 p2 : Partitions) (r1 r2 : XGBoostResult) :
  partitions df1 date_col target_col = ok p1 ->
  partitions df2 date_col target_col = ok p2 ->
  X_train p1 = X_train p2 ->
  train_xgboost sqrt XGBRegressor_fit df1 date_col target_col = ok r1 ->
  train_xgboost sqrt XGBRegressor_fit df2 date_col target_col = ok r2 ->
  scaler r1 = scaler r2
  /\ Sklearn.fit sqrt (values (X_train p1)) = ok (scaler r1)
  /\ (forall r p, (r, p) = (r1, p1) \/ (r, p) = (r2, p2) ->
        let X_val_scaled := Sklearn.transform (scaler r) (values (X_val p)) in
        model r = XGBRegressor_fit (Sklearn.transform (scaler r) (values (X_train p)))
                    (y_train p) (X_val_scaled, y_val p)
        /\ Sklearn.mean_absolute_error (y_val p) (Service.predict (model r) X_val_scaled)
           = ok (mae (metrics r))).
Proof.
  intros Hp1 Hp2 Heq Hr1 Hr2.
  destruct (train_xgboost_inv _ _ _ _ _ _ _ Hr1 Hp1) as (F1 & M1 & A1 & _).
  destruct (train_xgboost_inv _ _ _ _ _ _ _ Hr2 Hp2) as (F2 & M2 & A2 & _).
  split; [|split; [exact F1|]].
  - rewrite Heq, F2 in F1. now injection F1.
  - intros r p [[= -> ->]|[= -> ->]]; split; assumption.
Qed.

(** *** Records that agree before the validation window *)

Lemma traverse_firstn {A B} (f : A -> result B) (k : nat) (l : list A) (l' : list B) :
  traverse f l = ok l' -> traverse f (firstn k l) = ok (firstn k l').
Proof.
  revert k l'. induction l as [|a l IH]; intros k l'; simpl.
  - intros [= <-]. now rewrite !firstn_nil.
  - destruct (f a) as [e|b] eqn:Ea; [discriminate|].
    destruct (traverse f l) as [e|bs] eqn:El; [discriminate|].
    intros [= <-]. destruct k as [|k]; simpl; auto.
    now rewrite Ea, (IH k bs eq_refl).
Qed.

Lemma firstn_shift (lag : Z) (m : nat) (t1 t2 : list cell) :
  List.length t1 = List.length t2 -> (m <= List.length t1)%nat ->
  firstn m t1 = firstn m t2 ->
  firstn m (shift lag t1) = firstn m (shift lag t2).
Proof.
  intros Hl Hm He. unfold shift.
  rewrite !firstn_firstn, <- Hl, (Nat.min_l _ _ Hm), !firstn_app, repeat_length.
  f_equal.
  rewrite <- (firstn_skipn m t1), <- (firstn_skipn m t2), He.
  rewrite !firstn_app, !length_firstn, <- Hl, (Nat.min_l _ _ Hm).
  replace (m - Z.to_nat lag - m)%nat with O by lia. simpl. now rewrite !app_nil_r.
Qed.

Lemma firstn_seq (k a n : nat) : firstn k (seq a n) = seq a (Nat.min k n).
Proof.
  revert a n. induction k as [|k IH]; intros a [|n]; simpl; auto.
  now rewrite IH.
Qed.

Lemma take_prefix {A} (d : A) (w1 w2 : list A) (a k n : nat) :
  firstn (a + k) w1 = firstn (a + k) w2 ->
  firstn k (map (fun i => nth i w1 d) (seq a n))
  = firstn k (map (fun i => nth i w2 d) (seq a n)).
Proof.
  intros He. rewrite !firstn_map, firstn_seq. apply map_ext_in.
  intros i Hi. apply in_seq in Hi.
  assert (Hlt : (i < a + k)%nat) by lia.
  apply Nat.ltb_lt in Hlt.
  pose proof (nth_firstn (a + k) w1 i d) as E1.
  pose proof (nth_firstn (a + k) w2 i d) as E2.
  rewrite Hlt in E1, E2. now rewrite <- E1, <- E2, He.
Qed.

Lemma select_columns_spec {C} (df X : Frame C) (cs : list string) :
  select df cs = ok X ->
  Forall2 (fun c cv => fst cv = c /\ dict_get c (columns df) = Some (snd cv))
          cs (columns X).
Proof.
  unfold select. intros H. inv_bind H. injection H as <-. cbn [columns].
  revert a E. induction cs as [|c cs IH]; intros cols; simpl.
  - intros [= <-]. constructor.
  - unfold getitem at 1. destruct (dict_get c (columns df)) as [v|] eqn:Ev; [|discriminate].
    simpl. destruct (traverse _ cs) as [e|cols'] eqn:Et; [discriminate|].
    intros [= <-]. constructor; auto.
Qed.

Section Agreement.
Variables (df1 df2 : DataFrame) (date_col target_col : string).
Variables (ts1 ts2 : list Z) (target1 target2 : list cell).
(** The number of rows before the validation window. *)
Variable m : nat.
Hypothesis Hw1 : well_formed df1.
Hypothesis Hw2 : well_formed df2.
Hypothesis Hc1 : complete df1.
Hypothesis Hc2 : complete df2.
Hypothesis Hd1 : getitem df1 date_col = ok (map Timestamp ts1).
Hypothesis Hd2 : getitem df2 date_col = ok (map Timestamp ts2).
Hypothesis Ht1 : getitem df1 target_col = ok target1.
Hypothesis Ht2 : getitem df2 target_col = ok target2.
Hypothesis Hnd : ~ In date_col TEMPORAL_FEATURES.
Hypothesis Hnt : ~ In target_col (TEMPORAL_FEATURES ++ map lag_name LAG_FEATURES).
Hypothesis Hlen : len df1 = len df2.
Hypothesis Hm : (168 + 720 <= len df1)%nat /\ m = (len df1 - 720)%nat.
(** The two records have the same first [m] rows. *)
Hypothesis Hagree : iloc_to df1 (Z.of_nat m) = iloc_to df2 (Z.of_nat m).

Lemma agree_bound : slice_bound (index df1) (Z.of_nat m) = m
                    /\ slice_bound (index df2) (Z.of_nat m) = m.
Proof.
  unfold slice_bound. fold (len df1) (len df2). rewrite <- Hlen.
  destruct (Z.ltb_spec (Z.of_nat m) 0); lia.
Qed.

Lemma agree_index : firstn m (index df1) = firstn m (index df2).
Proof.
  pose proof (f_equal index Hagree) as H. unfold iloc_to in H. cbn [index] in H.
  destruct agree_bound as [B1 B2]. now rewrite B1, B2 in H.
Qed.

Lemma agree_columns :
  map (fun cv => (fst cv, firstn m (snd cv))) (columns df1)
  = map (fun cv => (fst cv, firstn m (snd cv))) (columns df2).
Proof.
  pose proof (f_equal columns Hagree) as H. unfold iloc_to in H. cbn [columns] in H.
  destruct agree_bound as [B1 B2]. now rewrite B1, B2 in H.
Qed.

Lemma agree_names : column_names df1 = column_names df2.
Proof.
  pose proof (f_equal (map fst) agree_columns) as H.
  rewrite !map_map in H. exact H.
Qed.

Lemma agree_column c v1 v2 :
  dict_get c (columns df1) = Some v1 -> dict_get c (columns df2) = Some v2 ->
  firstn m v1 = firstn m v2.
Proof.
  intros G1 G2. pose proof (f_equal (dict_get c) agree_columns) as H.
  rewrite !(dict_get_map_values (firstn m)), G1, G2 in H. now injection H.
Qed.

Lemma agree_dates : firstn m ts1 = firstn m ts2.
Proof.
  apply getitem_ok in Hd1, Hd2.
  pose proof (agree_column _ _ _ Hd1 Hd2) as H. rewrite !firstn_map in H.
  revert H. generalize (firstn m ts1) (firstn m ts2).
  induction l as [|a l IH]; intros [|b l']; simpl; try discriminate; auto.
  intros [= -> H]. f_equal. now apply IH.
Qed.

Lemma agree_engineered c w1 w2 :
  dict_get c (engineered_columns df1 ts1 target1) = Some w1 ->
  dict_get c (engineered_columns df2 ts2 target2) = Some w2 ->
  firstn m w1 = firstn m w2.
Proof.
  apply getitem_ok in Ht1, Ht2.
  destruct (column_of_frame _ _ _ Hw1 Hc1 Ht1) as [L1 _].
  destruct (column_of_frame _ _ _ Hw2 Hc2 Ht2) as [L2 _].
  pose proof (agree_column _ _ _ Ht1 Ht2) as Etarget.
  pose proof agree_dates as Edates.
  unfold engineered_columns. rewrite !dict_get_set.
  destruct (String.eqb c (lag_name 168));
    [intros [= <-] [= <-]; apply firstn_shift; lia || auto|].
  destruct (String.eqb c (lag_name 24));
    [intros [= <-] [= <-]; apply firstn_shift; lia || auto|].
  destruct (String.eqb c (lag_name 1));
    [intros [= <-] [= <-]; apply firstn_shift; lia || auto|].
  destruct (String.eqb c "month");
    [intros [= <-] [= <-]; now rewrite !firstn_map, Edates|].
  destruct (String.eqb c "day_of_week");
    [intros [= <-] [= <-]; now rewrite !firstn_map, Edates|].
  destruct (String.eqb c "hour");
    [intros [= <-] [= <-]; now rewrite !firstn_map, Edates|].
  apply agree_column.
Qed.

Lemma agree_feature_columns feats1 feats2 :
  engineer_features df1 date_col target_col = ok feats1 ->
  engineer_features df2 date_col target_col = ok feats2 ->
  feature_columns feats1 = feature_columns feats2.
Proof.
  intros F1 F2.
  rewrite (engineer_features_complete _ _ _ _ _ Hw1 Hc1 Hd1 Ht1 Hnd Hnt) in F1.
  rewrite (engineer_features_complete _ _ _ _ _ Hw2 Hc2 Hd2 Ht2 Hnd Hnt) in F2.
  injection F1 as <-. injection F2 as <-.
  assert (Hn : forall c,
             has_column (take_rows NA (mkFrame (index df1)
                           (engineered_columns df1 ts1 target1)) (seq 168 (len df1 - 168))) c
             = has_column (take_rows NA (mkFrame (index df2)
                             (engineered_columns df2 ts2 target2)) (seq 168 (len df2 - 168))) c).
  { intros c. unfold has_column, column_names, take_rows. cbn [columns].
    rewrite !map_map. cbn [fst]. unfold engineered_columns.
    rewrite !dict_set_names. fold (column_names df1) (column_names df2).
    now rewrite agree_names. }
  unfold feature_columns.
  rewrite !(filter_ext _ _ Hn). reflexivity.
Qed.

(** The training partitions of the two runs are equal. *)
Lemma training_partition_of_agreeing_records p1 p2 :
  partitions df1 date_col target_col = ok p1 ->
  partitions df2 date_col target_col = ok p2 ->
  X_train p1 = X_train p2.
Proof.
  intros P1 P2.
  destruct (partitions_inv _ _ _ _ P1)
    as (feats1 & Xc1 & X1 & yc1 & y1 & F1 & S1 & A1 & _ & _ & ->).
  destruct (partitions_inv _ _ _ _ P2)
    as (feats2 & Xc2 & X2 & yc2 & y2 & F2 & S2 & A2 & _ & _ & ->).
  cbn [X_train].
  pose proof (agree_feature_columns _ _ F1 F2) as Hfc. rewrite <- Hfc in S2.
  rewrite (engineer_features_complete _ _ _ _ _ Hw1 Hc1 Hd1 Ht1 Hnd Hnt) in F1.
  rewrite (engineer_features_complete _ _ _ _ _ Hw2 Hc2 Hd2 Ht2 Hnd Hnt) in F2.
  injection F1 as <-. injection F2 as <-.
  pose proof (select_index _ _ _ S1) as I1. pose proof (select_index _ _ _ S2) as I2.
  apply select_columns_spec in S1, S2.
  apply astype_float_ok in A1, A2. destruct A1 as [J1 A1], A2 as [J2 A2].
  unfold take_rows in I1, I2, S1, S2. cbn [index columns] in I1, I2, S1, S2.
  rewrite I1 in J1. rewrite I2 in J2.
  assert (J1' : index X1 = skipn 168 (index df1)).
  { rewrite J1. apply (take_from 0 (index df1) 168). }
  assert (J2' : index X2 = skipn 168 (index df2)).
  { rewrite J2. apply (take_from 0 (index df2) 168). }
  clear J1 J2. rewrite <- Hlen in S2.
  pose proof (proj1 Hm) as Hbig.
  assert (B1 : slice_bound (index X1) (split_idx X1) = (len df1 - 888)%nat).
  { rewrite split_bound; unfold len; rewrite J1', length_skipn; fold (len df1); lia. }
  assert (B2 : slice_bound (index X2) (split_idx X2) = (len df1 - 888)%nat).
  { rewrite split_bound; unfold len; rewrite J2', length_skipn;
      fold (len df2); fold (len df1); lia. }
  unfold iloc_to. rewrite B1, B2. f_equal.
  - rewrite J1', J2', !firstn_skipn_comm.
    replace (168 + (len df1 - 888))%nat with m by (destruct Hm; lia).
    now rewrite agree_index.
  - clear B1 B2 J1' J2' I1 I2 Hfc.
    match type of S1 with
    | Forall2 _ ?fc _ => remember fc as cs eqn:Ecs in S1, S2
    end.
    clear Ecs. revert S1 S2 A1 A2.
    generalize (columns X1) (columns X2) (columns Xc1) (columns Xc2).
    induction cs as [|c cs IH]; intros q1 q2 c1 c2 S1 S2 A1 A2.
    + inversion S1; subst. inversion S2; subst.
      inversion A1; subst. inversion A2; subst. reflexivity.
    + inversion S1 as [|? cv1 ? c1' [N1 G1] S1' ]; subst.
      inversion S2 as [|? cv2 ? c2' [N2 G2] S2' ]; subst.
      inversion A1 as [|? qv1 ? q1' [M1 T1] A1' ]; subst.
      inversion A2 as [|? qv2 ? q2' [M2 T2] A2' ]; subst.
      simpl. f_equal; [|eapply IH; eauto].
      f_equal; [congruence|].
      rewrite (dict_get_map_values
                 (fun v => map (fun i => nth i v NA) (seq 168 (len df1 - 168)))) in G1, G2.
      destruct (dict_get (fst cv1) (engineered_columns df1 ts1 target1)) as [w1|] eqn:W1;
        [|discriminate].
      destruct (dict_get (fst cv1) (engineered_columns df2 ts2 target2)) as [w2|] eqn:W2;
        [|discriminate].
      injection G1 as G1. injection G2 as G2.
      apply (traverse_firstn _ (len df1 - 888)) in T1, T2.
      rewrite <- G1 in T1. rewrite <- G2 in T2.
      rewrite (take_prefix NA w1 w2) in T1.
      * rewrite T2 in T1. now injection T1.
      * replace (168 + (len df1 - 888))%nat with m by (destruct Hm; lia).
        eapply agree_engineered; eauto.
Qed.

(** Two complete records of equal length that agree on every row
    before the validation window get the same scaler, whatever
    their validation rows hold. *)
Lemma scaler_of_agreeing_records sqrt XGBRegressor_fit r1 r2 :
  train_xgboost sqrt XGBRegressor_fit df1 date_col target_col = ok r1 ->
  train_xgboost sqrt XGBRegressor_fit df2 date_col target_col = ok r2 ->
  scaler r1 = scaler r2.
Proof.
  intros R1 R2.
  assert (P1 : exists p1, partitions df1 date_col target_col = ok p1).
  { unfold train_xgboost in R1. inv_bind R1. eauto. }
  assert (P2 : exists p2, partitions df2 date_col target_col = ok p2).
  { unfold train_xgboost in R2. inv_bind R2. eauto. }
  destruct P1 as [p1 P1], P2 as [p2 P2].
  destruct (train_xgboost_inv _ _ _ _ _ _ _ R1 P1) as (F1 & _).
  destruct (train_xgboost_inv _ _ _ _ _ _ _ R2 P2) as (F2 & _).
  rewrite (training_partition_of_agreeing_records _ _ P1 P2), F2 in F1.
  now injection F1.
Qed.

End Agreement.

(** *** Rows with a missing value *)

Lemma not_kept_of_missing (pre : DataFrame) (i : nat) (c : string) (col : list cell) :
  dict_get c (columns pre) = Some col -> nth i col NA = NA -> ~ In i (kept_rows pre).
Proof.
  intros Hg Hna Hin. unfold kept_rows in Hin. apply filter_In in Hin.
  destruct Hin as [_ Hm]. unfold notna_at in Hm. rewrite forallb_forall in Hm.
  specialize (Hm col (dict_get_in _ _ _ Hg)). rewrite Hna in Hm. discriminate.
Qed.

(** C10.  A row of the engineered frame with a missing value in any
    column (a sensor column, the target or any other column carried
    over from the record, as well as a lag column) is in neither the
    training nor the validation partition. *)
Theorem missing_value_drops_row
  (df : DataFrame) (date_col target_col : string)
  (pre : DataFrame) (p : Partitions) (i : nat) :
  with_features df date_col target_col = ok pre ->
  partitions df date_col target_col = ok p ->
  NoDup (index df) ->
  (i < len df)%nat ->
  (exists c col,
      (dict_get c (columns pre) = Some col
       \/ (dict_get c (columns df) = Some col
           /\ ~ In c (TEMPORAL_FEATURES ++ map lag_name LAG_FEATURES)))
      /\ nth i col NA = NA) ->
  ~ In (nth i (index df) 0) (index (X_train p))
  /\ ~ In (nth i (index df) 0) (index (X_val p)).
Proof.
  intros Hpre Hp Hnd Hi (c & col & Hg & Hna).
  assert (Hg' : dict_get c (columns pre) = Some col).
  { destruct Hg as [Hg|[Hg Hn]]; auto.
    now rewrite (with_features_keeps _ _ _ _ _ Hpre Hn). }
  assert (Hf : engineer_features df date_col target_col = ok (dropna pre)).
  { unfold engineer_features. now rewrite Hpre. }
  destruct (partitions_index _ _ _ _ _ Hf Hp) as [Htr Hva].
  assert (Hout : ~ In (nth i (index df) 0) (index (dropna pre))).
  { intros Hin. unfold dropna, take_rows in Hin. cbn [index] in Hin.
    apply in_map_iff in Hin. destruct Hin as (j & Hj & Hkept).
    rewrite (with_features_index _ _ _ _ Hpre) in Hj.
    pose proof (kept_rows_bound _ _ Hkept) as Hjb.
    unfold len in Hjb. rewrite (with_features_index _ _ _ _ Hpre) in Hjb.
    assert (j = i) by (eapply (proj1 (NoDup_nth (index df) 0)); eauto).
    subst j. eapply not_kept_of_missing; eauto. }
  rewrite (iloc_index_split (dropna pre) (split_idx (dropna pre))) in Hout.
  rewrite Htr, Hva. split; intros Hin; apply Hout, in_or_app; auto.
Qed.

(** *** The example records *)

Lemma record_with_well_formed time_of sensor n :
  well_formed (Examples.record_with time_of sensor n).
Proof.
  unfold well_formed, Examples.record_with, len. cbn [columns index snd].
  repeat constructor; cbn [snd]; now rewrite !length_map.
Qed.

Lemma hourly_record_complete n : complete (Examples.hourly_record n).
Proof.
  unfold complete, Examples.hourly_record, Examples.record_with. cbn [columns].
  repeat constructor; cbn [snd]; apply Forall_forall; intros c Hc;
    apply in_map_iff in Hc; now destruct Hc as [x [<- _]].
Qed.

Lemma hourly_record_dates n :
  getitem (Examples.hourly_record n) DATE_COLUMN
  = ok (map Timestamp (map Examples.hourly (seq 0 n))).
Proof. unfold getitem. simpl. now rewrite map_map. Qed.

Lemma hourly_record_target n :
  getitem (Examples.hourly_record n) TARGET_COLUMN = ok (Examples.target_of n).
Proof. reflexivity. Qed.

Lemma hourly_sorted (a n : nat) : Sorted Z.le (map Examples.hourly (seq a n)).
Proof.
  apply StronglySorted_Sorted. revert a.
  induction n as [|n IH]; intros a; simpl; constructor; auto.
  apply Forall_forall. intros t Ht. apply in_map_iff in Ht.
  destruct Ht as [k [<- Hk]]. apply in_seq in Hk.
  unfold Examples.hourly, Datetime.timedelta_hours, Datetime.us_per_hour,
    Datetime.us_per_second. lia.
Qed.

Lemma date_column_not_engineered :
  ~ In DATE_COLUMN (TEMPORAL_FEATURES ++ map lag_name LAG_FEATURES).
Proof. simpl. intuition discriminate. Qed.

Lemma target_column_not_engineered :
  ~ In TARGET_COLUMN (TEMPORAL_FEATURES ++ map lag_name LAG_FEATURES).
Proof. simpl. intuition discriminate. Qed.

Lemma range_index_NoDup (n : nat) : NoDup (map Z.of_nat (seq 0 n)).
Proof.
  apply Finite.Injective_map_NoDup; [|apply seq_NoDup].
  intros x y. apply Nat2Z.inj.
Qed.

(** *** The theorems at concrete records *)

Lemma trailing_validation_split_witness :
  let df := Examples.hourly_record 900 in
  let feats := Examples.feats_of df in
  let p := Examples.partitions_of df in
  len (X_val p) = 720%nat
  /\ len (X_train p) = (len feats - 720)%nat
  /\ index feats = index (X_train p) ++ index (X_val p).
Proof.
  cbv zeta.
  pose proof (trailing_validation_split
                (Examples.hourly_record 900) DATE_COLUMN TARGET_COLUMN
                (map Examples.hourly (seq 0 900))
                (Examples.feats_of (Examples.hourly_record 900))
                (Examples.partitions_of (Examples.hourly_record 900))
                (Examples.prophet_frame_of (Examples.hourly_record 900))
                (record_with_well_formed _ _ _)
                (hourly_record_dates 900)
                (hourly_sorted 0 900)
                date_column_not_engineered) as H.
  destruct H as [(H1 & H2 & H3 & _) _].
  - apply get_is_ok. vm_compute. reflexivity.
  - apply get_is_ok. vm_compute. reflexivity.
  - apply get_is_ok. vm_compute. reflexivity.
  - apply Nat.leb_le. vm_compute. reflexivity.
  - exact (conj H1 (conj H2 H3)).
Defined.

(** C2 (as stated, refuted).  With 400 engineered rows (a record of
    568 hourly rows) the validation partition has 320 rows, neither
    720 nor all 400, and the seasonal trainer validates on 152 of the
    568 rows.  With a timestamp shared by two consecutive rows, a
    validation timestamp equals a training timestamp. *)
Lemma trailing_validation_split_counterexample :
  (let df := Examples.hourly_record 568 in
   result_map len (engineer_features df DATE_COLUMN TARGET_COLUMN) = ok 400%nat
   /\ result_map (fun p => (len (X_train p), len (X_val p)))
        (partitions df DATE_COLUMN TARGET_COLUMN)
      = ok (80, 320)%nat
   /\ result_map (fun prophet_df =>
                    (len prophet_df,
                     len (iloc_to prophet_df (split_idx prophet_df)),
                     len (iloc_from prophet_df (split_idx prophet_df))))
        (ProphetTrainer.prophet_frame df DATE_COLUMN TARGET_COLUMN)
      = ok (568, 416, 152)%nat)
  /\ (let df := Examples.doubled_record 889 in
      let t := Examples.hourly 84 in
      result_map (fun feats =>
                    (len feats,
                     getitem (iloc_to feats (split_idx feats)) DATE_COLUMN,
                     result_map (firstn 1)
                       (getitem (iloc_from feats (split_idx feats)) DATE_COLUMN)))
        (engineer_features df DATE_COLUMN TARGET_COLUMN)
      = ok (721%nat, ok [Timestamp t], ok [Timestamp t])
      /\ ~ (t < t)).
Proof.
  split; cbv zeta.
  - split; [vm_compute; reflexivity|].
    split; vm_compute; reflexivity.
  - split; [vm_compute; reflexivity|apply Z.lt_irrefl].
Qed.

Lemma train_xgboost_insufficient_data_witness :
  train_xgboost Examples.sqrt0 Examples.fit0 (Examples.hourly_record 100)
    DATE_COLUMN TARGET_COLUMN
  = raise (ValueError Sklearn.no_samples).
Proof.
  apply (train_xgboost_insufficient_data Examples.sqrt0 Examples.fit0
           (Examples.hourly_record 100) DATE_COLUMN TARGET_COLUMN
           (Examples.feats_of (Examples.hourly_record 100))).
  - apply get_is_ok. vm_compute. reflexivity.
  - vm_compute. reflexivity.
Defined.

Lemma engineered_rows_have_full_history_witness :
  let df := Examples.hourly_record 170 in
  exists feats,
    engineer_features df DATE_COLUMN TARGET_COLUMN = ok feats
    /\ len feats = (len df - 168)%nat
    /\ index feats = skipn 168 (index df)
    /\ forall lag, In lag LAG_FEATURES ->
         exists col,
           getitem feats (lag_name lag) = ok col
           /\ List.length col = (len df - 168)%nat
           /\ forall j, (j < len df - 168)%nat ->
                (Z.to_nat lag <= 168 + j)%nat
                /\ nth j col NA = nth (168 + j - Z.to_nat lag) (Examples.target_of 170) NA.
Proof.
  exact (engineered_rows_have_full_history
           (Examples.hourly_record 170) DATE_COLUMN TARGET_COLUMN
           (map Examples.hourly (seq 0 170)) (Examples.target_of 170)
           (record_with_well_formed _ _ _)
           (hourly_record_complete 170)
           (hourly_record_dates 170)
           (hourly_record_target 170)
           (fun H => date_column_not_engineered (in_or_app _ _ _ (or_introl H)))
           target_column_not_engineered).
Defined.

Lemma scaler_fit_on_training_partition_only_witness :
  XGBoost.scaler (Examples.trained_on (Examples.hourly_record 900))
  = XGBoost.scaler (Examples.trained_on (Examples.perturbed_record 200 900)).
Proof.
  refine (proj1 (scaler_fit_on_training_partition_only Examples.sqrt0 Examples.fit0
           (Examples.hourly_record 900) (Examples.perturbed_record 200 900)
           DATE_COLUMN TARGET_COLUMN
           (Examples.partitions_of (Examples.hourly_record 900))
           (Examples.partitions_of (Examples.perturbed_record 200 900))
           (Examples.trained_on (Examples.hourly_record 900))
           (Examples.trained_on (Examples.perturbed_record 200 900))
           _ _ _ _ _)).
  - apply get_is_ok. vm_compute. reflexivity.
  - apply get_is_ok. vm_compute. reflexivity.
  - vm_compute. reflexivity.
  - apply get_is_ok. vm_compute. reflexivity.
  - apply get_is_ok. vm_compute. reflexivity.
Defined.

Lemma missing_value_drops_row_witness :
  let df := Examples.gapped_record 170 180 in
  let p := Examples.partitions_of df in
  ~ In (nth 170 (index df) 0) (index (X_train p))
  /\ ~ In (nth 170 (index df) 0) (index (X_val p)).
Proof.
  cbv zeta.
  apply (missing_value_drops_row (Examples.gapped_record 170 180)
           DATE_COLUMN TARGET_COLUMN
           (Examples.with_features_of (Examples.gapped_record 170 180))).
  - apply get_is_ok. vm_compute. reflexivity.
  - apply get_is_ok. vm_compute. reflexivity.
  - apply range_index_NoDup.
  - apply Nat.ltb_lt. vm_compute. reflexivity.
  - exists "T1",
      (map (fun i => if Nat.eqb i 170 then NA else Examples.reading_of i) (seq 0 180)).
    split; [right; split|].
    + reflexivity.
    + simpl. intuition discriminate.
    + vm_compute. reflexivity.
Defined.

End TrainerFacts.

(** ** Data preparation *)

Module DataLoaderFacts.
Import Constants DataLoader DataLoaderSpec.

(** *** Sorting *)

Lemma sorted_permutation_unique (l1 l2 : list Z) :
  StronglySorted Z.le l1 -> StronglySorted Z.le l2 -> Permutation l1 l2 -> l1 = l2.
Proof.
  intros H1. revert l2. induction H1 as [|a l1 Hs1 IH Ha]; intros l2 H2 Hp.
  - apply Permutation_nil in Hp. now subst.
  - destruct H2 as [|b l2 Hs2 Hb].
    + apply Permutation_sym, Permutation_nil in Hp. discriminate.
    + assert (a = b).
      { rewrite Forall_forall in Ha, Hb.
        assert (Hin_a : In a (b :: l2))
          by (eapply Permutation_in; [exact Hp|now left]).
        assert (Hin_b : In b (a :: l1))
          by (eapply Permutation_in; [apply Permutation_sym; exact Hp|now left]).
        destruct Hin_a as [->|Hin_a]; auto.
        destruct Hin_b as [->|Hin_b]; auto.
        specialize (Ha b Hin_b). specialize (Hb a Hin_a). lia. }
      subst b. f_equal. apply IH; auto.
      eapply Permutation_cons_inv; eauto.
Qed.

Lemma permutation_bound (p : list nat) (n : nat) :
  Permutation p (seq 0 n) -> forall i, In i p -> (i < n)%nat.
Proof.
  intros Hp i Hi. apply (Permutation_in _ Hp), in_seq in Hi. lia.
Qed.

Lemma positions_of_seq (p : list nat) (n : nat) :
  (forall i, In i p -> (i < n)%nat) ->
  map (fun k => nth k (seq 0 n) O) p = p.
Proof.
  intros Hb. rewrite <- (map_id p) at 2. apply map_ext_in.
  intros k Hk. rewrite seq_nth; auto.
Qed.

Section Sorting.
Variable argsort : list Z -> list nat.
Hypothesis Hsort : argsort_spec argsort.

Lemma argsort_length ks : List.length (argsort ks) = List.length ks.
Proof.
  destruct (Hsort ks) as [Hp _]. apply Permutation_length in Hp.
  now rewrite length_seq in Hp.
Qed.

Lemma argsort_bound ks i : In i (argsort ks) -> (i < List.length ks)%nat.
Proof. destruct (Hsort ks) as [Hp _]. now apply permutation_bound. Qed.

(** Keys in ascending order without a repetition stay in place. *)
Lemma argsort_distinct ks :
  Sorted Z.le ks -> NoDup ks -> argsort ks = seq 0 (List.length ks).
Proof.
  intros Hs Hnd. destruct (Hsort ks) as [Hp Hk].
  assert (Hkeys : map (fun i => nth i ks 0) (argsort ks) = ks).
  { apply sorted_permutation_unique.
    - apply Sorted_StronglySorted; auto. intros x y z; apply Z.le_trans.
    - apply Sorted_StronglySorted; auto. intros x y z; apply Z.le_trans.
    - rewrite <- (take_all 0 ks) at 2. now apply Permutation_map. }
  apply (nth_ext _ _ O O).
  - now rewrite argsort_length, length_seq.
  - intros k Hk'. rewrite argsort_length in Hk'. rewrite seq_nth by auto. simpl.
    apply (proj1 (NoDup_nth ks 0) Hnd); auto.
    + apply argsort_bound, nth_In. now rewrite argsort_length.
    + apply (f_equal (fun l => nth k l 0)) in Hkeys.
      rewrite (nth_indep _ 0 (nth O ks 0)) in Hkeys
        by now rewrite length_map, argsort_length.
      now rewrite (map_nth (fun i => nth i ks 0)) in Hkeys.
Qed.

End Sorting.

(** The two insertion sorts meet the contract. *)
Section InsertionSorts.
Variable before : Z -> Z -> bool.
Hypothesis before_le : forall a b, before a b = true -> a <= b.
Hypothesis after_le : forall a b, before a b = false -> b <= a.

Lemma insert_position_permutation ks i l :
  Permutation (Examples.insert_position before ks i l) (i :: l).
Proof.
  induction l as [|j l IH]; simpl; auto.
  destruct (before _ _); auto.
  rewrite IH. apply perm_swap.
Qed.

Lemma insert_position_sorted ks i l :
  StronglySorted Z.le (map (fun k => nth k ks 0) l) ->
  StronglySorted Z.le (map (fun k => nth k ks 0) (Examples.insert_position before ks i l)).
Proof.
  induction l as [|j l IH]; simpl; intros Hs.
  - repeat constructor.
  - inversion Hs as [|? ? Hs' Hall]; subst.
    destruct (before _ _) eqn:E; simpl.
    + apply before_le in E. constructor; auto.
      constructor; auto. rewrite Forall_forall in *.
      intros x Hx. specialize (Hall x Hx). lia.
    + apply after_le in E. constructor; auto.
      apply Forall_forall. intros x Hx.
      apply in_map_iff in Hx. destruct Hx as [k [<- Hk]].
      apply (Permutation_in _ (insert_position_permutation ks i l)) in Hk.
      destruct Hk as [<-|Hk]; auto.
      rewrite Forall_forall in Hall. apply Hall, in_map_iff. eauto.
Qed.

Lemma argsort_by_spec : argsort_spec (Examples.argsort_by before).
Proof.
  intros ks. unfold Examples.argsort_by.
  assert (H : forall positions acc,
             StronglySorted Z.le (map (fun k => nth k ks 0) acc) ->
             Permutation
               (fold_left (fun l i => Examples.insert_position before ks i l) positions acc)
               (positions ++ acc)
             /\ StronglySorted Z.le
                  (map (fun k => nth k ks 0)
                     (fold_left (fun l i => Examples.insert_position before ks i l)
                                positions acc))).
  { induction positions as [|i positions IH]; intros acc Hacc; simpl; auto.
    destruct (IH _ (insert_position_sorted ks i acc Hacc)) as [Hp Hs].
    split; auto. rewrite Hp, insert_position_permutation.
    symmetry. apply Permutation_middle. }
  destruct (H (seq 0 (List.length ks)) []) as [Hp Hs]; [constructor|].
  rewrite app_nil_r in Hp. split; auto. now apply StronglySorted_Sorted.
Qed.

End InsertionSorts.

Lemma argsort_stable_spec : argsort_spec Examples.argsort_stable.
Proof. apply argsort_by_spec; intros a b H; [apply Z.ltb_lt in H|apply Z.ltb_ge in H]; lia. Qed.

(** *** Frames left unchanged *)

Lemma dict_set_same {V} (k : string) (v : V) (d : dict V) :
  dict_get k d = Some v -> dict_set k v d = d.
Proof.
  induction d as [|[k' v'] d IH]; simpl; [discriminate|].
  destruct (String.eqb k k') eqn:E.
  - now intros [= ->].
  - intros H. now rewrite IH.
Qed.

Lemma has_column_of_get {C} (df : Frame C) (c : string) (v : list C) :
  dict_get c (columns df) = Some v -> has_column df c = true.
Proof.
  unfold has_column, column_names.
  induction (columns df) as [|[k w] d IH]; simpl; [discriminate|].
  destruct (String.eqb c k); auto.
Qed.

Lemma take_rows_all (df : DataFrame) :
  well_formed df -> take_rows NA df (seq 0 (len df)) = df.
Proof.
  intros Hw. destruct df as [idx cols].
  unfold well_formed, take_rows, len in *. cbn [index columns] in *.
  f_equal.
  - apply take_all.
  - rewrite <- (map_id cols) at 2. apply map_ext_in. intros [c v] Hin.
    rewrite Forall_forall in Hw.
    specialize (Hw _ Hin). cbn [fst snd] in *.
    now rewrite <- Hw, take_all.
Qed.

Lemma filter_all {A} (l : list A) : filter (fun _ => true) l = l.
Proof. induction l; simpl; congruence. Qed.

Lemma filter_none {A} (l : list A) : filter (fun _ => false) l = [].
Proof. induction l; simpl; congruence. Qed.

Lemma timestamps_notna (ts : list Z) (n : nat) :
  List.length ts = n ->
  filter (notna_at [map Timestamp ts]) (seq 0 n) = seq 0 n
  /\ filter (fun i => negb (notna_at [map Timestamp ts] i)) (seq 0 n) = [].
Proof.
  intros Hl.
  assert (H : forall i, In i (seq 0 n) -> notna_at [map Timestamp ts] i = true).
  { intros i Hi. apply in_seq in Hi. unfold notna_at. simpl.
    rewrite (nth_indep _ NA (Timestamp 0)) by (rewrite length_map; lia).
    now rewrite (map_nth Timestamp). }
  split.
  - rewrite (filter_ext_in _ (fun _ => true)) by auto. apply filter_all.
  - rewrite (filter_ext_in _ (fun _ => false)).
    + apply filter_none.
    + intros i Hi. now rewrite H.
Qed.

Lemma timestamp_keys (ts : list Z) :
  map (fun i => DataLoader.timestamp_key (nth i (map Timestamp ts) NA))
      (seq 0 (List.length ts)) = ts.
Proof.
  transitivity (map (fun i => nth i ts 0) (seq 0 (List.length ts)));
    [|apply take_all].
  apply map_ext_in. intros i Hi. apply in_seq in Hi.
  rewrite (nth_indep _ NA (Timestamp 0)) by (rewrite length_map; lia).
  now rewrite (map_nth Timestamp).
Qed.

Lemma dropna_subset_timestamps (df : DataFrame) (c : string) (ts : list Z) :
  getitem df c = ok (map Timestamp ts) ->
  List.length ts = len df ->
  well_formed df ->
  dropna_subset df c = ok df.
Proof.
  intros Hg Hl Hw. unfold dropna_subset. rewrite Hg. cbn [bind ok].
  rewrite (proj1 (timestamps_notna ts (len df) Hl)).
  now rewrite take_rows_all.
Qed.

Section Prepare.
Variable parse_text : string -> option Z.
Variable parse_number : Q -> option Z.
Variable argsort : list Z -> list nat.
Hypothesis Hsort : argsort_spec argsort.

Lemma sort_values_timestamps (df : DataFrame) (c : string) (ts : list Z) :
  getitem df c = ok (map Timestamp ts) ->
  List.length ts = len df ->
  sort_values argsort df c = ok (take_rows NA df (argsort ts)).
Proof.
  intros Hg Hl. unfold sort_values. rewrite Hg. cbn [bind ok].
  destruct (timestamps_notna ts (len df) Hl) as [-> ->].
  rewrite <- Hl, timestamp_keys, app_nil_r, positions_of_seq; auto.
  intros i. now apply argsort_bound.
Qed.

Lemma to_datetime_timestamps (ts : list Z) :
  to_datetime parse_text parse_number (map Timestamp ts) = map Timestamp ts.
Proof. unfold to_datetime. rewrite map_map. reflexivity. Qed.

Lemma reset_index_same (df : DataFrame) :
  index df = map Z.of_nat (seq 0 (len df)) -> reset_index df = df.
Proof. intros H. destruct df as [idx cols]. unfold reset_index. cbn in *. now rewrite <- H. Qed.

(** A prepared frame on which the sort moves nothing is a fixed
    point of the preparation. *)
Lemma prepare_fixed_point (F : DataFrame) (ts : list Z) :
  getitem F DATE_COLUMN = ok (map Timestamp ts) ->
  List.length ts = len F ->
  well_formed F ->
  index F = map Z.of_nat (seq 0 (len F)) ->
  argsort ts = seq 0 (List.length ts) ->
  prepare parse_text parse_number argsort F = ok F.
Proof.
  intros Hg Hl Hw Hidx Hid. unfold prepare.
  pose proof (proj1 (getitem_ok _ _ _) Hg) as Hd.
  rewrite (has_column_of_get _ _ _ Hd), Hg. cbn [bind ok].
  rewrite to_datetime_timestamps.
  assert (Hset : setitem F DATE_COLUMN (map Timestamp ts) = F).
  { unfold setitem. rewrite (dict_set_same _ _ _ Hd). now destruct F. }
  rewrite Hset, (dropna_subset_timestamps F _ ts Hg Hl Hw). cbn [bind ok].
  rewrite (sort_values_timestamps F _ ts Hg Hl), Hid, Hl, (take_rows_all F Hw).
  cbn [bind ok]. now rewrite reset_index_same.
Qed.

End Prepare.

(** *** The prepared record *)

Section Prepared.
Variable parse_text : string -> option Z.
Variable parse_number : Q -> option Z.
Variable argsort : list Z -> list nat.
Hypothesis Hsort : argsort_spec argsort.

Lemma to_datetime_cell (col : list cell) (i : nat) :
  nth i (to_datetime parse_text parse_number col) NA = NA
  \/ exists t, nth i (to_datetime parse_text parse_number col) NA = Timestamp t.
Proof.
  destruct (nth_in_or_default i (to_datetime parse_text parse_number col) NA)
    as [Hin|Hd]; auto.
  unfold to_datetime in Hin at 2. apply in_map_iff in Hin.
  destruct Hin as [c [E _]]. rewrite <- E.
  destruct c as [q|t|s|]; eauto.
  - destruct (parse_number q); eauto.
  - destruct (parse_text s); eauto.
Qed.

(** The rows that keep a date, once parsed, hold timestamps. *)
Lemma parsed_dates_kept (col : list cell) (n : nat) :
  let dates := to_datetime parse_text parse_number col in
  let kept := filter (notna_at [dates]) (seq 0 n) in
  map (fun i => nth i dates NA) kept
  = map Timestamp (map (fun i => timestamp_key (nth i dates NA)) kept).
Proof.
  intros dates kept. rewrite map_map. apply map_ext_in. intros i Hi.
  apply filter_In in Hi. destruct Hi as [_ Hna].
  unfold notna_at in Hna. simpl in Hna. rewrite andb_true_r in Hna.
  destruct (to_datetime_cell col i) as [E|[t E]]; fold dates in E; rewrite E in *.
  - discriminate.
  - reflexivity.
Qed.

(** Sorting a frame of timestamps and renumbering its rows. *)
Lemma sorted_frame (df : DataFrame) (ts : list Z) :
  getitem df DATE_COLUMN = ok (map Timestamp ts) ->
  List.length ts = len df ->
  let out := reset_index (take_rows NA df (argsort ts)) in
  let ts' := map (fun i => nth i ts 0) (argsort ts) in
  getitem out DATE_COLUMN = ok (map Timestamp ts')
  /\ List.length ts' = len out
  /\ Sorted Z.le ts'
  /\ well_formed out
  /\ index out = map Z.of_nat (seq 0 (len out)).
Proof.
  intros Hg Hl out ts'.
  assert (Hlen : len out = List.length (argsort ts)).
  { unfold out, reset_index, take_rows, len. cbn [index].
    rewrite length_map, length_seq. now rewrite length_map. }
  split; [|split; [|split; [|split]]].
  - apply getitem_ok in Hg. apply getitem_ok.
    unfold out, reset_index, take_rows. cbn [columns].
    rewrite (dict_get_map_values (fun v => map (fun i => nth i v NA) (argsort ts))), Hg.
    cbn [option_map]. f_equal. apply XGBoostFacts.take_timestamps.
    intros i. now apply argsort_bound.
  - unfold ts'. now rewrite length_map.
  - apply (Hsort ts).
  - unfold well_formed. rewrite Hlen. apply Forall_forall. intros cv Hin.
    unfold out, reset_index, take_rows in Hin. cbn [columns] in Hin.
    apply in_map_iff in Hin. destruct Hin as [cv' [<- _]]. cbn [snd].
    now rewrite length_map.
  - rewrite Hlen. unfold out, reset_index, take_rows, len. cbn [index].
    now rewrite length_map.
Qed.

(** The frame that [prepare] sorts: the raw frame with its dates
    parsed and the rows without a date dropped. *)
Lemma prepare_runs (df : DataFrame) :
  exists df3 ts,
    getitem df3 DATE_COLUMN = ok (map Timestamp ts)
    /\ List.length ts = len df3
    /\ prepare parse_text parse_number argsort df
       = ok (reset_index (take_rows NA df3 (argsort ts))).
Proof.
  unfold prepare.
  set (df1 := if has_column df DATE_COLUMN then df
              else setitem df DATE_COLUMN (date_range default_start (len df))).
  assert (Hd : exists dates0, getitem df1 DATE_COLUMN = ok dates0).
  { unfold df1. destruct (has_column df DATE_COLUMN) eqn:E.
    - destruct (has_column_get _ _ E) as [v Hv]. exists v. now apply getitem_ok.
    - eexists. apply getitem_ok. unfold setitem. cbn [columns].
      apply dict_get_set_same. }
  destruct Hd as [dates0 Hd]. rewrite Hd. cbn [bind ok].
  set (dates := to_datetime parse_text parse_number dates0).
  set (df2 := setitem df1 DATE_COLUMN dates).
  assert (Hg2 : getitem df2 DATE_COLUMN = ok dates).
  { apply getitem_ok. unfold df2, setitem. cbn [columns]. apply dict_get_set_same. }
  unfold dropna_subset. rewrite Hg2. cbn [bind ok].
  set (kept := filter (notna_at [dates]) (seq 0 (len df2))).
  set (df3 := take_rows NA df2 kept).
  set (ts := map (fun i => timestamp_key (nth i dates NA)) kept).
  assert (Hg3 : getitem df3 DATE_COLUMN = ok (map Timestamp ts)).
  { apply getitem_ok in Hg2. apply getitem_ok. unfold df3, take_rows. cbn [columns].
    rewrite (dict_get_map_values (fun v => map (fun i => nth i v NA) kept)), Hg2.
    cbn [option_map]. f_equal. apply parsed_dates_kept. }
  assert (Hl3 : List.length ts = len df3).
  { unfold ts, df3, take_rows, len. cbn [index]. now rewrite !length_map. }
  exists df3, ts. split; [exact Hg3|]. split; [exact Hl3|].
  now rewrite (sort_values_timestamps argsort Hsort df3 _ ts Hg3 Hl3).
Qed.

(** C9 (amended).  Preparation always returns (a date that does
    not parse drops its row, it raises nothing).  The date column
    of the result holds timestamps only, in non-decreasing order.
    Preparing the result again returns it unchanged when its
    timestamps are pairwise distinct, or when the sort leaves a
    sorted column in place; numpy's default sort promises neither
    for equal timestamps. *)
Theorem prepare_sorted_and_idempotent (df : DataFrame) :
  exists out ts,
    prepare parse_text parse_number argsort df = ok out
    /\ getitem out DATE_COLUMN = ok (map Timestamp ts)
    /\ List.length ts = len out
    /\ Sorted Z.le ts
    /\ (NoDup ts \/ fixes_sorted argsort ->
        prepare parse_text parse_number argsort out = ok out).
Proof.
  destruct (prepare_runs df) as (df3 & ts3 & Hg3 & Hl3 & Hrun).
  destruct (sorted_frame df3 ts3 Hg3 Hl3) as (Hg & Hl & Hs & Hw & Hidx).
  eexists _, _. split; [exact Hrun|]. split; [exact Hg|].
  split; [exact Hl|]. split; [exact Hs|].
  intros Hfix. eapply prepare_fixed_point; eauto.
  destruct Hfix as [Hnd|Hst].
  - now apply argsort_distinct.
  - now apply Hst.
Qed.

End Prepared.

(** [load_and_prepare_data] is [prepare] on the content of the file. *)
Lemma load_and_prepare_data_prepares parse_text parse_number argsort (df : DataFrame) :
  load_and_prepare_data parse_text parse_number argsort (Some df)
  = result_map (fun out => mkLoad out DATE_COLUMN TARGET_COLUMN)
      (prepare parse_text parse_number argsort df).
Proof.
  unfold load_and_prepare_data.
  now destruct (prepare parse_text parse_number argsort df).
Qed.

Lemma prepare_sorted_and_idempotent_witness :
  exists out ts,
    prepare Examples.parse_date Examples.parse_none Examples.argsort_stable
      Examples.raw_file = ok out
    /\ getitem out DATE_COLUMN = ok (map Timestamp ts)
    /\ List.length ts = len out
    /\ Sorted Z.le ts
    /\ (NoDup ts \/ fixes_sorted Examples.argsort_stable ->
        prepare Examples.parse_date Examples.parse_none Examples.argsort_stable out
        = ok out).
Proof.
  exact (prepare_sorted_and_idempotent Examples.parse_date Examples.parse_none
           Examples.argsort_stable argsort_stable_spec Examples.raw_file).
Defined.

(** C9 (as stated, refuted).  On a file of 18 readings that carry the
    same date, numpy's quicksort runs one partition, and the partition
    exchanges equal keys: the positions come out as 0, 15, 14, .., 1,
    16, 17.  The prepared record holds the readings in that order (its
    dates are sorted), and preparing it again exchanges them once
    more, back into the order of the file: preparing the prepared
    record does not return it. *)
Lemma prepare_idempotent_counterexample :
  let prepare := prepare Examples.parse_date Examples.parse_none Numpy.argsort in
  let file := Examples.tied_file 18 in
  let out := Examples.prepared Numpy.argsort file in
  let t := Datetime.make 2016 1 11 17 0 0 0 in
  let exchanged := [0; 15; 14; 13; 12; 11; 10; 9; 8; 7; 6; 5; 4; 3; 2; 1; 16; 17]%nat in
  Numpy.aquicksort (repeat t 18) (seq 0 18) 18 = Some exchanged
  /\ prepare file = ok out
  /\ getitem out DATE_COLUMN = ok (repeat (Timestamp t) 18)
  /\ getitem out TARGET_COLUMN
     = ok (map (fun i => Float (inject_Z (Z.of_nat (10 * i)))) exchanged)
  /\ result_map (fun again => getitem again TARGET_COLUMN) (prepare out)
     = ok (ok (Examples.target_of 18))
  /\ prepare out <> ok out.
Proof.
  cbv zeta. split; [vm_compute; reflexivity|].
  split; [vm_compute; reflexivity|]. split; [vm_compute; reflexivity|].
  split; [vm_compute; reflexivity|]. split; [vm_compute; reflexivity|].
  vm_compute. discriminate.
Qed.

End DataLoaderFacts.

(** ** The forecast service: shape of the result and edge cases *)

Module ServiceBehaviour.
Import Constants Datetime Service ServiceSpec ServiceShape.

Lemma forecast_tree_path self horizon c m n ns :
  xgb_model self = Some m ->
  feature_names self = Some (n :: ns) ->
  1 <= horizon ->
  forecast self horizon true c
  = (ok (np_maximum (predict m (scaled_rows self (n :: ns) (reading c (ticks c)) horizon)) 0,
         stamps (reading c (S (ticks c))) horizon,
         MODEL_XGBOOST),
     advance 2 c).
Proof.
  intros Hm Hn Hh. unfold forecast, io_bind. rewrite Hm, Hn. simpl.
  unfold _xgboost_forecast. rewrite Hm, Hn.
  unfold io_bind, datetime_now, lift, ret. simpl.
  rewrite ServiceFacts.serving_frame_rows by lia. reflexivity.
Qed.

Lemma forecast_seasonal_path self horizon c m :
  prophet_model self = Some m ->
  forecast self horizon false c
  = (ok (np_maximum
           (tail (predict_yhat m (make_future_dataframe m horizon FREQUENCY)) horizon) 0,
         stamps (reading c (ticks c)) horizon,
         MODEL_PROPHET),
     advance 1 c).
Proof.
  intros Hm. unfold forecast, io_bind. rewrite Hm. simpl.
  unfold _prophet_forecast. rewrite Hm. reflexivity.
Qed.

Lemma stamps_length now horizon : List.length (stamps now horizon) = Z.to_nat horizon.
Proof. unfold stamps. rewrite length_map, range_length. f_equal. lia. Qed.

Lemma tail_last {A} (l : list A) (n : Z) :
  0 <= n -> tail l n = skipn (List.length l - Z.to_nat n) l.
Proof.
  intros Hn. unfold tail. destruct (n =? 0) eqn:E.
  - apply Z.eqb_eq in E. subst n. simpl. rewrite Nat.sub_0_r.
    now rewrite skipn_all.
  - apply Z.eqb_neq in E. unfold slice_from, slice_bound.
    replace (- n <? 0) with true by (symmetry; apply Z.ltb_lt; lia).
    f_equal. lia.
Qed.

(** X1.  For a horizon [h >= 1] the frame the tree model is served has
    [h] rows of one entry per schema name, in schema order; the entry
    of row [k] under a name is the hour, the day of the week or the
    month of the instant [now + k] hours for the names [hour],
    [day_of_week] and [month], and zero under every other name (the
    sensor and lag columns). *)
Theorem serving_rows_follow_schema
  (names : list string) (now : datetime) (h : Z) :
  1 <= h ->
  exists X,
    serving_frame names now h = ok X
    /\ List.length X = Z.to_nat h
    /\ forall k, (k < Z.to_nat h)%nat ->
         List.length (nth k X []) = List.length names
         /\ forall j, (j < List.length names)%nat ->
              nth j (nth k X []) (0 # 1)%Q
              = serving_value (nth j names "") (now + timedelta_hours (Z.of_nat k)).
Proof.
  intros Hh. rewrite ServiceFacts.serving_frame_rows by assumption.
  eexists. split; [reflexivity|]. split.
  - rewrite length_map, range_length. f_equal. lia.
  - intros k Hk.
    set (row := fun i => map (fun c => serving_value c (now + timedelta_hours i)) names).
    rewrite (nth_indep _ [] (row 0))
      by (rewrite length_map, range_length; lia).
    rewrite (map_nth row), range_nth by lia. subst row. cbv beta.
    split; [apply length_map|].
    intros j Hj.
    rewrite (nth_indep _ (0 # 1)%Q
               (serving_value "" (now + timedelta_hours (0 + Z.of_nat k))))
      by now rewrite length_map.
    now rewrite (map_nth (fun c => serving_value c (now + timedelta_hours (0 + Z.of_nat k)))).
Qed.

Lemma serving_rows_follow_schema_witness :
  exists X,
    serving_frame Examples.schema Examples.late_january 3 = ok X
    /\ List.length X = Z.to_nat 3
    /\ forall k, (k < Z.to_nat 3)%nat ->
         List.length (nth k X []) = List.length Examples.schema
         /\ forall j, (j < List.length Examples.schema)%nat ->
              nth j (nth k X []) (0 # 1)%Q
              = serving_value (nth j Examples.schema "")
                  (Examples.late_january + timedelta_hours (Z.of_nat k)).
Proof.
  apply (serving_rows_follow_schema Examples.schema Examples.late_january 3). lia.
Defined.

(** X2.  With the tree model and a non-empty schema loaded, a horizon
    of zero or less does not give an empty forecast: no feature row is
    built, selecting the schema columns of the empty frame raises
    [KeyError], and [forecast] raises it after one reading of the
    clock. *)
Theorem tree_forecast_rejects_empty_horizon
  (self : ForecastService) (h : Z) (c : Clock) (m : Predictor) (n : string)
  (ns : list string) :
  xgb_model self = Some m ->
  feature_names self = Some (n :: ns) ->
  h <= 0 ->
  exists msg, forecast self h true c = (raise (KeyError msg), advance 1 c).
Proof.
  intros Hm Hn Hh. unfold forecast, io_bind. rewrite Hm, Hn. simpl.
  unfold _xgboost_forecast. rewrite Hm, Hn.
  unfold io_bind, datetime_now, lift, ret. simpl.
  unfold serving_frame, range.
  replace (Z.to_nat (h - 0)) with O by lia. simpl.
  eexists. reflexivity.
Qed.

Lemma tree_forecast_rejects_empty_horizon_witness :
  exists msg,
    forecast (Examples.tree_only 0) 0 true Examples.clock0
    = (raise (KeyError msg), advance 1 Examples.clock0).
Proof.
  apply (tree_forecast_rejects_empty_horizon (Examples.tree_only 0) 0 Examples.clock0
           (Examples.hour_model 0) "T1" ["hour"; "day_of_week"; "month"; "lag_1"]).
  - reflexivity.
  - reflexivity.
  - lia.
Defined.

(** X3.  On the seasonal path, for a horizon [h >= 0], the values are
    the last [h] predictions of the model over the future frame it
    builds (all of them when it predicts fewer than [h]), each raised
    to zero when negative; so there are [min(h, number of predictions)]
    values beside the [h] timestamps, and the clock is read once. *)
Theorem seasonal_forecast_takes_last_values
  (self : ForecastService) (h : Z) (c : Clock) (m : Prophet) :
  prophet_model self = Some m ->
  0 <= h ->
  let yhat := predict_yhat m (make_future_dataframe m h FREQUENCY) in
  let values := map (maximum 0) (skipn (List.length yhat - Z.to_nat h) yhat) in
  forecast self h false c
  = (ok (values, stamps (reading c (ticks c)) h, MODEL_PROPHET), advance 1 c)
  /\ List.length values = Nat.min (Z.to_nat h) (List.length yhat)
  /\ List.length (stamps (reading c (ticks c)) h) = Z.to_nat h.
Proof.
  intros Hm Hh yhat values. split; [|split].
  - rewrite (forecast_seasonal_path _ _ _ _ Hm).
    fold yhat. rewrite tail_last by assumption. reflexivity.
  - subst values. rewrite length_map, length_skipn. lia.
  - apply stamps_length.
Qed.

Lemma seasonal_forecast_takes_last_values_witness :
  let m := Examples.seasonal_model in
  let c := Examples.clock0 in
  let yhat := predict_yhat m (make_future_dataframe m 3 FREQUENCY) in
  let values := map (maximum 0) (skipn (List.length yhat - Z.to_nat 3) yhat) in
  forecast Examples.seasonal_only 3 false c
  = (ok (values, stamps (reading c (ticks c)) 3, MODEL_PROPHET), advance 1 c)
  /\ List.length values = Nat.min (Z.to_nat 3) (List.length yhat)
  /\ List.length (stamps (reading c (ticks c)) 3) = Z.to_nat 3.
Proof.
  apply (seasonal_forecast_takes_last_values Examples.seasonal_only 3 Examples.clock0
           Examples.seasonal_model).
  - reflexivity.
  - lia.
Defined.

(** X4.  On the tree path, for a horizon [h >= 1]: when the model
    predicts one value per row it is given and the scaler (if one is
    loaded) returns as many rows as it is given, [forecast] returns
    exactly [h] values beside its [h] timestamps, under the name of
    the tree model and after two readings of the clock. *)
Theorem tree_forecast_one_value_per_hour
  (self : ForecastService) (h : Z) (c : Clock) (m : Predictor) (n : string)
  (ns : list string) :
  xgb_model self = Some m ->
  feature_names self = Some (n :: ns) ->
  (forall X, List.length (predict m X) = List.length X) ->
  (forall s X, xgb_scaler self = Some s -> List.length (transform s X) = List.length X) ->
  1 <= h ->
  exists values timestamps,
    forecast self h true c = (ok (values, timestamps, MODEL_XGBOOST), advance 2 c)
    /\ List.length values = Z.to_nat h
    /\ List.length timestamps = Z.to_nat h.
Proof.
  intros Hm Hn Hp Hs Hh.
  rewrite (forecast_tree_path _ _ _ _ _ _ Hm Hn Hh).
  eexists _, _. split; [reflexivity|]. split; [|apply stamps_length].
  unfold np_maximum. rewrite length_map, Hp. unfold scaled_rows.
  destruct (xgb_scaler self) as [s|] eqn:Es.
  - rewrite (Hs s _ eq_refl), length_map, range_length. f_equal. lia.
  - rewrite length_map, range_length. f_equal. lia.
Qed.

Lemma tree_forecast_one_value_per_hour_witness :
  exists values timestamps,
    forecast (Examples.tree_only 12) 3 true Examples.clock0
    = (ok (values, timestamps, MODEL_XGBOOST), advance 2 Examples.clock0)
    /\ List.length values = Z.to_nat 3
    /\ List.length timestamps = Z.to_nat 3.
Proof.
  apply (tree_forecast_one_value_per_hour (Examples.tree_only 12) 3 Examples.clock0
           (Examples.hour_model 12) "T1" ["hour"; "day_of_week"; "month"; "lag_1"]).
  - reflexivity.
  - reflexivity.
  - intros X. simpl. apply length_map.
  - intros s X H. simpl in H. discriminate.
  - lia.
Defined.

Lemma month_range (z : Z) : 1 <= snd (fst (civil_from_days z)) <= 12.
Proof.
  unfold civil_from_days. cbv zeta.
  set (doe := z + 719468 - (z + 719468) / 146097 * 146097).
  assert (Hdoe : 0 <= doe <= 146096).
  { subst doe. pose proof (Z.mod_pos_bound (z + 719468) 146097 ltac:(lia)) as H.
    rewrite Z.mod_eq in H by lia. lia. }
  clearbody doe.
  set (yoe := (doe - doe / 1460 + doe / 36524 - doe / 146096) / 365).
  set (doy := doe - (365 * yoe + yoe / 4 - yoe / 100)).
  assert (Hdoy : 0 <= doy <= 365).
  { subst doy yoe. Z.to_euclidean_division_equations; lia. }
  clearbody doy.
  cbn [fst snd].
  destruct ((5 * doy + 2) / 153 <? 10) eqn:E.
  - apply Z.ltb_lt in E. Z.to_euclidean_division_equations; lia.
  - apply Z.ltb_ge in E. Z.to_euclidean_division_equations; lia.
Qed.

(** X5.  Whatever the schema and the instant, the feature dictionary
    of a served hour carries an hour between 0 and 23, a day of the
    week between 0 and 6 and a month between 1 and 12 (also when the
    schema does not list those names: the three keys are always
    set). *)
Theorem served_temporal_features_in_range (names : list string) (t : datetime) :
  exists hh dd mm,
    dict_get "hour" (features_at names t) = Some (inject_Z hh)
    /\ dict_get "day_of_week" (features_at names t) = Some (inject_Z dd)
    /\ dict_get "month" (features_at names t) = Some (inject_Z mm)
    /\ 0 <= hh <= 23 /\ 0 <= dd <= 6 /\ 1 <= mm <= 12.
Proof.
  exists (hour t), (weekday t), (month t). unfold features_at.
  rewrite !dict_get_set. simpl.
  repeat split; try reflexivity.
  - unfold hour. pose proof (Z.mod_pos_bound (t / us_per_hour) 24). lia.
  - unfold hour. pose proof (Z.mod_pos_bound (t / us_per_hour) 24). lia.
  - unfold weekday. pose proof (Z.mod_pos_bound (days_of t + 3) 7). lia.
  - unfold weekday. pose proof (Z.mod_pos_bound (days_of t + 3) 7). lia.
  - apply month_range.
  - apply month_range.
Qed.

End ServiceBehaviour.

(** ** The trainers: schema, partitions and failures *)

Module TrainerBehaviour.
Import Constants XGBoost XGBoostSpec.

Lemma take_rows_names {C} (d : C) (df : Frame C) (positions : list nat) :
  column_names (take_rows d df positions) = column_names df.
Proof.
  unfold column_names, take_rows. cbn [columns]. rewrite map_map. reflexivity.
Qed.

Lemma with_features_has_engineered df d t pre c :
  with_features df d t = ok pre ->
  In c (TEMPORAL_FEATURES ++ map lag_name LAG_FEATURES) ->
  has_column pre c = true.
Proof.
  intros H Hin.
  destruct (XGBoostFacts.with_features_shape _ _ _ _ H)
    as (v1 & v2 & v3 & v4 & v5 & v6 & Hc).
  unfold has_column, column_names. rewrite Hc.
  rewrite !XGBoostFacts.dict_set_names.
  simpl in Hin.
  destruct Hin as [<-|[<-|[<-|[<-|[<-|[<-|[]]]]]]];
    rewrite String.eqb_refl; rewrite ?orb_true_r; reflexivity.
Qed.

Lemma with_features_has_other df d t pre c :
  with_features df d t = ok pre ->
  ~ In c (TEMPORAL_FEATURES ++ map lag_name LAG_FEATURES) ->
  has_column pre c = has_column df c.
Proof.
  intros H Hn.
  destruct (XGBoostFacts.with_features_shape _ _ _ _ H)
    as (v1 & v2 & v3 & v4 & v5 & v6 & Hc).
  unfold has_column, column_names. rewrite Hc.
  rewrite !XGBoostFacts.dict_set_names.
  repeat match goal with
  | |- context [String.eqb c ?k] =>
      rewrite (XGBoostFacts.eqb_false_of_neq c k)
        by (intros Hq; apply Hn; rewrite Hq; simpl; auto 10)
  end.
  reflexivity.
Qed.

Lemma sensors_not_engineered (c : string) :
  In c SENSOR_FEATURES -> ~ In c (TEMPORAL_FEATURES ++ map lag_name LAG_FEATURES).
Proof.
  intros Hc Hin.
  assert (E : forallb (fun s => negb (existsb (String.eqb s)
                                 (TEMPORAL_FEATURES ++ map lag_name LAG_FEATURES)))
                SENSOR_FEATURES = true) by (vm_compute; reflexivity).
  rewrite forallb_forall in E. specialize (E c Hc).
  apply negb_true_iff in E.
  rewrite (existsb_eqb_in _ _ Hin) in E. discriminate.
Qed.

Lemma filter_idem {A} (f : A -> bool) (l : list A) :
  filter f (filter f l) = filter f l.
Proof.
  induction l as [|a l IH]; simpl; [reflexivity|].
  destruct (f a) eqn:E; simpl; [rewrite E|]; now rewrite ?IH.
Qed.

Lemma filter_true_on {A} (f : A -> bool) (l : list A) :
  (forall a, In a l -> f a = true) -> filter f l = l.
Proof.
  induction l as [|a l IH]; simpl; intros H; [reflexivity|].
  rewrite (H a (or_introl eq_refl)). f_equal. apply IH. auto.
Qed.

(** The schema the trainer selects, read off the raw record. *)
Lemma feature_columns_of_record df d t feats :
  engineer_features df d t = ok feats ->
  feature_columns feats
  = filter (has_column df) SENSOR_FEATURES
    ++ TEMPORAL_FEATURES ++ map lag_name LAG_FEATURES.
Proof.
  intros Hf.
  destruct (XGBoostFacts.engineer_features_inv _ _ _ _ Hf) as (pre & Hpre & ->).
  unfold feature_columns.
  assert (Hhc : forall c, has_column (dropna pre) c = has_column pre c).
  { intros c. unfold has_column, dropna. now rewrite take_rows_names. }
  rewrite filter_app, filter_idem.
  rewrite (filter_true_on _ (TEMPORAL_FEATURES ++ map lag_name LAG_FEATURES)).
  2:{ intros c Hc. rewrite Hhc. eapply with_features_has_engineered; eauto. }
  f_equal. apply filter_ext_in. intros c Hc. rewrite Hhc.
  eapply with_features_has_other; eauto. now apply sensors_not_engineered.
Qed.

Lemma train_xgboost_partitions sqrt XGBRegressor_fit df d t r :
  train_xgboost sqrt XGBRegressor_fit df d t = ok r ->
  exists p, partitions df d t = ok p.
Proof.
  unfold train_xgboost. intros H. inv_bind H. eauto.
Qed.

(** A run of the trainer on 530 hourly rows: 362 engineered rows, of
    which 4 are trained on. *)
Lemma small_training_run :
  train_xgboost Examples.sqrt0 Examples.fit0 (Examples.hourly_record 530)
    DATE_COLUMN TARGET_COLUMN
  = ok (Examples.trained_on (Examples.hourly_record 530)).
Proof. apply get_is_ok. vm_compute. reflexivity. Qed.

(** X6.  The schema [train_xgboost] returns is fixed by the column
    names of the record alone: the sensor names of the configuration
    that are columns of the record, in the order of the configuration,
    followed by [hour], [day_of_week], [month] and then [lag_1],
    [lag_24], [lag_168].  The date and target columns and every other
    column of the record are never features. *)
Theorem feature_names_schema
  (sqrt : Q -> Q)
  (XGBRegressor_fit : list (list Q) -> list Q -> list (list Q) * list Q -> Service.Predictor)
  (df : DataFrame) (date_col target_col : string) (r : XGBoostResult) :
  train_xgboost sqrt XGBRegressor_fit df date_col target_col = ok r ->
  feature_names r
  = filter (has_column df) SENSOR_FEATURES
    ++ ["hour"; "day_of_week"; "month"; "lag_1"; "lag_24"; "lag_168"].
Proof.
  intros H.
  destruct (train_xgboost_partitions _ _ _ _ _ _ H) as [p Hp].
  destruct (TrainerFacts.train_xgboost_inv _ _ _ _ _ _ _ H Hp) as (_ & _ & _ & ->).
  destruct (XGBoostFacts.partitions_inv _ _ _ _ Hp)
    as (feats & Xc & X & yc & y & Hf & _ & _ & _ & _ & ->).
  cbn [feature_cols]. now rewrite (feature_columns_of_record _ _ _ _ Hf).
Qed.

Lemma feature_names_schema_witness :
  feature_names (Examples.trained_on (Examples.hourly_record 530))
  = filter (has_column (Examples.hourly_record 530)) SENSOR_FEATURES
    ++ ["hour"; "day_of_week"; "month"; "lag_1"; "lag_24"; "lag_168"].
Proof.
  apply (feature_names_schema Examples.sqrt0 Examples.fit0
           (Examples.hourly_record 530) DATE_COLUMN TARGET_COLUMN).
  apply small_training_run.
Defined.

(** *** The engineered frame *)

Lemma take_rows_well_formed {C} (d : C) (df : Frame C) (positions : list nat) :
  well_formed (take_rows d df positions).
Proof.
  unfold well_formed, take_rows, len. cbn [columns index].
  apply Forall_forall. intros cv Hcv. apply in_map_iff in Hcv.
  destruct Hcv as [cv' [<- _]]. cbn [snd]. now rewrite !length_map.
Qed.

(** X7.  Whatever the record (missing cells, columns of unequal
    length), the frame [engineer_features] returns has no missing
    value in any column, and every one of its columns has one cell per
    row label. *)
Theorem engineered_frame_has_no_missing_value
  (df : DataFrame) (date_col target_col : string) (feats : DataFrame) :
  engineer_features df date_col target_col = ok feats ->
  well_formed feats /\ complete feats.
Proof.
  intros Hf.
  destruct (XGBoostFacts.engineer_features_inv _ _ _ _ Hf) as (pre & Hpre & ->).
  split; [apply take_rows_well_formed|].
  unfold complete, dropna, take_rows. cbn [columns].
  apply Forall_forall. intros cv Hcv. apply in_map_iff in Hcv.
  destruct Hcv as [[c col] [<- Hin]]. cbn [snd fst].
  apply Forall_forall. intros x Hx. apply in_map_iff in Hx.
  destruct Hx as [i [<- Hi]].
  unfold kept_rows in Hi. apply filter_In in Hi. destruct Hi as [_ Hi].
  unfold notna_at in Hi. rewrite forallb_forall in Hi.
  specialize (Hi col). apply negb_true_iff. apply Hi.
  apply in_map_iff. exists (c, col). auto.
Qed.

Lemma engineered_frame_has_no_missing_value_witness :
  well_formed (Examples.feats_of (Examples.gapped_record 170 180))
  /\ complete (Examples.feats_of (Examples.gapped_record 170 180)).
Proof.
  apply (engineered_frame_has_no_missing_value (Examples.gapped_record 170 180)
           DATE_COLUMN TARGET_COLUMN).
  apply get_is_ok. vm_compute. reflexivity.
Defined.

(** *** The temporal features of the training rows *)

Lemma dt_inv field col v :
  dt field col = ok v ->
  forallb is_datetimelike col = true
  /\ v = map (fun c => match c with
                       | Timestamp t => Float (inject_Z (field t))
                       | _ => NA
                       end) col.
Proof.
  unfold dt. destruct (forallb is_datetimelike col); [|discriminate].
  intros [= <-]. auto.
Qed.

Lemma add_lag_features_get_other lags df t df' c :
  add_lag_features lags df t = ok df' ->
  ~ In c (map lag_name lags) ->
  dict_get c (columns df') = dict_get c (columns df).
Proof.
  revert df. induction lags as [|lag lags IH]; intros df H Hn.
  - simpl in H. now injection H as <-.
  - cbn [add_lag_features] in H. inv_bind H.
    rewrite (IH _ H) by (intros Hin; apply Hn; now right).
    unfold setitem. cbn [columns]. apply dict_get_set_other.
    intros ->. apply Hn. now left.
Qed.

Lemma getitem_setitem_other {C} (df : Frame C) (c k : string) (v : list C) :
  c <> k -> getitem (setitem df k v) c = getitem df c.
Proof.
  intros H. unfold getitem, setitem. cbn [columns].
  now rewrite dict_get_set_other.
Qed.

(** The three temporal columns before rows are dropped. *)
Lemma with_features_temporal df d t pre :
  with_features df d t = ok pre ->
  ~ In d TEMPORAL_FEATURES ->
  exists dates,
    getitem df d = ok dates
    /\ forallb is_datetimelike dates = true
    /\ forall field name,
         In (field, name) [(Datetime.hour, "hour"); (Datetime.weekday, "day_of_week");
                           (Datetime.month, "month")] ->
         dict_get name (columns pre)
         = Some (map (fun c => match c with
                               | Timestamp x => Float (inject_Z (field x))
                               | _ => NA
                               end) dates).
Proof.
  intros H Hd.
  assert (Hh : d <> "hour") by (intros ->; apply Hd; simpl; auto).
  assert (Hw : d <> "day_of_week") by (intros ->; apply Hd; simpl; auto).
  unfold with_features, add_temporal_features in H.
  inv_bind H. rename a into df3.
  inv_bind E. rename a into dates. rename E0 into Hg.
  inv_bind E. rename a into v1. destruct (dt_inv _ _ _ E0) as [Hall ->]. clear E0.
  rewrite getitem_setitem_other, Hg in E by assumption. cbn [bind ok] in E.
  inv_bind E. rename a into v2. destruct (dt_inv _ _ _ E0) as [_ ->]. clear E0.
  rewrite !getitem_setitem_other, Hg in E by assumption. cbn [bind ok] in E.
  inv_bind E. rename a into v3. destruct (dt_inv _ _ _ E0) as [_ ->]. clear E0.
  injection E as <-.
  exists dates. split; [exact Hg|]. split; [exact Hall|].
  intros field name Hin.
  rewrite (add_lag_features_get_other _ _ _ _ name H).
  - unfold setitem. cbn [columns]. rewrite !dict_get_set.
    simpl in Hin. destruct Hin as [[= <- <-]|[[= <- <-]|[[= <- <-]|[]]]]; reflexivity.
  - simpl in Hin. destruct Hin as [[= <- <-]|[[= <- <-]|[[= <- <-]|[]]]];
      simpl; intuition discriminate.
Qed.

Lemma nth_take {A} (d : A) (col : list A) (kept : list nat) (j : nat) :
  (j < List.length kept)%nat ->
  nth j (map (fun i => nth i col d) kept) d = nth (nth j kept O) col d.
Proof.
  intros H.
  rewrite (nth_indep _ d (nth (nth O kept O) col d)) by now rewrite length_map.
  rewrite (map_nth (fun i => nth i col d)) with (d := nth O kept O).
  f_equal. now apply nth_indep.
Qed.

Lemma nth_field (field : Z -> Z) (dates : list cell) (i : nat) :
  nth i (map (fun c => match c with
                       | Timestamp x => Float (inject_Z (field x))
                       | _ => NA
                       end) dates) NA
  = match nth i dates NA with
    | Timestamp x => Float (inject_Z (field x))
    | _ => NA
    end.
Proof.
  exact (map_nth (fun c => match c with
                           | Timestamp x => Float (inject_Z (field x))
                           | _ => NA
                           end) dates NA i).
Qed.

(** X29.  In the engineered frame every row carries the hour, the day
    of the week and the month of its own date: dropping the rows with
    a missing value keeps the temporal columns aligned with the date
    column, and every date that is left is a timestamp. *)
Theorem engineered_temporal_features_describe_own_row
  (df : DataFrame) (date_col target_col : string) (feats : DataFrame) :
  engineer_features df date_col target_col = ok feats ->
  ~ In date_col (TEMPORAL_FEATURES ++ map lag_name LAG_FEATURES) ->
  exists dates hours days months,
    getitem feats date_col = ok dates
    /\ getitem feats "hour" = ok hours
    /\ getitem feats "day_of_week" = ok days
    /\ getitem feats "month" = ok months
    /\ forall j, (j < len feats)%nat ->
         exists ts,
           nth j dates NA = Timestamp ts
           /\ nth j hours NA = Float (inject_Z (Datetime.hour ts))
           /\ nth j days NA = Float (inject_Z (Datetime.weekday ts))
           /\ nth j months NA = Float (inject_Z (Datetime.month ts)).
Proof.
  intros Hf Hd.
  destruct (XGBoostFacts.engineer_features_inv _ _ _ _ Hf) as (pre & Hpre & ->).
  assert (Hd' : ~ In date_col TEMPORAL_FEATURES).
  { intros Hin. apply Hd, in_or_app. now left. }
  destruct (with_features_temporal _ _ _ _ Hpre Hd') as (dates0 & Hg & Hall & Hcols).
  pose proof (XGBoostFacts.with_features_keeps _ _ _ _ date_col Hpre Hd) as Hk.
  apply getitem_ok in Hg. rewrite Hg in Hk.
  eexists _, _, _, _.
  split; [apply (XGBoostFacts.dropna_getitem _ _ _ Hk)|].
  split; [apply XGBoostFacts.dropna_getitem, (Hcols Datetime.hour); simpl; auto|].
  split; [apply XGBoostFacts.dropna_getitem, (Hcols Datetime.weekday); simpl; auto|].
  split; [apply XGBoostFacts.dropna_getitem, (Hcols Datetime.month); simpl; auto|].
  intros j Hj. rewrite XGBoostFacts.dropna_len in Hj.
  rewrite !nth_take by assumption.
  set (i := nth j (kept_rows pre) O).
  assert (Hi : In i (kept_rows pre)) by (apply nth_In; assumption).
  unfold kept_rows in Hi. apply filter_In in Hi. destruct Hi as [_ Hna].
  unfold notna_at in Hna. rewrite forallb_forall in Hna.
  assert (Hcell : isna (nth i dates0 NA) = false).
  { apply negb_true_iff. apply (Hna dates0). now apply (dict_get_in date_col). }
  assert (Hdl : is_datetimelike (nth i dates0 NA) = true).
  { destruct (nth_in_or_default i dates0 NA) as [Hin|E].
    - rewrite forallb_forall in Hall. now apply Hall.
    - now rewrite E. }
  destruct (nth i dates0 NA) as [q|ts|s0|] eqn:Ec; try discriminate.
  exists ts. split; [reflexivity|].
  rewrite !nth_field, Ec. auto.
Qed.

Lemma engineered_temporal_features_describe_own_row_witness :
  let feats := Examples.feats_of (Examples.gapped_record 170 180) in
  exists dates hours days months,
    getitem feats DATE_COLUMN = ok dates
    /\ getitem feats "hour" = ok hours
    /\ getitem feats "day_of_week" = ok days
    /\ getitem feats "month" = ok months
    /\ forall j, (j < len feats)%nat ->
         exists ts,
           nth j dates NA = Timestamp ts
           /\ nth j hours NA = Float (inject_Z (Datetime.hour ts))
           /\ nth j days NA = Float (inject_Z (Datetime.weekday ts))
           /\ nth j months NA = Float (inject_Z (Datetime.month ts)).
Proof.
  apply (engineered_temporal_features_describe_own_row
           (Examples.gapped_record 170 180) DATE_COLUMN TARGET_COLUMN).
  - apply get_is_ok. vm_compute. reflexivity.
  - apply TrainerFacts.date_column_not_engineered.
Defined.

(** *** The split *)

Lemma slice_bound_length {A B} (l1 : list A) (l2 : list B) (k : Z) :
  List.length l1 = List.length l2 -> slice_bound l1 k = slice_bound l2 k.
Proof. intros H. unfold slice_bound. now rewrite H. Qed.

Lemma slice_bound_le {A} (l : list A) (k : Z) : (slice_bound l k <= List.length l)%nat.
Proof.
  unfold slice_bound. cbv zeta. destruct (k <? 0) eqn:E.
  - apply Z.ltb_lt in E. lia.
  - lia.
Qed.

Lemma astype_float_index (Xc : DataFrame) (X : Frame Q) :
  astype_float Xc = ok X -> index X = index Xc.
Proof. intros H. now destruct (astype_float_ok _ _ H). Qed.

(** The frame and the targets that are split, and their common
    length. *)
Lemma partitions_shape df d t p :
  partitions df d t = ok p ->
  exists feats X yc y,
    engineer_features df d t = ok feats
    /\ index X = index feats
    /\ getitem feats t = ok yc
    /\ traverse to_float yc = ok y
    /\ List.length y = len feats
    /\ X_train p = iloc_to X (split_idx X)
    /\ X_val p = iloc_from X (split_idx X)
    /\ y_train p = slice_to y (split_idx X)
    /\ y_val p = slice_from y (split_idx X)
    /\ List.length (columns X) = List.length (feature_cols p).
Proof.
  intros Hp.
  destruct (XGBoostFacts.partitions_inv _ _ _ _ Hp)
    as (feats & Xc & X & yc & y & Hf & Hsel & Hast & Hy & Hty & ->).
  exists feats, X, yc, y.
  assert (Hwf : well_formed feats).
  { destruct (XGBoostFacts.engineer_features_inv _ _ _ _ Hf) as (pre & _ & ->).
    apply take_rows_well_formed. }
  repeat split; auto.
  - rewrite (astype_float_index _ _ Hast). eapply XGBoostFacts.select_index; eauto.
  - rewrite (traverse_length _ _ _ Hty).
    apply getitem_ok in Hy. apply dict_get_in in Hy.
    unfold well_formed in Hwf. rewrite Forall_forall in Hwf.
    apply in_map_iff in Hy. destruct Hy as [cv [<- Hin]]. now apply Hwf.
  - cbn [feature_cols].
    destruct (astype_float_ok _ _ Hast) as [_ HF].
    rewrite <- (Forall2_length HF).
    pose proof (TrainerFacts.select_columns_spec _ _ _ Hsel) as HS.
    now rewrite <- (Forall2_length HS).
Qed.

(** X8.  The split keeps rows and targets aligned and loses nothing,
    whatever the number [n] of engineered rows: the row labels of the
    training partition followed by those of the validation partition
    are the labels of the engineered frame in order, the training
    targets followed by the validation targets are the engineered
    target column (as floats), and each partition has as many targets
    as rows. *)
Theorem partitions_split_in_order
  (df : DataFrame) (date_col target_col : string) (p : Partitions) :
  partitions df date_col target_col = ok p ->
  exists feats yc,
    engineer_features df date_col target_col = ok feats
    /\ getitem feats target_col = ok yc
    /\ index feats = index (X_train p) ++ index (X_val p)
    /\ traverse to_float yc = ok (y_train p ++ y_val p)
    /\ List.length (y_train p) = len (X_train p)
    /\ List.length (y_val p) = len (X_val p).
Proof.
  intros Hp.
  destruct (partitions_shape _ _ _ _ Hp)
    as (feats & X & yc & y & Hf & Hidx & Hy & Hty & Hlen & -> & -> & -> & -> & _).
  exists feats, yc.
  assert (Hb : slice_bound y (split_idx X) = slice_bound (index X) (split_idx X)).
  { apply slice_bound_length. now rewrite Hlen, Hidx. }
  pose proof (slice_bound_le y (split_idx X)) as Hle.
  assert (HX : len X = len feats) by (unfold len; now rewrite Hidx).
  repeat split; auto.
  - rewrite <- Hidx. apply iloc_index_split.
  - unfold slice_to, slice_from. now rewrite firstn_skipn.
  - rewrite iloc_to_len. unfold slice_to. rewrite length_firstn. lia.
  - rewrite iloc_from_len. unfold slice_from. rewrite length_skipn. lia.
Qed.

Lemma partitions_split_in_order_witness :
  let df := Examples.hourly_record 200 in
  let p := Examples.partitions_of df in
  exists feats yc,
    engineer_features df DATE_COLUMN TARGET_COLUMN = ok feats
    /\ getitem feats TARGET_COLUMN = ok yc
    /\ index feats = index (X_train p) ++ index (X_val p)
    /\ traverse to_float yc = ok (y_train p ++ y_val p)
    /\ List.length (y_train p) = len (X_train p)
    /\ List.length (y_val p) = len (X_val p).
Proof.
  cbv zeta.
  apply (partitions_split_in_order (Examples.hourly_record 200)
           DATE_COLUMN TARGET_COLUMN).
  apply get_is_ok. vm_compute. reflexivity.
Defined.

Lemma short_split_bound {C} (F : Frame C) :
  (len F < 720)%nat -> slice_bound (index F) (split_idx F) = (2 * len F - 720)%nat.
Proof.
  intros H. unfold slice_bound, split_idx, VALIDATION_HOURS, VALIDATION_DAYS.
  fold (len F).
  replace (Z.of_nat (len F) - 30 * 24 <? 0) with true by (symmetry; apply Z.ltb_lt; lia).
  lia.
Qed.

(** X9.  With fewer than 720 engineered rows the split index is
    negative and counts from the end: of [n] engineered rows the
    training partition gets the first [2n - 720] (none up to
    [n = 360]) and the validation partition the remaining ones, which
    are then fewer than 720. *)
Theorem short_history_split_sizes
  (df : DataFrame) (date_col target_col : string)
  (feats : DataFrame) (p : Partitions) :
  engineer_features df date_col target_col = ok feats ->
  partitions df date_col target_col = ok p ->
  (len feats < 720)%nat ->
  len (X_train p) = (2 * len feats - 720)%nat
  /\ len (X_val p) = (len feats - (2 * len feats - 720))%nat
  /\ (len (X_val p) < 720)%nat.
Proof.
  intros Hf Hp Hn.
  destruct (partitions_shape _ _ _ _ Hp)
    as (feats' & X & yc & y & Hf' & Hidx & _ & _ & _ & -> & -> & _).
  rewrite Hf in Hf'. injection Hf' as <-.
  assert (HX : len X = len feats) by (unfold len; now rewrite Hidx).
  rewrite iloc_to_len, iloc_from_len, short_split_bound by lia.
  rewrite HX. lia.
Qed.

Lemma short_history_split_sizes_witness :
  let df := Examples.hourly_record 568 in
  let feats := Examples.feats_of df in
  let p := Examples.partitions_of df in
  len (X_train p) = (2 * len feats - 720)%nat
  /\ len (X_val p) = (len feats - (2 * len feats - 720))%nat
  /\ (len (X_val p) < 720)%nat.
Proof.
  cbv zeta.
  apply (short_history_split_sizes (Examples.hourly_record 568)
           DATE_COLUMN TARGET_COLUMN).
  - apply get_is_ok. vm_compute. reflexivity.
  - apply get_is_ok. vm_compute. reflexivity.
  - apply Nat.ltb_lt. vm_compute. reflexivity.
Defined.

(** X10.  When at most 360 rows survive feature engineering, the
    training partition is empty and [train_xgboost] raises the
    scaler's [ValueError] (no sample to fit on), provided the feature
    and target cells are numbers so that the partitions are built. *)
Theorem train_xgboost_fails_below_361_rows
  (sqrt : Q -> Q)
  (XGBRegressor_fit : list (list Q) -> list Q -> list (list Q) * list Q -> Service.Predictor)
  (df : DataFrame) (date_col target_col : string)
  (feats : DataFrame) (p : Partitions) :
  engineer_features df date_col target_col = ok feats ->
  partitions df date_col target_col = ok p ->
  (len feats <= 360)%nat ->
  train_xgboost sqrt XGBRegressor_fit df date_col target_col
  = raise (ValueError Sklearn.no_samples).
Proof.
  intros Hf Hp Hn.
  destruct (partitions_shape _ _ _ _ Hp)
    as (feats' & X & yc & y & Hf' & Hidx & _ & _ & _ & HXt & _).
  rewrite Hf in Hf'. injection Hf' as <-.
  assert (HX : len X = len feats) by (unfold len; now rewrite Hidx).
  unfold train_xgboost. rewrite Hp. cbn [bind ok].
  rewrite values_nil; [reflexivity|].
  rewrite HXt, iloc_to_len, short_split_bound by lia. lia.
Qed.

Lemma train_xgboost_fails_below_361_rows_witness :
  train_xgboost Examples.sqrt0 Examples.fit0 (Examples.hourly_record 528)
    DATE_COLUMN TARGET_COLUMN
  = raise (ValueError Sklearn.no_samples).
Proof.
  apply (train_xgboost_fails_below_361_rows Examples.sqrt0 Examples.fit0
           (Examples.hourly_record 528) DATE_COLUMN TARGET_COLUMN
           (Examples.feats_of (Examples.hourly_record 528))
           (Examples.partitions_of (Examples.hourly_record 528))).
  - apply get_is_ok. vm_compute. reflexivity.
  - apply get_is_ok. vm_compute. reflexivity.
  - apply Nat.leb_le. vm_compute. reflexivity.
Defined.

(** X11.  A record without the date column makes both trainers raise
    [KeyError] naming that column, before anything is fitted. *)
Theorem trainers_need_date_column
  (sqrt : Q -> Q)
  (XGBRegressor_fit : list (list Q) -> list Q -> list (list Q) * list Q -> Service.Predictor)
  (Prophet_fit : DataFrame -> result Service.Prophet)
  (df : DataFrame) (date_col target_col : string) :
  has_column df date_col = false ->
  train_xgboost sqrt XGBRegressor_fit df date_col target_col = raise (KeyError date_col)
  /\ ProphetTrainer.train_prophet sqrt Prophet_fit df date_col target_col
     = raise (KeyError date_col).
Proof.
  intros H.
  assert (Hg : getitem df date_col = raise (KeyError date_col)).
  { unfold getitem. destruct (dict_get date_col (columns df)) as [v|] eqn:E.
    - rewrite (DataLoaderFacts.has_column_of_get _ _ _ E) in H. discriminate.
    - reflexivity. }
  split.
  - unfold train_xgboost, partitions, engineer_features, with_features,
      add_temporal_features. rewrite Hg. reflexivity.
  - unfold ProphetTrainer.train_prophet, ProphetTrainer.prophet_frame.
    rewrite Hg. reflexivity.
Qed.

Lemma trainers_need_date_column_witness :
  train_xgboost Examples.sqrt0 Examples.fit0 (Examples.hourly_record 3)
    "timestamp" TARGET_COLUMN = raise (KeyError "timestamp")
  /\ ProphetTrainer.train_prophet Examples.sqrt0
       (fun _ => ok Examples.seasonal_model) (Examples.hourly_record 3)
       "timestamp" TARGET_COLUMN
     = raise (KeyError "timestamp").
Proof.
  apply (trainers_need_date_column Examples.sqrt0 Examples.fit0
           (fun _ => ok Examples.seasonal_model) (Examples.hourly_record 3)
           "timestamp" TARGET_COLUMN).
  reflexivity.
Defined.

(** X12.  [train_xgboost] needs the dates parsed: when the date column
    holds a cell that is neither a timestamp nor missing (a string or
    a number, as in a file read without date parsing), it raises
    [AttributeError] at the first temporal feature. *)
Theorem train_xgboost_needs_parsed_dates
  (sqrt : Q -> Q)
  (XGBRegressor_fit : list (list Q) -> list Q -> list (list Q) * list Q -> Service.Predictor)
  (df : DataFrame) (date_col target_col : string) (dates : list cell) (c : cell) :
  getitem df date_col = ok dates ->
  In c dates ->
  is_datetimelike c = false ->
  exists msg,
    train_xgboost sqrt XGBRegressor_fit df date_col target_col
    = raise (AttributeError msg).
Proof.
  intros Hg Hin Hc.
  unfold train_xgboost, partitions, engineer_features, with_features,
    add_temporal_features. rewrite Hg. cbn [bind ok]. unfold dt at 1.
  rewrite (XGBoostFacts.forallb_false_in _ _ _ Hin Hc).
  eexists. reflexivity.
Qed.

Lemma train_xgboost_needs_parsed_dates_witness :
  exists msg,
    train_xgboost Examples.sqrt0 Examples.fit0 Examples.raw_file
      DATE_COLUMN TARGET_COLUMN
    = raise (AttributeError msg).
Proof.
  apply (train_xgboost_needs_parsed_dates Examples.sqrt0 Examples.fit0
           Examples.raw_file DATE_COLUMN TARGET_COLUMN
           [Text "2016-01-11 19:00:00"; Text "n/a";
            Text "2016-01-11 17:00:00"; Text "2016-01-11 18:00:00"]
           (Text "n/a")).
  - reflexivity.
  - simpl. auto.
  - reflexivity.
Defined.

(** *** The scaler and the schema *)

Lemma iloc_to_columns_length {C} (X : Frame C) (k : Z) :
  List.length (columns (iloc_to X k)) = List.length (columns X).
Proof. unfold iloc_to. cbn [columns]. apply length_map. Qed.

Lemma fit_width sqrt (X : list (list Q)) (s : Sklearn.StandardScaler) :
  Sklearn.fit sqrt X = ok s ->
  List.length (Sklearn.mean_ s) = Sklearn.n_features X
  /\ List.length (Sklearn.var_ s) = Sklearn.n_features X
  /\ List.length (Sklearn.scale_ s) = Sklearn.n_features X.
Proof.
  unfold Sklearn.fit. destruct X as [|row X]; [discriminate|].
  intros [= <-]. cbn [Sklearn.mean_ Sklearn.var_ Sklearn.scale_].
  now rewrite !length_map, length_seq.
Qed.

Lemma values_width (X : Frame Q) :
  values X <> [] -> Sklearn.n_features (values X) = List.length (columns X).
Proof.
  unfold values. destruct (seq 0 (len X)) as [|i l]; [contradiction|].
  intros _. simpl. unfold row_at. apply length_map.
Qed.

(** X13.  The scaler [train_xgboost] returns has one mean, one
    variance and one scale per name of the schema it returns, so the
    rows the service builds from that schema have the width the scaler
    was fitted on. *)
Theorem scaler_matches_schema
  (sqrt : Q -> Q)
  (XGBRegressor_fit : list (list Q) -> list Q -> list (list Q) * list Q -> Service.Predictor)
  (df : DataFrame) (date_col target_col : string) (r : XGBoostResult) :
  train_xgboost sqrt XGBRegressor_fit df date_col target_col = ok r ->
  List.length (Sklearn.mean_ (scaler r)) = List.length (feature_names r)
  /\ List.length (Sklearn.var_ (scaler r)) = List.length (feature_names r)
  /\ List.length (Sklearn.scale_ (scaler r)) = List.length (feature_names r).
Proof.
  intros H.
  destruct (train_xgboost_partitions _ _ _ _ _ _ H) as [p Hp].
  destruct (TrainerFacts.train_xgboost_inv _ _ _ _ _ _ _ H Hp) as (Hfit & _ & _ & ->).
  destruct (partitions_shape _ _ _ _ Hp)
    as (feats & X & yc & y & _ & _ & _ & _ & _ & HXt & _ & _ & _ & Hw).
  assert (Hne : values (X_train p) <> []).
  { intros E. rewrite E in Hfit. discriminate. }
  destruct (fit_width _ _ _ Hfit) as (H1 & H2 & H3).
  rewrite (values_width _ Hne) in H1, H2, H3.
  rewrite HXt, iloc_to_columns_length, Hw in H1, H2, H3. auto.
Qed.

Lemma scaler_matches_schema_witness :
  let r := Examples.trained_on (Examples.hourly_record 530) in
  List.length (Sklearn.mean_ (scaler r)) = List.length (feature_names r)
  /\ List.length (Sklearn.var_ (scaler r)) = List.length (feature_names r)
  /\ List.length (Sklearn.scale_ (scaler r)) = List.length (feature_names r).
Proof.
  apply (scaler_matches_schema Examples.sqrt0 Examples.fit0
           (Examples.hourly_record 530) DATE_COLUMN TARGET_COLUMN).
  apply small_training_run.
Defined.

(** X14.  [train_prophet] reads the row labels, the date column and
    the target column only: on two records that agree on these it
    gives the same result (the same model and metrics, or the same
    error), whatever their other columns hold. *)
Theorem train_prophet_ignores_other_columns
  (sqrt : Q -> Q) (Prophet_fit : DataFrame -> result Service.Prophet)
  (df1 df2 : DataFrame) (date_col target_col : string) :
  index df1 = index df2 ->
  getitem df1 date_col = getitem df2 date_col ->
  getitem df1 target_col = getitem df2 target_col ->
  ProphetTrainer.train_prophet sqrt Prophet_fit df1 date_col target_col
  = ProphetTrainer.train_prophet sqrt Prophet_fit df2 date_col target_col.
Proof.
  intros Hi Hd Ht.
  unfold ProphetTrainer.train_prophet, ProphetTrainer.prophet_frame.
  now rewrite Hi, Hd, Ht.
Qed.

Lemma train_prophet_ignores_other_columns_witness :
  ProphetTrainer.train_prophet Examples.sqrt0 (fun _ => ok Examples.seasonal_model)
    (Examples.hourly_record 5) DATE_COLUMN TARGET_COLUMN
  = ProphetTrainer.train_prophet Examples.sqrt0 (fun _ => ok Examples.seasonal_model)
      (Examples.perturbed_record 2 5) DATE_COLUMN TARGET_COLUMN.
Proof.
  apply (train_prophet_ignores_other_columns Examples.sqrt0
           (fun _ => ok Examples.seasonal_model)
           (Examples.hourly_record 5) (Examples.perturbed_record 2 5)
           DATE_COLUMN TARGET_COLUMN); reflexivity.
Defined.

(** *** The seasonal trainer on a short history *)

Lemma float_cells (l y : list cell) :
  traverse ProphetTrainer.float_cell l = ok y ->
  Forall (fun c => c = NA \/ exists q, c = Float q) y.
Proof.
  revert y. induction l as [|c l IH]; simpl; intros y H.
  - injection H as <-. constructor.
  - destruct (ProphetTrainer.float_cell c) as [e|c'] eqn:Ec; [discriminate|].
    destruct (traverse ProphetTrainer.float_cell l) as [e|y'] eqn:El; [discriminate|].
    injection H as <-. constructor; [|now apply IH].
    destruct c; cbn in Ec; try discriminate; injection Ec as <-; eauto.
Qed.

Lemma to_float_of_float_cells (l : list cell) :
  Forall (fun c => c = NA \/ exists q, c = Float q) l ->
  (exists qs, traverse to_float l = ok qs)
  \/ (exists msg, traverse to_float l = raise (ValueError msg)).
Proof.
  induction 1 as [|c l Hc Hl IH]; simpl.
  - left. eexists. reflexivity.
  - destruct Hc as [->|[q ->]]; simpl.
    + right. eexists. reflexivity.
    + destruct IH as [[qs ->]|[msg ->]].
      * left. eexists. reflexivity.
      * right. eexists. reflexivity.
Qed.

(** X27.  [train_prophet] cannot score a record of 361 to 719 rows:
    the split index is negative, the slice of the forecast that should
    cover the validation rows ends at position 0 and is empty, and the
    error metric raises [ValueError] on the unequal lengths (or on a
    missing validation target), after the model has been fitted.  No
    seasonal model is returned for such a record. *)
Theorem train_prophet_rejects_361_to_719_rows
  (sqrt : Q -> Q) (Prophet_fit : DataFrame -> result Service.Prophet)
  (df : DataFrame) (date_col target_col : string)
  (prophet_df : DataFrame) (m : Service.Prophet) :
  well_formed df ->
  (360 < len df < 720)%nat ->
  ProphetTrainer.prophet_frame df date_col target_col = ok prophet_df ->
  Prophet_fit (iloc_to prophet_df (split_idx prophet_df)) = ok m ->
  exists msg,
    ProphetTrainer.train_prophet sqrt Prophet_fit df date_col target_col
    = raise (ValueError msg).
Proof.
  intros Hw Hn Hpf Hfit.
  unfold ProphetTrainer.train_prophet. rewrite Hpf. cbn [bind ok].
  rewrite Hfit. cbn [bind ok].
  unfold ProphetTrainer.prophet_frame in Hpf.
  inv_bind Hpf. rename a into ds. rename E into Hds.
  inv_bind Hpf. rename a into target. rename E into Ht.
  inv_bind Hpf. rename a into y. rename E into Hy.
  injection Hpf as <-.
  assert (Hlen : List.length y = len df).
  { rewrite (traverse_length _ _ _ Hy).
    apply getitem_ok in Ht. apply dict_get_in in Ht.
    unfold well_formed in Hw. rewrite Forall_forall in Hw.
    apply in_map_iff in Ht. destruct Ht as [cv [<- Hin]]. now apply Hw. }
  set (pf := mkFrame (index df) [("ds", ds); ("y", y)]).
  assert (Hlpf : len pf = len df) by reflexivity.
  assert (Hb : slice_bound (index pf) (split_idx pf) = (2 * len df - 720)%nat).
  { rewrite short_split_bound; rewrite Hlpf; lia. }
  rewrite (XGBoostFacts.iloc_from_getitem pf _ "y" y) by reflexivity.
  cbn [bind ok]. rewrite Hb.
  destruct (to_float_of_float_cells (skipn (2 * len df - 720) y)) as [[qs Hq]|[msg Hq]].
  { apply Forall_forall. intros c Hc.
    assert (Hin : In c y)
      by (rewrite <- (firstn_skipn (2 * len df - 720) y); apply in_or_app; now right).
    pose proof (float_cells _ _ Hy) as Hf. rewrite Forall_forall in Hf. auto. }
  - rewrite Hq. cbn [bind ok].
    assert (Hlq : List.length qs = (720 - len df)%nat).
    { rewrite (traverse_length _ _ _ Hq), length_skipn. lia. }
    assert (Hk : split_idx pf + Z.of_nat (List.length qs) = 0).
    { unfold split_idx, VALIDATION_HOURS, VALIDATION_DAYS. rewrite Hlpf, Hlq. lia. }
    rewrite Hk.
    assert (He : forall l k, @slice_range Q l k 0 = []).
    { intros l k. unfold slice_range.
      replace (slice_bound l 0) with O; [now rewrite skipn_nil|].
      unfold slice_bound. cbn. lia. }
    rewrite He. unfold Sklearn.mean_absolute_error, Sklearn.check_targets.
    replace (Nat.eqb (List.length qs) (List.length (@nil Q))) with false.
    + eexists. reflexivity.
    + symmetry. apply Nat.eqb_neq. cbn. lia.
  - rewrite Hq. eexists. reflexivity.
Qed.

Lemma train_prophet_rejects_361_to_719_rows_witness :
  exists msg,
    ProphetTrainer.train_prophet Examples.sqrt0 Scenarios.fit_seasonal
      (Examples.hourly_record 500) DATE_COLUMN TARGET_COLUMN
    = raise (ValueError msg).
Proof.
  apply (train_prophet_rejects_361_to_719_rows Examples.sqrt0 Scenarios.fit_seasonal
           (Examples.hourly_record 500) DATE_COLUMN TARGET_COLUMN
           (Examples.prophet_frame_of (Examples.hourly_record 500))
           (get Examples.seasonal_model
              (Scenarios.fit_seasonal
                 (iloc_to (Examples.prophet_frame_of (Examples.hourly_record 500))
                    (split_idx (Examples.prophet_frame_of (Examples.hourly_record 500))))))).
  - apply TrainerFacts.record_with_well_formed.
  - split; apply Nat.ltb_lt; vm_compute; reflexivity.
  - apply get_is_ok. vm_compute. reflexivity.
  - reflexivity.
Defined.

End TrainerBehaviour.

(** ** Data preparation: what happens to the rows *)

Module DataLoaderBehaviour.
Import Constants DataLoader DataLoaderSpec ServiceShape.

Lemma dict_set_absent {V} (k : string) (v : V) (d : dict V) :
  dict_get k d = None -> dict_set k v d = d ++ [(k, v)].
Proof.
  induction d as [|[k' v'] d IH]; simpl; [reflexivity|].
  destruct (String.eqb k k'); [discriminate|].
  intros H. now rewrite IH.
Qed.

Lemma has_column_false {C} (df : Frame C) (c : string) :
  has_column df c = false -> dict_get c (columns df) = None.
Proof.
  intros H. destruct (dict_get c (columns df)) as [v|] eqn:E; [|reflexivity].
  rewrite (DataLoaderFacts.has_column_of_get _ _ _ E) in H. discriminate.
Qed.

Lemma setitem_well_formed {C} (df : Frame C) (c : string) (v : list C) :
  well_formed df -> List.length v = len df -> well_formed (setitem df c v).
Proof.
  unfold well_formed, setitem, len. cbn [columns index].
  intros Hw Hv. induction (columns df) as [|[k' v'] d IH]; simpl.
  - constructor; auto.
  - inversion Hw; subst. destruct (String.eqb c k'); constructor; auto.
Qed.

Lemma increasing_sorted (l : list Z) : StronglySorted Z.lt l -> Sorted Z.le l.
Proof.
  intros H. apply StronglySorted_Sorted.
  induction H as [|a l Hs IH Ha]; constructor; auto.
  eapply Forall_impl; [|exact Ha]. intros; simpl in *; lia.
Qed.

Lemma increasing_NoDup (l : list Z) : StronglySorted Z.lt l -> NoDup l.
Proof.
  intros H. induction H as [|a l Hs IH Ha]; constructor; auto.
  intros Hin. rewrite Forall_forall in Ha. specialize (Ha a Hin). lia.
Qed.

Lemma hourly_from_increasing start n : StronglySorted Z.lt (hourly_from start n).
Proof.
  unfold hourly_from.
  erewrite map_ext; [apply (ServiceFacts.hourly_points_increasing start 0 n)|].
  intros i. reflexivity.
Qed.

Lemma date_range_timestamps start n :
  date_range start n = map Timestamp (hourly_from start n).
Proof. unfold date_range, hourly_from. now rewrite map_map. Qed.

Lemma take_take (d : cell) (col : list cell) (kept : list nat) (order : list nat) :
  (forall k, In k order -> (k < List.length kept)%nat) ->
  map (fun k => nth k (map (fun i => nth i col d) kept) d) order
  = map (fun i => nth i col d) (map (fun k => nth k kept O) order).
Proof.
  intros Hb. rewrite map_map. apply map_ext_in. intros k Hk.
  rewrite (nth_indep _ d (nth (nth O kept O) col d)) by (rewrite length_map; auto).
  now rewrite (map_nth (fun i => nth i col d)) with (d := nth O kept O),
    (nth_indep kept _ O) by auto.
Qed.

Section Rows.
Variable parse_text : string -> option Z.
Variable parse_number : Q -> option Z.
Variable argsort : list Z -> list nat.
Hypothesis Hsort : argsort_spec argsort.

(** Preparation keeps the columns of the file (and adds the date
    column when it is missing). *)
Lemma prepare_has_column (df out : DataFrame) (c : string) :
  prepare parse_text parse_number argsort df = ok out ->
  c <> DATE_COLUMN ->
  has_column out c = has_column df c.
Proof.
  intros H Hc. unfold prepare in H.
  set (df1 := if has_column df DATE_COLUMN then df
              else setitem df DATE_COLUMN (date_range default_start (len df))) in H.
  assert (H1 : has_column df1 c = has_column df c).
  { unfold df1. destruct (has_column df DATE_COLUMN); [reflexivity|].
    unfold has_column, column_names, setitem. cbn [columns].
    rewrite XGBoostFacts.dict_set_names.
    now rewrite (XGBoostFacts.eqb_false_of_neq _ _ Hc). }
  inv_bind H. rename a into dates.
  inv_bind H. rename a into df3. rename E0 into Hdrop.
  inv_bind H. rename a into df4. rename E0 into Hsorted.
  injection H as <-.
  unfold dropna_subset in Hdrop. inv_bind Hdrop. injection Hdrop as <-.
  unfold sort_values in Hsorted. inv_bind Hsorted. injection Hsorted as <-.
  unfold has_column, reset_index. cbn [columns column_names].
  unfold column_names, take_rows. cbn [columns].
  rewrite !map_map. cbn [fst].
  fold (column_names df). fold (has_column df c). rewrite <- H1.
  unfold has_column, column_names, setitem. cbn [columns].
  rewrite (map_ext _ fst) by reflexivity.
  rewrite XGBoostFacts.dict_set_names.
  now rewrite (XGBoostFacts.eqb_false_of_neq _ _ Hc).
Qed.

(** X15.  When the file has no date column, hourly dates from
    2023-01-01T00:00 are synthesized in row order: the prepared
    frame is the file's frame (well formed, as read from a CSV) with
    that date column appended, its rows in the order of the file and
    relabelled 0, 1, 2, ...; no row is dropped or moved. *)
Theorem prepare_synthesizes_hourly_dates (df : DataFrame) :
  has_column df DATE_COLUMN = false ->
  well_formed df ->
  prepare parse_text parse_number argsort df
  = ok (mkFrame (map Z.of_nat (seq 0 (len df)))
          (columns df
           ++ [(DATE_COLUMN,
                map (fun i => Timestamp (Datetime.make 2023 1 1 0 0 0 0
                                         + Datetime.timedelta_hours (Z.of_nat i)))
                    (seq 0 (len df)))])).
Proof.
  intros Hno Hw. unfold prepare. rewrite Hno.
  set (ts := hourly_from default_start (len df)).
  set (F := setitem df DATE_COLUMN (date_range default_start (len df))).
  assert (Hlen : List.length ts = len F).
  { unfold ts, hourly_from, F, setitem, len. cbn [index].
    now rewrite length_map, length_seq. }
  assert (HlenF : len F = len df) by reflexivity.
  assert (Hg : getitem F DATE_COLUMN = ok (map Timestamp ts)).
  { apply getitem_ok. unfold F, setitem. cbn [columns].
    rewrite dict_get_set_same. now rewrite date_range_timestamps. }
  assert (HwF : well_formed F).
  { apply setitem_well_formed; auto.
    unfold date_range. now rewrite length_map, length_seq. }
  rewrite Hg. cbn [bind ok].
  rewrite DataLoaderFacts.to_datetime_timestamps.
  assert (Hset : setitem F DATE_COLUMN (map Timestamp ts) = F).
  { pose proof (proj1 (getitem_ok _ _ _) Hg) as Hd.
    unfold setitem. rewrite (DataLoaderFacts.dict_set_same _ _ _ Hd). now destruct F. }
  rewrite Hset, (DataLoaderFacts.dropna_subset_timestamps F _ ts Hg Hlen HwF).
  cbn [bind ok].
  rewrite (DataLoaderFacts.sort_values_timestamps argsort Hsort F _ ts Hg Hlen).
  rewrite (DataLoaderFacts.argsort_distinct argsort Hsort ts)
    by (apply increasing_sorted || apply increasing_NoDup;
        apply hourly_from_increasing).
  rewrite Hlen, (DataLoaderFacts.take_rows_all F HwF). cbn [bind ok].
  unfold reset_index. rewrite HlenF. unfold F, setitem. cbn [columns].
  rewrite (dict_set_absent _ _ _ (has_column_false _ _ Hno)).
  reflexivity.
Qed.

(** X16.  Preparation moves whole rows and loses none that has a
    date: the prepared frame is the raw frame with its dates parsed,
    read at a list of positions that is a permutation of the
    positions of the rows whose date parsed, every column at the
    same positions, with the rows relabelled 0, 1, 2, ...  So the
    number of prepared rows is the number of rows with a date, and
    no row mixes cells of two raw rows. *)
Theorem prepare_moves_whole_rows (df : DataFrame) (raw_dates : list cell) :
  getitem df DATE_COLUMN = ok raw_dates ->
  let dates := to_datetime parse_text parse_number raw_dates in
  let dated := filter (notna_at [dates]) (seq 0 (len df)) in
  exists positions,
    Permutation positions dated
    /\ prepare parse_text parse_number argsort df
       = ok (mkFrame (map Z.of_nat (seq 0 (List.length dated)))
               (map (fun cv => (fst cv, map (fun i => nth i (snd cv) NA) positions))
                    (columns (setitem df DATE_COLUMN dates)))).
Proof.
  intros Hg dates dated.
  pose proof (proj1 (getitem_ok _ _ _) Hg) as Hd.
  unfold prepare. rewrite (DataLoaderFacts.has_column_of_get _ _ _ Hd), Hg.
  cbn [bind ok]. fold dates.
  set (df2 := setitem df DATE_COLUMN dates).
  assert (Hg2 : getitem df2 DATE_COLUMN = ok dates).
  { apply getitem_ok. unfold df2, setitem. cbn [columns]. apply dict_get_set_same. }
  unfold dropna_subset. rewrite Hg2. cbn [bind ok].
  change (len df2) with (len df). fold dated.
  set (df3 := take_rows NA df2 dated).
  set (ts := map (fun i => timestamp_key (nth i dates NA)) dated).
  assert (Hg3 : getitem df3 DATE_COLUMN = ok (map Timestamp ts)).
  { apply getitem_ok in Hg2. apply getitem_ok. unfold df3, take_rows. cbn [columns].
    rewrite (dict_get_map_values (fun v => map (fun i => nth i v NA) dated)), Hg2.
    cbn [option_map]. f_equal.
    apply (DataLoaderFacts.parsed_dates_kept parse_text parse_number raw_dates). }
  assert (Hl3 : List.length ts = len df3).
  { unfold ts, df3, take_rows, len. cbn [index]. now rewrite !length_map. }
  assert (Hlt : List.length ts = List.length dated)
    by (unfold ts; now rewrite length_map).
  rewrite (DataLoaderFacts.sort_values_timestamps argsort Hsort df3 _ ts Hg3 Hl3).
  cbn [bind ok].
  exists (map (fun k => nth k dated O) (argsort ts)). split.
  - apply Permutation_trans
      with (map (fun k => nth k dated O) (seq 0 (List.length dated))).
    + apply Permutation_map. rewrite <- Hlt. apply (Hsort ts).
    + rewrite take_all. apply Permutation_refl.
  - unfold reset_index, take_rows, len. cbn [index columns]. f_equal.
    f_equal.
    + now rewrite length_map, (DataLoaderFacts.argsort_length argsort Hsort), Hlt.
    + unfold df3, take_rows. cbn [columns]. rewrite map_map.
      apply map_ext. intros [c col]. cbn [fst snd]. f_equal.
      apply take_take. intros k Hk. rewrite <- Hlt.
      now apply (DataLoaderFacts.argsort_bound argsort Hsort).
Qed.

End Rows.

Lemma prepare_synthesizes_hourly_dates_witness :
  prepare Examples.parse_date Examples.parse_none Examples.argsort_stable
    Scenarios.undated_file
  = ok (mkFrame (map Z.of_nat (seq 0 (len Scenarios.undated_file)))
          (columns Scenarios.undated_file
           ++ [(DATE_COLUMN,
                map (fun i => Timestamp (Datetime.make 2023 1 1 0 0 0 0
                                         + Datetime.timedelta_hours (Z.of_nat i)))
                    (seq 0 (len Scenarios.undated_file)))])).
Proof.
  apply (prepare_synthesizes_hourly_dates Examples.parse_date Examples.parse_none
           Examples.argsort_stable DataLoaderFacts.argsort_stable_spec
           Scenarios.undated_file).
  - reflexivity.
  - repeat constructor.
Defined.

Lemma prepare_moves_whole_rows_witness :
  let dates := to_datetime Examples.parse_date Examples.parse_none
                 [Text "2016-01-11 19:00:00"; Text "n/a";
                  Text "2016-01-11 17:00:00"; Text "2016-01-11 18:00:00"] in
  let dated := filter (notna_at [dates]) (seq 0 (len Examples.raw_file)) in
  exists positions,
    Permutation positions dated
    /\ prepare Examples.parse_date Examples.parse_none Examples.argsort_stable
         Examples.raw_file
       = ok (mkFrame (map Z.of_nat (seq 0 (List.length dated)))
               (map (fun cv => (fst cv, map (fun i => nth i (snd cv) NA) positions))
                    (columns (setitem Examples.raw_file DATE_COLUMN dates)))).
Proof.
  apply (prepare_moves_whole_rows Examples.parse_date Examples.parse_none
           Examples.argsort_stable DataLoaderFacts.argsort_stable_spec
           Examples.raw_file).
  reflexivity.
Defined.

End DataLoaderBehaviour.

(** ** Pickled files and the model loader *)

Module FileFacts.
Import FileOps ModelLoader.

Lemma put_same name f old : put name f old name = f.
Proof.
  unfold put. destruct (string_dec name name) as [e|n]; [|contradiction].
  now rewrite (UIP_dec string_dec e eq_refl).
Qed.

Lemma put_other name f old n : name <> n -> put name f old n = old n.
Proof.
  intros H. unfold put. destruct (string_dec name n) as [e|_]; [contradiction|].
  reflexivity.
Qed.

Lemma load_model_pickled directory name model_name log_level obj :
  files directory name = Pickled obj ->
  load_model_from_pickle directory name model_name log_level = Some obj.
Proof. intros H. unfold load_model_from_pickle. now rewrite H. Qed.

(** [load_model_from_pickle] fails silently exactly where
    [load_pickle] raises: it returns the object [load_pickle] returns,
    and [None] when [load_pickle] raises (the file is missing, or
    reading it raises anything). *)
Lemma loader_swallows_load_errors
  (directory : Directory) (name : string)
  (description model_name log_level : string) :
  load_model_from_pickle directory name model_name log_level
  = match load_pickle directory name description with
    | inr obj => Some obj
    | inl _ => None
    end.
Proof.
  unfold load_model_from_pickle, load_pickle.
  destruct (files directory name); reflexivity.
Qed.

End FileFacts.

(** ** The application: startup and endpoints *)

Module AppFacts.
Import Constants Datetime FileOps ModelLoader EnergyAgent App AppSpec ServiceShape.

Lemma lifespan_inv models_dir setup g g' :
  lifespan models_dir setup g = inr g' ->
  forecast_service g' = Some (service_of models_dir)
  /\ xgb_model g' = Service.xgb_model (service_of models_dir)
  /\ prophet_model g' = Service.prophet_model (service_of models_dir).
Proof.
  unfold lifespan, service_of, load_xgboost_model. cbn [fst snd].
  destruct setup as [[]|agent]; try discriminate; intros [= <-]; auto.
Qed.

(** What the service answers a horizon of at least one hour. *)
Lemma service_answers (self : Service.ForecastService) (h : Z) (ux : bool) (c : Clock) :
  1 <= h ->
  if family_available self ux
  then exists values timestamps c',
         Service.forecast self h ux c
         = (inr (values, timestamps, family_name ux), c')
         /\ List.length timestamps = Z.to_nat h
         /\ Forall (fun v => (0 <= v)%Q) values
  else Service.forecast self h ux c = (inl (ValueError (family_unavailable ux)), c).
Proof.
  intros Hh. unfold family_available. destruct ux.
  - destruct (Service.xgb_model self) as [m|] eqn:Em;
      [destruct (Service.feature_names self) as [[|n ns]|] eqn:En|]; cbn.
    + unfold Service.forecast, io_bind. now rewrite Em, En.
    + rewrite (ServiceBehaviour.forecast_tree_path _ _ _ _ _ _ Em En Hh).
      eexists _, _, _. split; [reflexivity|].
      split; [apply ServiceBehaviour.stamps_length|apply ServiceFacts.np_maximum_nonneg].
    + unfold Service.forecast, io_bind. now rewrite Em, En.
    + unfold Service.forecast, io_bind. now rewrite Em.
  - destruct (Service.prophet_model self) as [m|] eqn:Em; cbn.
    + rewrite (ServiceBehaviour.forecast_seasonal_path _ _ _ _ Em).
      eexists _, _, _. split; [reflexivity|].
      split; [apply ServiceBehaviour.stamps_length|apply ServiceFacts.np_maximum_nonneg].
    + unfold Service.forecast, io_bind. now rewrite Em.
Qed.

Lemma horizon_of_bounds to_int members horizon :
  ForecastRequest.horizon_of to_int members = Some horizon -> 1 <= horizon <= 168.
Proof.
  unfold ForecastRequest.horizon_of.
  destruct (dict_get "horizon" members) as [value|]; [|intros [= <-]; lia].
  destruct (to_int value) as [h|]; [|discriminate].
  destruct ((1 <=? h) && (h <=? 168)) eqn:E; [|discriminate].
  intros [= <-]. apply andb_true_iff in E. lia.
Qed.

Lemma validate_inv to_int to_bool body request :
  ForecastRequest.validate to_int to_bool body = inr request ->
  exists members,
    body = JObject members
    /\ ForecastRequest.horizon_of to_int members = Some (ForecastRequest.horizon request)
    /\ ForecastRequest.use_xgboost_of to_bool members
       = Some (ForecastRequest.use_xgboost request).
Proof.
  unfold ForecastRequest.validate. destruct body; try discriminate.
  destruct (ForecastRequest.horizon_of to_int members) as [h|] eqn:Eh; [|discriminate].
  destruct (ForecastRequest.use_xgboost_of to_bool members) as [ux|] eqn:Eu;
    [|discriminate].
  intros [= <-]. exists members. cbn. auto.
Qed.

Lemma validate_bounds to_int to_bool body request :
  ForecastRequest.validate to_int to_bool body = inr request ->
  1 <= ForecastRequest.horizon request <= 168.
Proof.
  intros H. destruct (validate_inv _ _ _ _ H) as (members & _ & Hh & _).
  exact (horizon_of_bounds _ _ _ Hh).
Qed.

(** What the handler answers a validated request, given the service. *)
Lemma handler_answers g service request c :
  forecast_service g = Some service ->
  1 <= ForecastRequest.horizon request ->
  let h := ForecastRequest.horizon request in
  let ux := ForecastRequest.use_xgboost request in
  if family_available service ux
  then exists values timestamps c',
         forecast g request c
         = (Reply (ForecastResponse.mk values timestamps (family_name ux) h), c')
         /\ List.length timestamps = Z.to_nat h
         /\ Forall (fun v => (0 <= v)%Q) values
  else forecast g request c = (HTTPException 503 (family_unavailable ux), c).
Proof.
  intros Hs Hh h ux. unfold forecast. rewrite Hs.
  pose proof (service_answers service h ux c Hh) as H. fold h ux.
  destruct (family_available service ux).
  - destruct H as (values & ts & c' & -> & Hl & Hv). eauto 10.
  - now rewrite H.
Qed.

(** What the handler answers a validated request: status 200 or
    503. *)
Lemma handler_status g request c :
  1 <= ForecastRequest.horizon request ->
  status_of (fst (forecast g request c)) = 200
  \/ status_of (fst (forecast g request c)) = 503.
Proof.
  intros Hb. destruct (forecast_service g) as [service|] eqn:Es.
  - pose proof (handler_answers g service request c Es Hb) as H.
    cbv zeta in H. destruct (family_available service _).
    + destruct H as (v & ts & c' & -> & _). cbn. auto.
    + rewrite H. cbn. auto.
  - unfold forecast. rewrite Es. cbn. auto.
Qed.

(** X19.  After startup, a request whose body passes validation is
    answered from the files found in the models directory: when those
    of the requested family load (the tree model and a non-empty list
    of feature names, with or without the scaler; or the seasonal
    model), the answer is a body carrying the requested horizon, that
    many timestamps, non-negative values and the name of the requested
    family; otherwise it is status 503 with the message naming that
    family, the clock unread.  The other family's files play no
    part. *)
Theorem forecast_endpoint_answers
  (to_int : json -> option Z) (to_bool : json -> option bool)
  (models_dir : Directory) (setup : outcome AgentExecutor) (g g' : Globals)
  (body : json) (request : ForecastRequest.t) (c : Clock) :
  lifespan models_dir setup g = inr g' ->
  ForecastRequest.validate to_int to_bool body = inr request ->
  let h := ForecastRequest.horizon request in
  let ux := ForecastRequest.use_xgboost request in
  if family_loaded models_dir ux
  then exists values timestamps c',
         post_forecast to_int to_bool g' (Some body) c
         = (Reply (ForecastResponse.mk values timestamps (family_name ux) h), c')
         /\ List.length timestamps = Z.to_nat h
         /\ Forall (fun v => (0 <= v)%Q) values
  else post_forecast to_int to_bool g' (Some body) c
       = (HTTPException 503 (family_unavailable ux), c).
Proof.
  intros Hl Hv h ux. unfold post_forecast. rewrite Hv.
  destruct (lifespan_inv _ _ _ _ Hl) as (Hs & _).
  apply (handler_answers g' _ request c Hs).
  apply (validate_bounds _ _ _ _ Hv).
Qed.

Lemma forecast_endpoint_answers_witness :
  let body := JObject [("horizon", JInt 3); ("use_xgboost", JBool false)] in
  let g' := Scenarios.started Scenarios.seasonal_models in
  exists values timestamps c',
    post_forecast Scenarios.to_int Scenarios.to_bool g' (Some body) Examples.clock0
    = (Reply (ForecastResponse.mk values timestamps (family_name false) 3), c')
    /\ List.length timestamps = Z.to_nat 3
    /\ Forall (fun v => (0 <= v)%Q) values.
Proof.
  exact (forecast_endpoint_answers Scenarios.to_int Scenarios.to_bool
           Scenarios.seasonal_models
           (inl (ConnectionError "Could not connect to Ollama")) not_started
           (Scenarios.started Scenarios.seasonal_models)
           (JObject [("horizon", JInt 3); ("use_xgboost", JBool false)])
           (ForecastRequest.mk 3 false) Examples.clock0 eq_refl eq_refl).
Defined.

(** X20.  Whatever the state of the application and the request,
    [POST /forecast] answers with status 200, 422 or 503, never 500
    (the methods of the loaded artifacts being taken to return).  It
    answers 422 exactly when the request carries no JSON object, or
    the object gives a horizon that pydantic does not convert to an
    integer from 1 to 168, or a [use_xgboost] that it does not convert
    to a boolean. *)
Theorem forecast_endpoint_status_codes
  (to_int : json -> option Z) (to_bool : json -> option bool)
  (g : Globals) (body : option json) (c : Clock) :
  let s := status_of (fst (post_forecast to_int to_bool g body c)) in
  (s = 200 \/ s = 422 \/ s = 503)
  /\ (s = 422 <->
      forall members, body = Some (JObject members) ->
        (exists value,
            dict_get "horizon" members = Some value
            /\ forall h, to_int value = Some h -> h < 1 \/ 168 < h)
        \/ (exists value,
               dict_get "use_xgboost" members = Some value /\ to_bool value = None)).
Proof.
  cbv zeta. unfold post_forecast.
  destruct body as [body|];
    [|cbn; split; [auto|]; split; [intros _ members; discriminate|reflexivity]].
  destruct (ForecastRequest.validate to_int to_bool body) as [field|request] eqn:Ev.
  - cbn. split; [auto|]. split; [intros _|reflexivity].
    intros members [= ->]. unfold ForecastRequest.validate in Ev.
    unfold ForecastRequest.horizon_of, ForecastRequest.use_xgboost_of in Ev.
    destruct (dict_get "horizon" members) as [hv|] eqn:Eh.
    + destruct (to_int hv) as [h|] eqn:Ei.
      * destruct ((1 <=? h) && (h <=? 168)) eqn:E.
        -- right. destruct (dict_get "use_xgboost" members) as [uv|] eqn:Eu;
             [|discriminate].
           exists uv. split; [reflexivity|].
           destruct (to_bool uv); [discriminate|reflexivity].
        -- left. exists hv. split; [reflexivity|]. intros h'. rewrite Ei.
           intros [= <-].
           apply andb_false_iff in E.
           destruct E as [E|E]; apply Z.leb_gt in E; lia.
      * left. exists hv. split; [reflexivity|]. intros h'. rewrite Ei. discriminate.
    + right. destruct (dict_get "use_xgboost" members) as [uv|] eqn:Eu;
        [|discriminate].
      exists uv. split; [reflexivity|].
      destruct (to_bool uv); [discriminate|reflexivity].
  - pose proof (validate_bounds _ _ _ _ Ev) as Hb.
    pose proof (handler_status g request c (proj1 Hb)) as Hs.
    split; [tauto|]. split.
    + intros E. rewrite E in Hs. destruct Hs; discriminate.
    + intros H. exfalso.
      destruct (validate_inv _ _ _ _ Ev) as (members & -> & Hh & Hu).
      unfold ForecastRequest.horizon_of in Hh.
      unfold ForecastRequest.use_xgboost_of in Hu.
      destruct (H members eq_refl) as [(value & Hd & Hout)|(value & Hd & Hnone)].
      * rewrite Hd in Hh. destruct (to_int value) as [h|]; [|discriminate].
        destruct ((1 <=? h) && (h <=? 168)) eqn:E; [|discriminate].
        apply andb_true_iff in E. specialize (Hout h eq_refl). lia.
      * rewrite Hd, Hnone in Hu. discriminate.
Qed.

(** X21.  When [GET /health] reports after startup that no model is
    loaded, no forecast is served: every [POST /forecast] is answered
    with status 503 or 422.  ([models_loaded] looks at the tree model
    and the seasonal model only.) *)
Theorem no_model_no_forecast
  (to_int : json -> option Z) (to_bool : json -> option bool)
  (models_dir : Directory) (setup : outcome AgentExecutor) (g g' : Globals) (c : Clock)
  (body : option json) (c' : Clock) :
  lifespan models_dir setup g = inr g' ->
  models_loaded (fst (health_check g' c)) = false ->
  status_of (fst (post_forecast to_int to_bool g' body c')) = 503
  \/ status_of (fst (post_forecast to_int to_bool g' body c')) = 422.
Proof.
  intros Hl Hh.
  destruct (lifespan_inv _ _ _ _ Hl) as (Hs & Hx & Hp).
  unfold health_check in Hh. cbn in Hh. rewrite Hx, Hp in Hh.
  apply orb_false_iff in Hh. destruct Hh as [Hm Hpm].
  unfold post_forecast. destruct body as [body|]; [|cbn; auto].
  destruct (ForecastRequest.validate to_int to_bool body) as [field|request] eqn:Ev;
    [cbn; auto|].
  pose proof (handler_answers g' _ request c' Hs
                (proj1 (validate_bounds _ _ _ _ Ev))) as H.
  cbv zeta in H.
  assert (E : family_available (service_of models_dir)
                (ForecastRequest.use_xgboost request) = false).
  { unfold family_available. destruct (ForecastRequest.use_xgboost request).
    - now rewrite Hm.
    - exact Hpm. }
  rewrite E in H. rewrite H. cbn. auto.
Qed.

Lemma no_model_no_forecast_witness :
  let g' := Scenarios.started Scenarios.empty_models in
  let body := Some (JObject []) in
  status_of (fst (post_forecast Scenarios.to_int Scenarios.to_bool g' body
                    Examples.clock0)) = 503
  \/ status_of (fst (post_forecast Scenarios.to_int Scenarios.to_bool g' body
                       Examples.clock0)) = 422.
Proof.
  exact (no_model_no_forecast Scenarios.to_int Scenarios.to_bool Scenarios.empty_models
           (inl (ConnectionError "Could not connect to Ollama")) not_started
           (Scenarios.started Scenarios.empty_models) Examples.clock0
           (Some (JObject [])) Examples.clock0 eq_refl eq_refl).
Defined.

(** X18.  [GET /health] can report loaded models while no forecast
    can be served: [models_loaded] is true as soon as the tree model
    loads, but when the feature names are missing or empty and there
    is no seasonal model, every [POST /forecast] whose body passes
    validation is answered with status 503. *)
Theorem health_reports_a_model_that_cannot_serve
  (to_int : json -> option Z) (to_bool : json -> option bool)
  (models_dir : Directory) (setup : outcome AgentExecutor) (g g' : Globals)
  (m : Service.Predictor) (body : json) (request : ForecastRequest.t)
  (c c' : Clock) :
  lifespan models_dir setup g = inr g' ->
  fst (fst (load_xgboost_model models_dir)) = Some m ->
  family_loaded models_dir true = false ->
  family_loaded models_dir false = false ->
  ForecastRequest.validate to_int to_bool body = inr request ->
  models_loaded (fst (health_check g' c)) = true
  /\ status_of (fst (post_forecast to_int to_bool g' (Some body) c')) = 503.
Proof.
  intros Hl Hm Ht Hs Hv.
  destruct (lifespan_inv _ _ _ _ Hl) as (Hsvc & Hx & Hp). split.
  - unfold health_check. cbn [fst models_loaded]. rewrite Hx.
    unfold service_of. cbn [Service.xgb_model]. rewrite Hm. reflexivity.
  - unfold post_forecast. rewrite Hv.
    pose proof (handler_answers g' _ request c' Hsvc
                  (proj1 (validate_bounds _ _ _ _ Hv))) as H.
    cbv zeta in H. unfold family_loaded in Ht, Hs.
    destruct (ForecastRequest.use_xgboost request).
    + rewrite Ht in H. now rewrite H.
    + rewrite Hs in H. now rewrite H.
Qed.

Lemma health_reports_a_model_that_cannot_serve_witness :
  let g' := Scenarios.started Scenarios.tree_model_alone in
  let body := JObject [("horizon", JInt 24); ("use_xgboost", JBool true)] in
  models_loaded (fst (health_check g' Examples.clock0)) = true
  /\ status_of (fst (post_forecast Scenarios.to_int Scenarios.to_bool g' (Some body)
                       Examples.clock0)) = 503.
Proof.
  exact (health_reports_a_model_that_cannot_serve Scenarios.to_int Scenarios.to_bool
           Scenarios.tree_model_alone
           (inl (ConnectionError "Could not connect to Ollama")) not_started
           (Scenarios.started Scenarios.tree_model_alone)
           (Examples.hour_model 0)
           (JObject [("horizon", JInt 24); ("use_xgboost", JBool true)])
           (ForecastRequest.mk 24 true)
           Examples.clock0 Examples.clock0
           eq_refl eq_refl eq_refl eq_refl eq_refl).
Defined.

Lemma explain_validate_inv to_str to_float body request :
  ExplainRequest.validate to_str to_float body = inr request ->
  exists members value,
    body = JObject members
    /\ dict_get "question" members = Some value
    /\ to_str value = Some (ExplainRequest.question request)
    /\ ExplainRequest.forecast_value_of to_float members
       = Some (ExplainRequest.forecast_value request).
Proof.
  unfold ExplainRequest.validate. destruct body; try discriminate.
  unfold ExplainRequest.question_of.
  destruct (dict_get "question" members) as [value|] eqn:Eq; [|discriminate].
  destruct (to_str value) as [question|] eqn:Es; [|discriminate].
  destruct (ExplainRequest.forecast_value_of to_float members) as [v|] eqn:Ev;
    [|discriminate].
  intros [= <-]. exists members, value. cbn. auto.
Qed.

(** The bodies that [ExplainRequest] refuses. *)
Lemma explain_validate_refuses to_str to_float body :
  (forall request, ExplainRequest.validate to_str to_float body <> inr request)
  <-> (forall members, body = JObject members ->
         (forall value, dict_get "question" members = Some value -> to_str value = None)
         \/ (exists value,
                dict_get "forecast_value" members = Some value
                /\ to_float value = None)).
Proof.
  split.
  - intros H members ->. unfold ExplainRequest.validate in H.
    unfold ExplainRequest.question_of, ExplainRequest.forecast_value_of in H.
    destruct (dict_get "question" members) as [value|] eqn:Eq;
      [|left; intros value; discriminate].
    destruct (to_str value) as [question|] eqn:Es;
      [|left; intros value' [= <-]; exact Es].
    right. destruct (dict_get "forecast_value" members) as [fv|] eqn:Ef.
    + exists fv. split; [reflexivity|].
      destruct (to_float fv) as [v|]; [|reflexivity].
      exfalso. now apply (H (ExplainRequest.mk question v)).
    + exfalso. now apply (H (ExplainRequest.mk question (125 # 2)%Q)).
  - intros H request Hv.
    destruct (explain_validate_inv _ _ _ _ Hv) as (members & value & -> & Hq & Hs & Hf).
    destruct (H members eq_refl) as [Hno|(fv & Hd & Hnone)].
    + rewrite (Hno value Hq) in Hs. discriminate.
    + unfold ExplainRequest.forecast_value_of in Hf. rewrite Hd, Hnone in Hf.
      discriminate.
Qed.

(** X22.  [POST /explain] answers with status 200, 422, 500 or 503,
    and validation comes first: it answers 422 exactly when the
    request carries no JSON object, or the object has no question
    that pydantic converts to a string, or gives a forecast value
    that it does not convert to a float.  Otherwise it answers 503
    exactly when no agent was set up, and with an agent 200 exactly
    when the agent's [invoke] returns on the context built from the
    request and the first reading of the clock (500 when it
    raises). *)
Theorem explain_endpoint_status_codes
  (format_2f : Q -> string) (utcoffset : datetime -> Z)
  (to_str : json -> option string) (to_float : json -> option Q)
  (g : Globals) (body : option json) (c : Clock) :
  let s := status_of (fst (post_explain format_2f utcoffset to_str to_float g body c)) in
  let refused :=
    forall members, body = Some (JObject members) ->
      (forall value, dict_get "question" members = Some value -> to_str value = None)
      \/ (exists value,
             dict_get "forecast_value" members = Some value /\ to_float value = None) in
  (s = 200 \/ s = 422 \/ s = 500 \/ s = 503)
  /\ (s = 422 <-> refused)
  /\ (s = 503 <-> ~ refused /\ llm_agent g = None)
  /\ (s = 200 <->
      exists document request agent result,
        body = Some document
        /\ ExplainRequest.validate to_str to_float document = inr request
        /\ llm_agent g = Some agent
        /\ invoke agent
             (context_of format_2f utcoffset (ExplainRequest.forecast_value request)
                (reading c (ticks c)) (ExplainRequest.question request))
           = inr result).
Proof.
  cbv zeta. unfold post_explain. destruct body as [document|].
  - pose proof (explain_validate_refuses to_str to_float document) as Href.
    destruct (ExplainRequest.validate to_str to_float document) as [field|request] eqn:Ev.
    + assert (Hr : forall members, Some document = Some (JObject members) ->
                (forall value, dict_get "question" members = Some value ->
                               to_str value = None)
                \/ (exists value,
                       dict_get "forecast_value" members = Some value
                       /\ to_float value = None)).
      { intros members [= ->]. apply Href; [discriminate|reflexivity]. }
      cbn. split; [auto|]. split; [|split].
      * split; [intros _; exact Hr|reflexivity].
      * split; [discriminate|]. intros [H _]. contradiction.
      * split; [discriminate|].
        intros (d & r & _ & _ & [= <-] & H & _). rewrite Ev in H. discriminate.
    + assert (Hr : ~ (forall members, Some document = Some (JObject members) ->
                (forall value, dict_get "question" members = Some value ->
                               to_str value = None)
                \/ (exists value,
                       dict_get "forecast_value" members = Some value
                       /\ to_float value = None))).
      { intros H. apply (proj2 Href) with (request := request); [|reflexivity].
        intros members ->. now apply H. }
      unfold explain, generate_explanation.
      destruct (llm_agent g) as [agent|] eqn:Ea.
      * destruct (invoke agent _) as [e|result] eqn:Ei; cbn.
        -- split; [auto|]. split; [|split].
           ++ split; [discriminate|]. intros H. contradiction.
           ++ split; [discriminate|]. intros [_ H]. discriminate.
           ++ split; [discriminate|].
              intros (d & r & a & res & [= <-] & Hv & [= <-] & H).
              rewrite Ev in Hv. injection Hv as <-.
              assert (X : @inl exception (dict string) e = inr res)
                by (rewrite <- Ei; exact H).
              discriminate.
        -- split; [auto|]. split; [|split].
           ++ split; [discriminate|]. intros H. contradiction.
           ++ split; [discriminate|]. intros [_ H]. discriminate.
           ++ split; [intros _|reflexivity].
              exists document, request, agent, result. auto.
      * cbn. split; [auto|]. split; [|split].
        -- split; [discriminate|]. intros H. contradiction.
        -- split; [intros _; split; [exact Hr|reflexivity]|reflexivity].
        -- split; [discriminate|].
           intros (d & r & a & res & _ & _ & H & _). discriminate.
  - cbn. split; [auto|]. split; [|split].
    + split; [intros _ members; discriminate|reflexivity].
    + split; [discriminate|]. intros [H _]. exfalso. apply H.
      intros members. discriminate.
    + split; [discriminate|]. intros (d & r & a & res & H & _). discriminate.
Qed.

(** X23.  Startup survives a language model that cannot be reached:
    when [setup_llm_agent] raises [ConnectionError], [lifespan] still
    returns, the forecast service is the one built from the models
    directory (so [POST /forecast] answers as it does when the agent
    is set up), and [POST /explain] answers 503.  Any other exception
    of the setup ends the startup. *)
Theorem startup_without_language_model
  (models_dir : Directory) (msg : string) :
  exists g',
    lifespan models_dir (inl (ConnectionError msg)) not_started = inr g'
    /\ llm_agent g' = None
    /\ (forall to_int to_bool agent g'' body c,
           lifespan models_dir (inr agent) not_started = inr g'' ->
           post_forecast to_int to_bool g' body c
           = post_forecast to_int to_bool g'' body c)
    /\ (forall format_2f utcoffset request c,
           explain format_2f utcoffset g' request c
           = (HTTPException 503 "LLM agent not initialized.", c))
    /\ (forall e g, (forall m, e <> ConnectionError m) ->
           lifespan models_dir (inl e) g = inl e).
Proof.
  eexists. split; [reflexivity|]. split; [reflexivity|]. split; [|split].
  - intros to_int to_bool agent g'' body c [= <-]. reflexivity.
  - intros. reflexivity.
  - intros e g He. unfold lifespan, load_xgboost_model.
    destruct e; try reflexivity. exfalso. now apply (He msg0).
Qed.

End AppFacts.

(** ** Downloading the data file *)

Module DownloadFacts.
Import DownloadData.

(** X28.  [download_data] never replaces a data file: when the file
    exists it returns without a request and changes nothing.
    Otherwise it sends one request for the dataset URL.  When it
    returns, the file holds the body of the response (whose status is
    no error), and a second call changes nothing more.  When it
    raises, either no file is left (the request failed, the status is
    an error, or the file could not be opened), or the write was
    interrupted and the file holds the bytes written so far; the next
    call then returns at once and leaves that file as it is. *)
Theorem download_data_never_replaces_the_file
  (requests_get : string -> outcome Response) (w : World) :
  let (r, w') := download_data requests_get w in
  match appliances_energy_csv w with
  | Some _ => r = inr tt /\ w' = w
  | None =>
      requested w' = requested w ++ [ENERGY_DATA_URL]
      /\ match r with
         | inr _ =>
             (exists response,
                 requests_get ENERGY_DATA_URL = inr response
                 /\ appliances_energy_csv w' = Some (content response)
                 /\ ~ (400 <= status_code response < 600))
             /\ download_data requests_get w' = (inr tt, w')
         | inl e =>
             match appliances_energy_csv w' with
             | None =>
                 requests_get ENERGY_DATA_URL = inl e
                 \/ (exists response,
                        requests_get ENERGY_DATA_URL = inr response
                        /\ (raise_for_status response = inl e \/ open_wb w = Some e))
             | Some written =>
                 (exists response,
                     requests_get ENERGY_DATA_URL = inr response
                     /\ write w (content response) = Some (e, written))
                 /\ download_data requests_get w' = (inr tt, w')
             end
         end
  end.
Proof.
  unfold download_data.
  destruct (appliances_energy_csv w) as [bytes|] eqn:Ef; [auto|].
  cbn [open_wb write requested].
  destruct (requests_get url) as [e|response] eqn:Er;
    [split; [reflexivity|left; exact Er]|].
  destruct (raise_for_status response) as [e|[]] eqn:Es;
    [split; [reflexivity|right; exists response; auto]|].
  destruct (open_wb w) as [e|] eqn:Eo;
    [split; [reflexivity|right; exists response; auto]|].
  destruct (write w (content response)) as [[e written]|] eqn:Ew;
    cbn [appliances_energy_csv requested]; (split; [reflexivity|]).
  - split; [exists response; auto|reflexivity].
  - split; [|reflexivity].
    exists response. split; [exact Er|]. split; [reflexivity|].
    unfold raise_for_status in Es.
    destruct ((400 <=? status_code response) && (status_code response <? 600)) eqn:E;
      [discriminate|].
    apply andb_false_iff in E. destruct E as [E|E].
    + apply Z.leb_gt in E. lia.
    + apply Z.ltb_ge in E. lia.
Qed.

End DownloadFacts.

(** ** The training pipeline and the files it leaves *)

Module TrainFacts.
Import Constants FileOps ModelLoader Train AppSpec.

Lemma run_bind_ok {S A B} (m : Run S A) (k : A -> Run S B) s a s' :
  m s = (inr a, s') -> run_bind m k s = k a s'.
Proof. intros H. unfold run_bind. now rewrite H. Qed.

Lemma run_bind_raise {S A B} (m : Run S A) (k : A -> Run S B) s e s' :
  m s = (inl e, s') -> run_bind m k s = (inl e, s').
Proof. intros H. unfold run_bind. now rewrite H. Qed.

Lemma run_result_ok {S A} (r : result A) (a : A) (s : S) :
  r = ok a -> run_result r s = (inr a, s).
Proof. intros ->. reflexivity. Qed.

Lemma run_result_raise {S A} (r : result A) (e : exn) (s : S) :
  r = raise e -> run_result r s = (inl (Builtin e), s).
Proof. intros ->. reflexivity. Qed.

Lemma last_app_cons {A} (l : list A) (a : A) (l' : list A) (d : A) :
  last (l ++ a :: l') d = last (a :: l') d.
Proof.
  induction l as [|x l IH]; [reflexivity|].
  cbn [app]. rewrite <- IH. destruct l; reflexivity.
Qed.

Lemma save_pickle_saved name obj description d :
  writable d name ->
  save_pickle name obj description d = (inr tt, saved name obj d).
Proof. intros [Ho Hd]. unfold save_pickle. now rewrite Ho, Hd. Qed.

Lemma in_models_dir_saved name obj description w :
  writable (MODELS_DIR w) name ->
  in_models_dir (save_pickle name obj description) w
  = (inr tt, mkWorld (saved name obj (MODELS_DIR w)) (tracking w)).
Proof.
  intros H. unfold in_models_dir. now rewrite (save_pickle_saved _ _ _ _ H).
Qed.

Lemma in_models_dir_interrupted name obj description w interrupted :
  open_wb (MODELS_DIR w) name = None ->
  pickle_dump (MODELS_DIR w) name obj = Some interrupted ->
  in_models_dir (save_pickle name obj description) w
  = (inl (raised interrupted),
     mkWorld (replaced name (Unreadable (on_load interrupted)) (MODELS_DIR w))
       (tracking w)).
Proof.
  intros Ho Hd. unfold in_models_dir, save_pickle. now rewrite Ho, Hd.
Qed.

Lemma saved_same name obj d : files (saved name obj d) name = Pickled obj.
Proof. apply FileFacts.put_same. Qed.

Lemma saved_other name obj d other :
  name <> other -> files (saved name obj d) other = files d other.
Proof. apply FileFacts.put_other. Qed.

Section Pipeline.
Variable sqrt : Q -> Q.
Variable XGBRegressor_fit :
  list (list Q) -> list Q -> list (list Q) * list Q -> Service.Predictor.
Variable Prophet_fit : DataFrame -> result Service.Prophet.
Variable parse_text : string -> option Z.
Variable parse_number : Q -> option Z.
Variable argsort : list Z -> list nat.

Abbreviation load :=
  (DataLoader.load_and_prepare_data parse_text parse_number argsort) (only parsing).
Abbreviation train_prophet data :=
  (ProphetTrainer.train_prophet sqrt Prophet_fit (DataLoader.dataframe data)
     (DataLoader.date_column data) (DataLoader.target_column data)) (only parsing).
Abbreviation train_xgboost data :=
  (XGBoost.train_xgboost sqrt XGBRegressor_fit (DataLoader.dataframe data)
     (DataLoader.date_column data) (DataLoader.target_column data)) (only parsing).
Abbreviation main :=
  (Train.main sqrt XGBRegressor_fit Prophet_fit parse_text parse_number argsort)
  (only parsing).

(** A run in which both trainers return and the files can be
    written. *)
Lemma main_returns csv data pm r w :
  load csv = ok data ->
  train_prophet data = ok pm ->
  train_xgboost data = ok r ->
  (forall name, writable (MODELS_DIR w) name) ->
  main csv w
  = (inr tt,
     mkWorld (trained_models pm r (MODELS_DIR w))
       (tracking w
        ++ [set_experiment MLFLOW_EXPERIMENT_NAME;
            start_run;
            log_metrics [("prophet_mae", mae (ProphetTrainer.metrics pm));
                         ("prophet_rmse", rmse (ProphetTrainer.metrics pm))];
            log_artifact (join (MODELS_DIR w) "prophet_model.pkl") "models/prophet";
            log_metrics [("xgboost_mae", mae (XGBoost.metrics r));
                         ("xgboost_rmse", rmse (XGBoost.metrics r))];
            log_params [("n_estimators", XGBOOST_N_ESTIMATORS);
                        ("max_depth", XGBOOST_MAX_DEPTH);
                        ("learning_rate", XGBOOST_LEARNING_RATE)];
            log_artifact (join (MODELS_DIR w) "xgb_model.pkl") "models/xgboost";
            log_artifact (join (MODELS_DIR w) "xgb_scaler.pkl") "models/xgboost";
            log_artifact (join (MODELS_DIR w) "feature_names.pkl") "models/xgboost";
            end_run "FINISHED"])).
Proof.
  intros Hl Hp Hx Hw.
  unfold Train.main.
  erewrite run_bind_ok by reflexivity.
  erewrite run_bind_ok by (apply run_result_ok; exact Hl).
  unfold with_run. cbn [mlflow snd MODELS_DIR tracking].
  erewrite run_bind_ok by (apply run_result_ok; exact Hp).
  erewrite run_bind_ok by reflexivity.
  erewrite run_bind_ok by (apply in_models_dir_saved; apply Hw).
  erewrite run_bind_ok by reflexivity.
  erewrite run_bind_ok by (apply run_result_ok; exact Hx).
  erewrite run_bind_ok by reflexivity.
  erewrite run_bind_ok by reflexivity.
  erewrite run_bind_ok by (apply in_models_dir_saved; apply Hw).
  erewrite run_bind_ok by reflexivity.
  erewrite run_bind_ok by (apply in_models_dir_saved; apply Hw).
  erewrite run_bind_ok by reflexivity.
  erewrite run_bind_ok by (apply in_models_dir_saved; apply Hw).
  unfold mlflow_log_artifact, mlflow. cbn [MODELS_DIR tracking snd].
  unfold trained_models, join. cbn [path saved replaced].
  repeat rewrite <- app_assoc. reflexivity.
Qed.

Lemma trained_models_load pm r d :
  load_xgboost_model (trained_models pm r d)
  = (Some (XGBoost.model r), Some (scaler_object (XGBoost.scaler r)),
     Some (XGBoost.feature_names r))
  /\ load_prophet_model (trained_models pm r d) = Some (ProphetTrainer.model pm).
Proof.
  unfold load_xgboost_model, load_prophet_model, trained_models.
  rewrite (FileFacts.load_model_pickled _ "xgb_model.pkl" _ _ (XGBoost.model r))
    by (rewrite !saved_other by discriminate; apply saved_same).
  rewrite (FileFacts.load_model_pickled _ "xgb_scaler.pkl" _ _
             (scaler_object (XGBoost.scaler r)))
    by (rewrite saved_other by discriminate; apply saved_same).
  rewrite (FileFacts.load_model_pickled _ "feature_names.pkl" _ _
             (XGBoost.feature_names r))
    by apply saved_same.
  rewrite (FileFacts.load_model_pickled _ "prophet_model.pkl" _ _
             (ProphetTrainer.model pm))
    by (rewrite !saved_other by discriminate; apply saved_same).
  split; reflexivity.
Qed.

(** X24.  Training, then serving.  When the data loads, both
    trainers return and the model files can be written, [main]
    returns; the loader then finds in the models directory exactly
    the tree model, the scaler, the feature names and the seasonal
    model that the trainers returned; and after a startup on that
    directory every [POST /forecast] whose body passes validation is
    answered with status 200, for either family. *)
Theorem training_then_serving
  (csv : option DataFrame) (data : DataLoader.DataLoadResult)
  (pm : ProphetTrainer.ProphetModel) (r : XGBoost.XGBoostResult) (w : World) :
  load csv = ok data ->
  train_prophet data = ok pm ->
  train_xgboost data = ok r ->
  (forall name, writable (MODELS_DIR w) name) ->
  let after := main csv w in
  let models_dir := MODELS_DIR (snd after) in
  fst after = inr tt
  /\ load_xgboost_model models_dir
     = (Some (XGBoost.model r), Some (scaler_object (XGBoost.scaler r)),
        Some (XGBoost.feature_names r))
  /\ load_prophet_model models_dir = Some (ProphetTrainer.model pm)
  /\ forall to_int to_bool setup g g' body request c,
       App.lifespan models_dir setup g = inr g' ->
       ForecastRequest.validate to_int to_bool body = inr request ->
       App.status_of (fst (App.post_forecast to_int to_bool g' (Some body) c)) = 200.
Proof.
  intros Hl Hp Hx Hw after models_dir. subst after models_dir.
  rewrite (main_returns _ _ _ _ _ Hl Hp Hx Hw). cbn [fst snd MODELS_DIR].
  destruct (trained_models_load pm r (MODELS_DIR w)) as [Ex Es].
  split; [reflexivity|]. split; [exact Ex|]. split; [exact Es|].
  intros to_int to_bool setup g g' body request c Hs Hv.
  pose proof (AppFacts.lifespan_inv _ _ _ _ Hs) as (Hsvc & _).
  pose proof (AppFacts.handler_answers g' _ request c Hsvc
                (proj1 (AppFacts.validate_bounds _ _ _ _ Hv))) as H.
  cbv zeta in H.
  assert (E : family_available (service_of (trained_models pm r (MODELS_DIR w)))
                (ForecastRequest.use_xgboost request) = true).
  { unfold family_available, service_of. cbn [Service.xgb_model Service.feature_names
                                               Service.prophet_model].
    rewrite Ex, Es. cbn [fst snd Service.truthy].
    destruct (ForecastRequest.use_xgboost request); [|reflexivity].
    destruct (TrainerBehaviour.train_xgboost_partitions _ _ _ _ _ _ Hx) as [p Hpp].
    destruct (TrainerFacts.train_xgboost_inv _ _ _ _ _ _ _ Hx Hpp) as (_ & _ & _ & ->).
    destruct (XGBoostFacts.partitions_inv _ _ _ _ Hpp)
      as (feats & Xc & X & yc & y & Hf & _ & _ & _ & _ & ->).
    cbn [XGBoost.feature_cols].
    rewrite (TrainerBehaviour.feature_columns_of_record _ _ _ _ Hf).
    destruct (filter _ SENSOR_FEATURES); reflexivity. }
  rewrite E in H. destruct H as (values & ts & c' & H & _).
  unfold App.post_forecast. rewrite Hv, H. reflexivity.
Qed.

(** A run in which the seasonal trainer returns and the tree
    trainer raises. *)
Lemma main_raises_after_seasonal csv data pm e w :
  load csv = ok data ->
  train_prophet data = ok pm ->
  train_xgboost data = raise e ->
  writable (MODELS_DIR w) "prophet_model.pkl" ->
  main csv w
  = (inl (Builtin e),
     mkWorld (saved "prophet_model.pkl" (ProphetTrainer.model pm) (MODELS_DIR w))
       (tracking w
        ++ [set_experiment MLFLOW_EXPERIMENT_NAME;
            start_run;
            log_metrics [("prophet_mae", mae (ProphetTrainer.metrics pm));
                         ("prophet_rmse", rmse (ProphetTrainer.metrics pm))];
            log_artifact (join (MODELS_DIR w) "prophet_model.pkl") "models/prophet";
            end_run "FAILED"])).
Proof.
  intros Hl Hp Hx Hw.
  unfold Train.main.
  erewrite run_bind_ok by reflexivity.
  erewrite run_bind_ok by (apply run_result_ok; exact Hl).
  unfold with_run. cbn [mlflow snd MODELS_DIR tracking].
  erewrite run_bind_ok by (apply run_result_ok; exact Hp).
  erewrite run_bind_ok by reflexivity.
  erewrite run_bind_ok by (apply in_models_dir_saved; apply Hw).
  erewrite run_bind_ok by reflexivity.
  erewrite run_bind_raise by (apply run_result_raise; exact Hx).
  unfold mlflow. cbn [MODELS_DIR tracking snd].
  unfold join. cbn [path saved replaced].
  repeat rewrite <- app_assoc. reflexivity.
Qed.

(** X25.  The seasonal model is saved before the tree model is
    trained.  When the seasonal trainer returns and the tree trainer
    raises, [main] raises that exception and the run ends as
    failed, but [prophet_model.pkl] already holds the new seasonal
    model, while the three files of the tree model are as they were
    before the run. *)
Theorem failed_tree_training_keeps_new_seasonal_model
  (csv : option DataFrame) (data : DataLoader.DataLoadResult)
  (pm : ProphetTrainer.ProphetModel) (e : exn) (w : World) :
  load csv = ok data ->
  train_prophet data = ok pm ->
  train_xgboost data = raise e ->
  writable (MODELS_DIR w) "prophet_model.pkl" ->
  let after := main csv w in
  fst after = inl (Builtin e)
  /\ load_prophet_model (MODELS_DIR (snd after)) = Some (ProphetTrainer.model pm)
  /\ same_files ["xgb_model.pkl"; "xgb_scaler.pkl"; "feature_names.pkl"]
       (MODELS_DIR (snd after)) (MODELS_DIR w)
  /\ last (tracking (snd after)) start_run = end_run "FAILED".
Proof.
  intros Hl Hp Hx Hw after. subst after.
  rewrite (main_raises_after_seasonal _ _ _ _ _ Hl Hp Hx Hw).
  cbn [fst snd MODELS_DIR tracking].
  split; [reflexivity|]. split; [|split].
  - unfold load_prophet_model.
    apply (FileFacts.load_model_pickled _ "prophet_model.pkl" _ _
             (ProphetTrainer.model pm)).
    apply saved_same.
  - intros name Hin. apply saved_other. simpl in Hin.
    destruct Hin as [<-|[<-|[<-|[]]]]; discriminate.
  - rewrite last_app_cons. reflexivity.
Qed.

(** A run in which both trainers return and the dump of the tree
    model is interrupted. *)
Lemma main_raises_at_tree_model csv data pm r w interrupted :
  load csv = ok data ->
  train_prophet data = ok pm ->
  train_xgboost data = ok r ->
  writable (MODELS_DIR w) "prophet_model.pkl" ->
  open_wb (MODELS_DIR w) "xgb_model.pkl" = None ->
  pickle_dump (MODELS_DIR w) "xgb_model.pkl" (XGBoost.model r) = Some interrupted ->
  main csv w
  = (inl (raised interrupted),
     mkWorld
       (replaced "xgb_model.pkl" (Unreadable (on_load interrupted))
          (saved "prophet_model.pkl" (ProphetTrainer.model pm) (MODELS_DIR w)))
       (tracking w
        ++ [set_experiment MLFLOW_EXPERIMENT_NAME;
            start_run;
            log_metrics [("prophet_mae", mae (ProphetTrainer.metrics pm));
                         ("prophet_rmse", rmse (ProphetTrainer.metrics pm))];
            log_artifact (join (MODELS_DIR w) "prophet_model.pkl") "models/prophet";
            log_metrics [("xgboost_mae", mae (XGBoost.metrics r));
                         ("xgboost_rmse", rmse (XGBoost.metrics r))];
            log_params [("n_estimators", XGBOOST_N_ESTIMATORS);
                        ("max_depth", XGBOOST_MAX_DEPTH);
                        ("learning_rate", XGBOOST_LEARNING_RATE)];
            end_run "FAILED"])).
Proof.
  intros Hl Hp Hx Hw Ho Hd.
  unfold Train.main.
  erewrite run_bind_ok by reflexivity.
  erewrite run_bind_ok by (apply run_result_ok; exact Hl).
  unfold with_run. cbn [mlflow snd MODELS_DIR tracking].
  erewrite run_bind_ok by (apply run_result_ok; exact Hp).
  erewrite run_bind_ok by reflexivity.
  erewrite run_bind_ok by (apply in_models_dir_saved; apply Hw).
  erewrite run_bind_ok by reflexivity.
  erewrite run_bind_ok by (apply run_result_ok; exact Hx).
  erewrite run_bind_ok by reflexivity.
  erewrite run_bind_ok by reflexivity.
  erewrite run_bind_raise by (apply in_models_dir_interrupted; [exact Ho|exact Hd]).
  unfold mlflow. cbn [MODELS_DIR tracking snd].
  unfold join. cbn [path saved replaced].
  repeat rewrite <- app_assoc. reflexivity.
Qed.

(** X17.  An interrupted save destroys the file it was replacing:
    [save_pickle] opens the file, and so empties it, before
    [pickle.dump] runs.  When both trainers return and the dump of
    the tree model raises, [main] raises that exception; whatever
    [xgb_model.pkl] held before the run, [load_pickle] now raises on
    it and the loader finds no tree model; the scaler and the
    feature names are the files of before the run, while
    [prophet_model.pkl] holds the new seasonal model; and a service
    started on that directory answers every valid request for the
    tree model with status 503. *)
Theorem interrupted_save_loses_the_tree_model
  (csv : option DataFrame) (data : DataLoader.DataLoadResult)
  (pm : ProphetTrainer.ProphetModel) (r : XGBoost.XGBoostResult) (w : World)
  (interrupted : Interrupted) :
  load csv = ok data ->
  train_prophet data = ok pm ->
  train_xgboost data = ok r ->
  writable (MODELS_DIR w) "prophet_model.pkl" ->
  open_wb (MODELS_DIR w) "xgb_model.pkl" = None ->
  pickle_dump (MODELS_DIR w) "xgb_model.pkl" (XGBoost.model r) = Some interrupted ->
  let after := main csv w in
  let models_dir := MODELS_DIR (snd after) in
  fst after = inl (raised interrupted)
  /\ load_pickle models_dir "xgb_model.pkl" "XGBoost model" = inl (on_load interrupted)
  /\ fst (fst (load_xgboost_model models_dir)) = None
  /\ same_files ["xgb_scaler.pkl"; "feature_names.pkl"] models_dir (MODELS_DIR w)
  /\ load_prophet_model models_dir = Some (ProphetTrainer.model pm)
  /\ forall to_int to_bool setup g g' body request c,
       App.lifespan models_dir setup g = inr g' ->
       ForecastRequest.validate to_int to_bool body = inr request ->
       ForecastRequest.use_xgboost request = true ->
       App.status_of (fst (App.post_forecast to_int to_bool g' (Some body) c)) = 503.
Proof.
  intros Hl Hp Hx Hw Ho Hd after models_dir. subst after models_dir.
  rewrite (main_raises_at_tree_model _ _ _ _ _ _ Hl Hp Hx Hw Ho Hd).
  cbn [fst snd MODELS_DIR].
  set (d := replaced "xgb_model.pkl" (Unreadable (on_load interrupted))
              (saved "prophet_model.pkl" (ProphetTrainer.model pm) (MODELS_DIR w))).
  assert (Hf : files d "xgb_model.pkl" = Unreadable (on_load interrupted))
    by apply FileFacts.put_same.
  assert (Hm : fst (fst (load_xgboost_model d)) = None).
  { unfold load_xgboost_model. cbn [fst]. unfold load_model_from_pickle.
    rewrite Hf. reflexivity. }
  split; [reflexivity|]. split; [|split; [exact Hm|split; [|split]]].
  - unfold load_pickle. rewrite Hf. reflexivity.
  - intros name Hin. unfold d. cbn [files replaced].
    simpl in Hin. destruct Hin as [<-|[<-|[]]];
      (rewrite FileFacts.put_other by discriminate; apply saved_other; discriminate).
  - unfold load_prophet_model.
    apply (FileFacts.load_model_pickled _ "prophet_model.pkl" _ _
             (ProphetTrainer.model pm)).
    unfold d. cbn [files replaced]. rewrite FileFacts.put_other by discriminate.
    apply saved_same.
  - intros to_int to_bool setup g g' body request c Hs Hv Hux.
    pose proof (AppFacts.lifespan_inv _ _ _ _ Hs) as (Hsvc & _).
    pose proof (AppFacts.handler_answers g' _ request c Hsvc
                  (proj1 (AppFacts.validate_bounds _ _ _ _ Hv))) as H.
    cbv zeta in H. rewrite Hux in H.
    assert (E : family_available (service_of d) true = false).
    { unfold family_available, service_of. cbn [Service.xgb_model].
      rewrite Hm. reflexivity. }
    rewrite E in H. unfold App.post_forecast. rewrite Hv, H. reflexivity.
Qed.

(** X26.  When the data file is missing, or the data loads and the
    seasonal trainer raises, [main] raises that exception and no
    file of the models directory is written. *)
Theorem failed_start_writes_nothing
  (csv : option DataFrame) (e : exn) (w : World) :
  load csv = raise e
  \/ (exists data, load csv = ok data /\ train_prophet data = raise e) ->
  fst (main csv w) = inl (Builtin e)
  /\ MODELS_DIR (snd (main csv w)) = MODELS_DIR w.
Proof.
  intros [Hl|(data & Hl & Hp)]; unfold Train.main;
    (erewrite run_bind_ok by reflexivity).
  - erewrite run_bind_raise by (apply run_result_raise; exact Hl).
    split; reflexivity.
  - erewrite run_bind_ok by (apply run_result_ok; exact Hl).
    unfold with_run. cbn [mlflow snd MODELS_DIR tracking].
    erewrite run_bind_raise by (apply run_result_raise; exact Hp).
    split; reflexivity.
Qed.

(** X30.  The loader does not look for the target column: a data
    file without it loads and is prepared as usual, and the missing
    column surfaces in training, where both trainers raise
    [KeyError] naming it; [main] raises it from the seasonal
    trainer, before any model file is written. *)
Theorem missing_target_surfaces_in_training (df : DataFrame) (w : World) :
  DataLoaderSpec.argsort_spec argsort ->
  has_column df TARGET_COLUMN = false ->
  exists data,
    load (Some df) = ok data
    /\ train_prophet data = raise (KeyError TARGET_COLUMN)
    /\ train_xgboost data = raise (KeyError TARGET_COLUMN)
    /\ fst (main (Some df) w) = inl (Builtin (KeyError TARGET_COLUMN))
    /\ MODELS_DIR (snd (main (Some df) w)) = MODELS_DIR w.
Proof.
  intros Hsort Hno.
  destruct (DataLoaderFacts.prepare_runs parse_text parse_number argsort Hsort df)
    as (df3 & ts3 & Hg3 & Hl3 & Hrun).
  destruct (DataLoaderFacts.sorted_frame argsort Hsort df3 ts3 Hg3 Hl3)
    as (Hg & _).
  set (out := reset_index (take_rows NA df3 (argsort ts3))) in *.
  set (ts := map (fun i => nth i ts3 0) (argsort ts3)) in *.
  assert (Hload : load (Some df) = ok (DataLoader.mkLoad out DATE_COLUMN TARGET_COLUMN)).
  { rewrite DataLoaderFacts.load_and_prepare_data_prepares, Hrun. reflexivity. }
  assert (Ht : getitem out TARGET_COLUMN = raise (KeyError TARGET_COLUMN)).
  { unfold getitem.
    rewrite (DataLoaderBehaviour.has_column_false out TARGET_COLUMN); [reflexivity|].
    rewrite (DataLoaderBehaviour.prepare_has_column _ _ _ df out TARGET_COLUMN Hrun)
      by discriminate.
    exact Hno. }
  assert (Hp : ProphetTrainer.train_prophet sqrt Prophet_fit out DATE_COLUMN TARGET_COLUMN
               = raise (KeyError TARGET_COLUMN)).
  { unfold ProphetTrainer.train_prophet, ProphetTrainer.prophet_frame.
    rewrite Hg. cbn [bind ok]. rewrite Ht. reflexivity. }
  exists (DataLoader.mkLoad out DATE_COLUMN TARGET_COLUMN).
  cbn [DataLoader.dataframe DataLoader.date_column DataLoader.target_column].
  split; [exact Hload|]. split; [exact Hp|]. split.
  - unfold XGBoost.train_xgboost, XGBoost.partitions, XGBoost.engineer_features,
      XGBoost.with_features, XGBoost.add_temporal_features.
    rewrite Hg. cbn [bind ok]. rewrite XGBoostFacts.dt_timestamps. cbn [bind ok].
    rewrite TrainerBehaviour.getitem_setitem_other, Hg by discriminate.
    cbn [bind ok]. rewrite XGBoostFacts.dt_timestamps. cbn [bind ok].
    rewrite !TrainerBehaviour.getitem_setitem_other, Hg by discriminate.
    cbn [bind ok]. rewrite XGBoostFacts.dt_timestamps. cbn [bind ok].
    unfold LAG_FEATURES. cbn [XGBoost.add_lag_features].
    rewrite !TrainerBehaviour.getitem_setitem_other, Ht by discriminate.
    reflexivity.
  - unfold Train.main.
    erewrite run_bind_ok by reflexivity.
    erewrite run_bind_ok by (apply run_result_ok; exact Hload).
    unfold with_run. cbn [mlflow snd MODELS_DIR tracking].
    cbn [DataLoader.dataframe DataLoader.date_column DataLoader.target_column].
    erewrite run_bind_raise by (apply run_result_raise; exact Hp).
    split; reflexivity.
Qed.

End Pipeline.

Lemma training_then_serving_witness :
  let csv := Some (Examples.hourly_record 890) in
  let data := Scenarios.loaded csv in
  let pm := Scenarios.seasonal_trained_on (DataLoader.dataframe data) in
  let r := Examples.trained_on (DataLoader.dataframe data) in
  let after := Scenarios.main_on csv Scenarios.fresh_world in
  let models_dir := MODELS_DIR (snd after) in
  fst after = inr tt
  /\ load_xgboost_model models_dir
     = (Some (XGBoost.model r), Some (scaler_object (XGBoost.scaler r)),
        Some (XGBoost.feature_names r))
  /\ load_prophet_model models_dir = Some (ProphetTrainer.model pm)
  /\ forall to_int to_bool setup g g' body request c,
       App.lifespan models_dir setup g = inr g' ->
       ForecastRequest.validate to_int to_bool body = inr request ->
       App.status_of (fst (App.post_forecast to_int to_bool g' (Some body) c)) = 200.
Proof.
  apply (training_then_serving Examples.sqrt0 Examples.fit0 Scenarios.fit_seasonal
           Examples.parse_date Examples.parse_none Scenarios.argsort_sorted
           (Some (Examples.hourly_record 890))
           (Scenarios.loaded (Some (Examples.hourly_record 890)))
           (Scenarios.seasonal_trained_on
              (DataLoader.dataframe (Scenarios.loaded (Some (Examples.hourly_record 890)))))
           (Examples.trained_on
              (DataLoader.dataframe (Scenarios.loaded (Some (Examples.hourly_record 890)))))
           Scenarios.fresh_world).
  - apply get_is_ok. vm_compute. reflexivity.
  - apply get_is_ok. vm_compute. reflexivity.
  - apply get_is_ok. vm_compute. reflexivity.
  - intros name. split; reflexivity.
Defined.

Lemma failed_tree_training_keeps_new_seasonal_model_witness :
  let csv := Some (Scenarios.text_sensor_record 890) in
  let data := Scenarios.loaded csv in
  let pm := Scenarios.seasonal_trained_on (DataLoader.dataframe data) in
  let after := Scenarios.main_on csv Scenarios.fresh_world in
  fst after = inl (Builtin (ValueError "could not convert string to float: n/a"))
  /\ load_prophet_model (MODELS_DIR (snd after)) = Some (ProphetTrainer.model pm)
  /\ same_files ["xgb_model.pkl"; "xgb_scaler.pkl"; "feature_names.pkl"]
       (MODELS_DIR (snd after)) (MODELS_DIR Scenarios.fresh_world)
  /\ last (tracking (snd after)) start_run = end_run "FAILED".
Proof.
  apply (failed_tree_training_keeps_new_seasonal_model
           Examples.sqrt0 Examples.fit0 Scenarios.fit_seasonal
           Examples.parse_date Examples.parse_none Scenarios.argsort_sorted
           (Some (Scenarios.text_sensor_record 890))
           (Scenarios.loaded (Some (Scenarios.text_sensor_record 890)))
           (Scenarios.seasonal_trained_on
              (DataLoader.dataframe
                 (Scenarios.loaded (Some (Scenarios.text_sensor_record 890)))))
           (ValueError "could not convert string to float: n/a")
           Scenarios.fresh_world).
  - apply get_is_ok. vm_compute. reflexivity.
  - apply get_is_ok. vm_compute. reflexivity.
  - vm_compute. reflexivity.
  - split; reflexivity.
Defined.

Lemma interrupted_save_loses_the_tree_model_witness :
  let csv := Some (Examples.hourly_record 890) in
  let w := mkWorld Scenarios.full_disk [] in
  let data := Scenarios.loaded csv in
  let pm := Scenarios.seasonal_trained_on (DataLoader.dataframe data) in
  let after := Scenarios.main_on csv w in
  let models_dir := MODELS_DIR (snd after) in
  fst after = inl (OSError "[Errno 28] No space left on device")
  /\ load_pickle models_dir "xgb_model.pkl" "XGBoost model"
     = inl (UnpicklingError "pickle data was truncated")
  /\ fst (fst (load_xgboost_model models_dir)) = None
  /\ same_files ["xgb_scaler.pkl"; "feature_names.pkl"] models_dir (MODELS_DIR w)
  /\ load_prophet_model models_dir = Some (ProphetTrainer.model pm)
  /\ forall to_int to_bool setup g g' body request c,
       App.lifespan models_dir setup g = inr g' ->
       ForecastRequest.validate to_int to_bool body = inr request ->
       ForecastRequest.use_xgboost request = true ->
       App.status_of (fst (App.post_forecast to_int to_bool g' (Some body) c)) = 503.
Proof.
  apply (interrupted_save_loses_the_tree_model
           Examples.sqrt0 Examples.fit0 Scenarios.fit_seasonal
           Examples.parse_date Examples.parse_none Scenarios.argsort_sorted
           (Some (Examples.hourly_record 890))
           (Scenarios.loaded (Some (Examples.hourly_record 890)))
           (Scenarios.seasonal_trained_on
              (DataLoader.dataframe (Scenarios.loaded (Some (Examples.hourly_record 890)))))
           (Examples.trained_on
              (DataLoader.dataframe (Scenarios.loaded (Some (Examples.hourly_record 890)))))
           (mkWorld Scenarios.full_disk [])
           (mkInterrupted (OSError "[Errno 28] No space left on device")
              (UnpicklingError "pickle data was truncated"))).
  - apply get_is_ok. vm_compute. reflexivity.
  - apply get_is_ok. vm_compute. reflexivity.
  - apply get_is_ok. vm_compute. reflexivity.
  - split; reflexivity.
  - reflexivity.
  - reflexivity.
Defined.

Lemma failed_start_writes_nothing_witness :
  fst (Scenarios.main_on None Scenarios.fresh_world)
  = inl (Builtin (FileNotFoundError
      "Dataset not found. Run 'python data/download_data.py' first to download real UCI data."))
  /\ MODELS_DIR (snd (Scenarios.main_on None Scenarios.fresh_world))
     = MODELS_DIR Scenarios.fresh_world.
Proof.
  apply (failed_start_writes_nothing Examples.sqrt0 Examples.fit0 Scenarios.fit_seasonal
           Examples.parse_date Examples.parse_none Scenarios.argsort_sorted
           None).
  left. reflexivity.
Defined.

Lemma missing_target_surfaces_in_training_witness :
  exists data,
    DataLoader.load_and_prepare_data Examples.parse_date Examples.parse_none
      Examples.argsort_stable (Some Scenarios.untargeted_file) = ok data
    /\ ProphetTrainer.train_prophet Examples.sqrt0 Scenarios.fit_seasonal
         (DataLoader.dataframe data) (DataLoader.date_column data)
         (DataLoader.target_column data)
       = raise (KeyError TARGET_COLUMN)
    /\ XGBoost.train_xgboost Examples.sqrt0 Examples.fit0
         (DataLoader.dataframe data) (DataLoader.date_column data)
         (DataLoader.target_column data)
       = raise (KeyError TARGET_COLUMN)
    /\ fst (Train.main Examples.sqrt0 Examples.fit0 Scenarios.fit_seasonal
              Examples.parse_date Examples.parse_none Examples.argsort_stable
              (Some Scenarios.untargeted_file) Scenarios.fresh_world)
       = inl (Builtin (KeyError TARGET_COLUMN))
    /\ MODELS_DIR (snd (Train.main Examples.sqrt0 Examples.fit0 Scenarios.fit_seasonal
                          Examples.parse_date Examples.parse_none Examples.argsort_stable
                          (Some Scenarios.untargeted_file) Scenarios.fresh_world))
       = MODELS_DIR Scenarios.fresh_world.
Proof.
  apply (missing_target_surfaces_in_training Examples.sqrt0 Examples.fit0
           Scenarios.fit_seasonal Examples.parse_date Examples.parse_none
           Examples.argsort_stable Scenarios.untargeted_file Scenarios.fresh_world).
  - apply DataLoaderFacts.argsort_stable_spec.
  - reflexivity.
Defined.

End TrainFacts.
